(** * Text layout and composition engine of the card generator

    A shallow embedding of the [CardGenerator] class of
    [card-generator.ts]: [wrapText], [getTextPosition],
    [getCanvasTextAlign], [getCanvasTextBaseline], [drawBoundingBox],
    [drawTextBackground], [drawText], [drawCardArt],
    [drawElementTemplate] and [generateCard], and around them the
    constructor, [sanitizeFilename], [loadFonts], [clearAllCaches],
    [loadCSV], [generateAllCards] and [generateSingleCard].

    Modelling conventions.
    - A JavaScript [number] is a rational [Q]: arithmetic is exact, so
      rounding, NaN and the infinities of IEEE doubles are outside the
      model.  Equalities that need arithmetic are stated with [==].
    - A JavaScript string is a [string]; [split], [join], [includes] and
      [replace] are the [String.prototype] methods of the same name.
    - An optional property [p?: T] is an [option]; the [||] and [if]
      tests of the source go through explicit truthiness functions.
    - The 2D context is a record of the drawing state the source
      assigns to, a stack for [save]/[restore], and the list of draw
      calls issued so far.  Each draw call records the part of the
      drawing state the canvas reads when it executes the call.
    - A CSS font shorthand [`${size}px ${family}`] is the pair
      [(size, family)].
    - [console] output is not part of the model.
    - Fonts and files are reached through collaborators whose outcome
      is a function of their arguments; the calls that change the
      world are recorded in the order they are made. *)

From Stdlib Require Import Arith QArith String List Bool Ascii Lia Lqa.
Import ListNotations.

Local Open Scope string_scope.
Local Open Scope list_scope.
Local Open Scope Q_scope.

(** ** JavaScript values *)

Module Js.

(** [a < b] on numbers. *)
Definition ltb (a b : Q) : bool := negb (Qle_bool b a).

(** [a > b] on numbers. *)
Definition gtb (a b : Q) : bool := ltb b a.

(** Truthiness of an optional number: [undefined] and [0] are falsy. *)
Definition truthy_num (o : option Q) : bool :=
  match o with
  | Some q => negb (Qeq_bool q 0)
  | None => false
  end.

(** [o || d] for an optional number [o]. *)
Definition or_num (o : option Q) (d : Q) : Q :=
  match o with
  | Some q => if Qeq_bool q 0 then d else q
  | None => d
  end.

(** Truthiness of a string: only the empty string is falsy. *)
Definition truthy (s : string) : bool :=
  match s with
  | EmptyString => false
  | String _ _ => true
  end.

(** Truthiness of an optional string. *)
Definition truthy_str (o : option string) : bool :=
  match o with
  | Some s => truthy s
  | None => false
  end.

(** [o || d] for an optional string [o]. *)
Definition or_str (o : option string) (d : string) : string :=
  match o with
  | Some s => if truthy s then s else d
  | None => d
  end.

(** [s.split(" ")]: the pieces between consecutive single spaces. *)
Fixpoint split (s : string) : list string :=
  match s with
  | EmptyString => [EmptyString]
  | String c rest =>
      if Ascii.eqb c " "%char then EmptyString :: split rest
      else match split rest with
           | [] => [String c EmptyString]
           | w :: ws => String c w :: ws
           end
  end.

(** [lines.join(sep)]. *)
Definition join (sep : string) (l : list string) : string :=
  String.concat sep l.

(** [s.startsWith(sub)]. *)
Fixpoint startsWith (sub s : string) : bool :=
  match sub, s with
  | EmptyString, _ => true
  | String _ _, EmptyString => false
  | String a sub', String b s' => Ascii.eqb a b && startsWith sub' s'
  end.

(** [s.includes(sub)]: [sub] starts at some position of [s]. *)
Fixpoint includes (sub s : string) : bool :=
  startsWith sub s ||
  match s with
  | EmptyString => false
  | String _ rest => includes sub rest
  end.

(** [s.replace(pat, rep)] with a string pattern: the first occurrence. *)
Fixpoint replace (pat rep s : string) : string :=
  if startsWith pat s
  then (rep ++ String.substring (String.length pat)
                 (String.length s - String.length pat)%nat s)%string
  else match s with
       | EmptyString => EmptyString
       | String c rest => String c (replace pat rep rest)
       end.

(** [s.charAt(0)]. *)
Definition charAt0 (s : string) : string :=
  match s with
  | EmptyString => EmptyString
  | String c _ => String c EmptyString
  end.

(** [s.slice(1)]. *)
Definition slice1 (s : string) : string :=
  match s with
  | EmptyString => EmptyString
  | String _ rest => rest
  end.

(** A number that is a count or an index. *)
Definition of_nat (n : nat) : Q := inject_Z (Z.of_nat n).

End Js.

(** ** The 2D drawing context *)

(** The font shorthand assigned to [ctx.font]. *)
Record Font : Type := mkFont { font_size : Q; font_family : string }.

(** The value of [ctx.filter]. *)
Inductive Filter : Type :=
| FilterNone
| FilterBlur (px : Q).

Section Canvas.

(** A decoded image, as [loadImage] resolves to. *)
Variable Image : Type.

(** A draw call, with the drawing state it is executed under. *)
Inductive DrawOp : Type :=
| FillRect (x y w h : Q) (fillStyle : string) (filter : Filter)
| StrokeRect (x y w h : Q) (strokeStyle : string) (lineWidth : Q)
    (filter : Filter)
| FillText (text : string) (x y : Q) (font : Font) (fillStyle : string)
    (textAlign textBaseline : string) (filter : Filter)
| DrawImage (image : Image) (x y w h : Q) (filter : Filter).

(** The properties of the context that the source assigns to. *)
Record DrawState : Type := mkDrawState {
  fillStyle : string;
  strokeStyle : string;
  lineWidth : Q;
  font : Font;
  textAlign : string;
  textBaseline : string;
  filter : Filter
}.

Record Context2D : Type := mkContext {
  state : DrawState;
  saved : list DrawState;
  ops : list DrawOp
}.

(** [ctx.measureText(text).width], supplied by the canvas: it depends
    on the font in force and on the text. *)
Variable measure : Font -> string -> Q.

Definition measureText (ctx : Context2D) (text : string) : Q :=
  measure (font (state ctx)) text.

(** ** LineWrapper *)

(** One iteration of the [for] loop of [wrapText], on the pair
    [(lines, currentLine)]. *)
Definition wrapText_step (ctx : Context2D) (maxWidth : Q)
    (acc : list string * string) (word : string) : list string * string :=
  let '(lines, currentLine) := acc in
  let width := measureText ctx (currentLine ++ " " ++ word)%string in
  if Js.ltb width maxWidth
  then (lines, (currentLine ++ " " ++ word)%string)
  else (lines ++ [currentLine], word).

Definition wrapText (ctx : Context2D) (text : string) (maxWidth : Q)
    : list string :=
  let words := Js.split text in
  let currentLine := Js.or_str (nth_error words 0) "" in
  let '(lines, currentLine) :=
    fold_left (wrapText_step ctx maxWidth) (skipn 1 words)
      ([], currentLine) in
  lines ++ [currentLine].

(** The greedy word-wrap as the specification words it: a current
    line that either absorbs the next word or is closed. *)
Fixpoint greedy_lines (width : string -> Q) (maxWidth : Q)
    (currentLine : string) (rest : list string) : list string :=
  match rest with
  | [] => [currentLine]
  | word :: rest' =>
      let tentative := (currentLine ++ " " ++ word)%string in
      if Js.ltb (width tentative) maxWidth
      then greedy_lines width maxWidth tentative rest'
      else currentLine :: greedy_lines width maxWidth word rest'
  end.

Definition greedy_wrap (width : string -> Q) (text : string) (maxWidth : Q)
    : list string :=
  match Js.split text with
  | [] => greedy_lines width maxWidth "" []
  | first :: rest => greedy_lines width maxWidth first rest
  end.

End Canvas.

Arguments FillRect {Image}.
Arguments StrokeRect {Image}.
Arguments FillText {Image}.
Arguments DrawImage {Image}.
Arguments mkContext {Image}.
Arguments state {Image}.
Arguments saved {Image}.
Arguments ops {Image}.
Arguments measureText {Image}.
Arguments wrapText {Image}.
Arguments wrapText_step {Image}.

(** ** Data model *)

Module Point.
Record t : Type := mk { x : Q; y : Q }.
End Point.

Module TextLayout.
(** [align] is typed [TextAlignment] in the source; at run time it is
    the string found in the layout configuration. *)
Record t : Type := mk {
  x : Q;
  y : Q;
  width : Q;
  height : Q;
  fontSize : Q;
  fontFamily : string;
  color : string;
  align : string;
  maxWidth : option Q;
  lineHeight : option Q;
  padding : option Q;
  backgroundColor : option string;
  backgroundBlur : option Q
}.

(** [{ ...layout, x, y, width, height }]. *)
Definition with_rect (layout : t) (x' y' width' height' : Q) : t :=
  mk x' y' width' height' (fontSize layout) (fontFamily layout)
     (color layout) (align layout) (maxWidth layout) (lineHeight layout)
     (padding layout) (backgroundColor layout) (backgroundBlur layout).
End TextLayout.

Module CardData.
Record t : Type := mk {
  Card : string;
  Name : string;
  Element : string;
  Cost : string;
  Lore : string;
  Attack : string;
  Armor : string;
  Skills : string;
  Address : string
}.

(** [keyof CardData]. *)
Inductive key : Type :=
| KCard | KName | KElement | KCost | KLore | KAttack | KArmor | KSkills
| KAddress.

(** [cardData[dataKey]]. *)
Definition get (d : t) (k : key) : string :=
  match k with
  | KCard => Card d
  | KName => Name d
  | KElement => Element d
  | KCost => Cost d
  | KLore => Lore d
  | KAttack => Attack d
  | KArmor => Armor d
  | KSkills => Skills d
  | KAddress => Address d
  end.
End CardData.

Module CardLayout.
(** The merged layout of the configuration.  A partial override may
    carry an undefined field, which [generateCard] tests for. *)
Record t : Type := mk {
  name : option TextLayout.t;
  cost : option TextLayout.t;
  lore : option TextLayout.t;
  attack : option TextLayout.t;
  armor : option TextLayout.t;
  skills : option TextLayout.t
}.

(** [keyof CardLayout]. *)
Inductive key : Type := Kname | Kcost | Klore | Kattack | Karmor | Kskills.

(** [layout[layoutKey]]. *)
Definition get (l : t) (k : key) : option TextLayout.t :=
  match k with
  | Kname => name l
  | Kcost => cost l
  | Klore => lore l
  | Kattack => attack l
  | Karmor => armor l
  | Kskills => skills l
  end.

(** The key as the string passed for the debug label. *)
Definition key_string (k : key) : string :=
  match k with
  | Kname => "name"
  | Kcost => "cost"
  | Klore => "lore"
  | Kattack => "attack"
  | Karmor => "armor"
  | Kskills => "skills"
  end.
End CardLayout.

Module Config.
(** [this.config], after the constructor filled in the defaults. *)
Record t : Type := mk {
  templatesPath : string;
  csvPath : string;
  outputDir : string;
  cardWidth : Q;
  cardHeight : Q;
  fonts : list (string * string);
  layout : CardLayout.t;
  cardArtX : Q;
  cardArtY : Q;
  cardArtWidth : Q;
  cardArtHeight : Q;
  backgroundColor : string;
  webpQuality : Q
}.
End Config.

(** The generator object: [this]. *)
Record CardGenerator : Type := mkCardGenerator {
  config : Config.t;
  loadedFonts : list string;
  cardData : list CardData.t
}.

(** [set.has(name)] on the [Set<string>] of loaded fonts. *)
Definition Set_has (set : list string) (name : string) : bool :=
  existsb (String.eqb name) set.

(** ** AnchorResolver *)

Definition getTextPosition (layout : TextLayout.t) : Point.t :=
  let x := TextLayout.x layout in
  let y := TextLayout.y layout in
  let width := TextLayout.width layout in
  let height := TextLayout.height layout in
  let align := TextLayout.align layout in
  if String.eqb align "top-left" then Point.mk x y
  else if String.eqb align "top-center" then Point.mk (x + width / 2) y
  else if String.eqb align "top-right" then Point.mk (x + width) y
  else if String.eqb align "left" then Point.mk x (y + height / 2)
  else if String.eqb align "center"
       then Point.mk (x + width / 2) (y + height / 2)
  else if String.eqb align "right"
       then Point.mk (x + width) (y + height / 2)
  else if String.eqb align "bottom-left" then Point.mk x (y + height)
  else if String.eqb align "bottom-center"
       then Point.mk (x + width / 2) (y + height)
  else if String.eqb align "bottom-right"
       then Point.mk (x + width) (y + height)
  else Point.mk (x + width / 2) (y + height / 2).

Definition getCanvasTextAlign (align : string) : string :=
  if Js.includes "left" align then "left"
  else if Js.includes "right" align then "right"
  else "center".

Definition getCanvasTextBaseline (align : string) : string :=
  if Js.includes "top" align then "top"
  else if Js.includes "bottom" align then "bottom"
  else "middle".

(** The resolver's answer for one block: anchor point, horizontal mode
    and vertical mode, as [drawText] obtains them. *)
Definition resolve (layout : TextLayout.t) : Point.t * string * string :=
  (getTextPosition layout,
   getCanvasTextAlign (TextLayout.align layout),
   getCanvasTextBaseline (TextLayout.align layout)).

(** The nine alignment keywords of [TextAlignment]. *)
Definition alignments : list string :=
  ["top-left"; "top-center"; "top-right"; "left"; "center"; "right";
   "bottom-left"; "bottom-center"; "bottom-right"].

Definition is_alignment (s : string) : bool :=
  existsb (String.eqb s) alignments.

(** ** Drawing commands

    A command runs on the context, may issue draw calls and assign to
    the drawing state, and either returns or throws.  The context keeps
    what was done before a throw, as a JavaScript object does. *)

Inductive Result (E A : Type) : Type :=
| Ok (a : A)
| Throw (e : E).

Arguments Ok {E A}.
Arguments Throw {E A}.

Section Commands.

Context {Image Exn : Type}.

Definition M (A : Type) : Type :=
  Context2D Image -> Result Exn A * Context2D Image.

Definition ret {A : Type} (a : A) : M A := fun ctx => (Ok a, ctx).

Definition bind {A B : Type} (c : M A) (k : A -> M B) : M B :=
  fun ctx =>
    match c ctx with
    | (Ok a, ctx') => k a ctx'
    | (Throw e, ctx') => (Throw e, ctx')
    end.

(** [try { body } catch (error) { handler }]. *)
Definition try_catch {A : Type} (body : M A) (handler : Exn -> M A) : M A :=
  fun ctx =>
    match body ctx with
    | (Ok a, ctx') => (Ok a, ctx')
    | (Throw e, ctx') => handler e ctx'
    end.

(** A read of the context object. *)
Definition with_ctx {A : Type} (f : Context2D Image -> A) : M A :=
  fun ctx => (Ok (f ctx), ctx).

(** An awaited promise: its outcome is the outcome of the command. *)
Definition await {A : Type} (r : Result Exn A) : M A :=
  fun ctx => (r, ctx).

Definition assign (f : DrawState -> DrawState) : M unit :=
  fun ctx => (Ok tt, mkContext (f (state ctx)) (saved ctx) (ops ctx)).

Definition issue (op : DrawState -> DrawOp Image) : M unit :=
  fun ctx =>
    (Ok tt, mkContext (state ctx) (saved ctx) (ops ctx ++ [op (state ctx)])).

Definition set_fillStyle (v : string) : M unit :=
  assign (fun s => mkDrawState v (strokeStyle s) (lineWidth s) (font s)
                     (textAlign s) (textBaseline s) (filter s)).

Definition set_strokeStyle (v : string) : M unit :=
  assign (fun s => mkDrawState (fillStyle s) v (lineWidth s) (font s)
                     (textAlign s) (textBaseline s) (filter s)).

Definition set_lineWidth (v : Q) : M unit :=
  assign (fun s => mkDrawState (fillStyle s) (strokeStyle s) v (font s)
                     (textAlign s) (textBaseline s) (filter s)).

Definition set_font (v : Font) : M unit :=
  assign (fun s => mkDrawState (fillStyle s) (strokeStyle s) (lineWidth s) v
                     (textAlign s) (textBaseline s) (filter s)).

Definition set_textAlign (v : string) : M unit :=
  assign (fun s => mkDrawState (fillStyle s) (strokeStyle s) (lineWidth s)
                     (font s) v (textBaseline s) (filter s)).

Definition set_textBaseline (v : string) : M unit :=
  assign (fun s => mkDrawState (fillStyle s) (strokeStyle s) (lineWidth s)
                     (font s) (textAlign s) v (filter s)).

Definition set_filter (v : Filter) : M unit :=
  assign (fun s => mkDrawState (fillStyle s) (strokeStyle s) (lineWidth s)
                     (font s) (textAlign s) (textBaseline s) v).

(** [ctx.save()]. *)
Definition save : M unit :=
  fun ctx => (Ok tt, mkContext (state ctx) (state ctx :: saved ctx) (ops ctx)).

(** [ctx.restore()]: nothing happens on an empty stack. *)
Definition restore : M unit :=
  fun ctx =>
    match saved ctx with
    | [] => (Ok tt, ctx)
    | s :: stack => (Ok tt, mkContext s stack (ops ctx))
    end.

Definition fillRect (x y w h : Q) : M unit :=
  issue (fun s => FillRect x y w h (fillStyle s) (filter s)).

Definition strokeRect (x y w h : Q) : M unit :=
  issue (fun s => StrokeRect x y w h (strokeStyle s) (lineWidth s) (filter s)).

Definition fillText (text : string) (x y : Q) : M unit :=
  issue (fun s => FillText text x y (font s) (fillStyle s) (textAlign s)
                    (textBaseline s) (filter s)).

Definition drawImage (image : Image) (x y w h : Q) : M unit :=
  issue (fun s => DrawImage image x y w h (filter s)).

(** [array.forEach((item, index) => body)], from [index] on. *)
Fixpoint forEach {A : Type} (array : list A) (body : A -> nat -> M unit)
    (index : nat) : M unit :=
  match array with
  | [] => ret tt
  | item :: rest =>
      bind (body item index) (fun _ => forEach rest body (S index))
  end.

(** [for (const item of array) body]. *)
Fixpoint forOf {A : Type} (array : list A) (body : A -> M unit) : M unit :=
  match array with
  | [] => ret tt
  | item :: rest => bind (body item) (fun _ => forOf rest body)
  end.

(** The context a command leaves, and the draw calls it issued. *)
Definition exec {A : Type} (c : M A) (ctx : Context2D Image)
    : Context2D Image := snd (c ctx).

Definition drawn {A : Type} (c : M A) (ctx : Context2D Image)
    : list (DrawOp Image) :=
  skipn (length (ops ctx)) (ops (exec c ctx)).

End Commands.

Arguments M : clear implicits.

Declare Scope cmd_scope.
Delimit Scope cmd_scope with cmd.
Notation "x <- c ;; k" := (bind c (fun x => k))
  (at level 61, c at next level, right associativity) : cmd_scope.
Notation "c ;; k" := (bind c (fun _ => k))
  (at level 61, right associativity) : cmd_scope.

(** ** The canvas *)

Record Canvas (Image : Type) : Type := mkCanvas {
  canvas_width : Q;
  canvas_height : Q;
  context : Context2D Image
}.

Arguments mkCanvas {Image}.
Arguments canvas_width {Image}.
Arguments canvas_height {Image}.
Arguments context {Image}.

(** The drawing state of a new context, as the canvas defines it. *)
Definition initialState : DrawState :=
  mkDrawState "#000000" "#000000" 1 (mkFont 10 "sans-serif") "start"
    "alphabetic" FilterNone.

(** [createCanvas(width, height)], with its 2D context. *)
Definition createCanvas {Image : Type} (width height : Q) : Canvas Image :=
  mkCanvas width height (mkContext initialState [] []).

(** ** The generator *)

Section Generator.

Context {Image Exn : Type}.

(** The collaborators: text measurement of the canvas, [loadImage] of
    the canvas library, and the library functions building the
    template path. *)
Variable measure : Font -> string -> Q.
Variable loadImage : string -> Result Exn Image.
Variable toUpperCase toLowerCase : string -> string.
Variable path_join : string -> string -> string.

Variable this : CardGenerator.

Local Open Scope cmd_scope.
Local Abbreviation Cmd := (M Image Exn).

Definition getDefaultLayout : CardLayout.t :=
  CardLayout.mk
    (Some (TextLayout.mk 75 40 600 80 32 "Stone Serif Semibold" "#000"
             "center" None None None None None))
    (Some (TextLayout.mk 650 40 50 50 28 "Stone Serif Semibold" "#fff"
             "center" None None None None None))
    (Some (TextLayout.mk 100 540 550 100 18 "Stone Serif Semibold" "#333"
             "center" None (Some 22) None None None))
    (Some (TextLayout.mk 100 950 60 60 36 "Stone Serif Semibold" "#fff"
             "center" None None None None None))
    (Some (TextLayout.mk 240 950 60 60 36 "Stone Serif Semibold" "#fff"
             "center" None None None None None))
    (Some (TextLayout.mk 100 660 550 80 16 "Stone Serif Semibold" "#444"
             "center" None (Some 20) None None None)).

Definition getDebugColors (k : CardLayout.key) : string :=
  match k with
  | CardLayout.Kname => "rgba(255, 0, 0, 0.3)"
  | CardLayout.Kcost => "rgba(0, 255, 0, 0.3)"
  | CardLayout.Klore => "rgba(0, 0, 255, 0.3)"
  | CardLayout.Kattack => "rgba(255, 255, 0, 0.3)"
  | CardLayout.Karmor => "rgba(255, 0, 255, 0.3)"
  | CardLayout.Kskills => "rgba(255, 128, 0, 0.3)"
  end.

Definition getTemplatePathForElement (element : string) : string :=
  let capitalizedElement :=
    (toUpperCase (Js.charAt0 element)
     ++ toLowerCase (Js.slice1 element))%string in
  path_join (Config.templatesPath (config this))
    (capitalizedElement ++ ".png")%string.

Definition getImageUrlFromAddress (address : string) : string :=
  ("https://beetle-game.s3.us-east-1.amazonaws.com/images/"
   ++ address ++ ".png")%string.

Definition drawBoundingBox (layout : TextLayout.t) (color label : string)
    : Cmd unit :=
  let x := TextLayout.x layout in
  let y := TextLayout.y layout in
  let width := TextLayout.width layout in
  let height := TextLayout.height layout in
  set_fillStyle color ;;
  fillRect x y width height ;;
  set_strokeStyle (Js.replace "0.3" "0.8" color) ;;
  set_lineWidth 2 ;;
  strokeRect x y width height ;;
  set_fillStyle (Js.replace "0.3" "0.9" color) ;;
  set_font (mkFont 14 "Arial") ;;
  set_textAlign "left" ;;
  set_textBaseline "top" ;;
  let fontStatus :=
    if Set_has (loadedFonts this) (TextLayout.fontFamily layout)
    then "✓" else "✗" in
  let labelText :=
    (label ++ " (" ++ TextLayout.fontFamily layout ++ " " ++ fontStatus
     ++ ")")%string in
  fillText labelText (x + 4) (y + 16).

Definition drawTextBackground (layout : TextLayout.t) : Cmd unit :=
  match TextLayout.backgroundColor layout with
  | None => ret tt
  | Some backgroundColor =>
      if negb (Js.truthy backgroundColor) then ret tt
      else
        save ;;
        set_fillStyle backgroundColor ;;
        match TextLayout.backgroundBlur layout with
        | Some backgroundBlur =>
            if negb (Qeq_bool backgroundBlur 0) && Js.gtb backgroundBlur 0
            then set_filter (FilterBlur backgroundBlur)
            else ret tt
        | None => ret tt
        end ;;
        fillRect (TextLayout.x layout) (TextLayout.y layout)
          (TextLayout.width layout) (TextLayout.height layout) ;;
        restore
  end.

(** The local [paddedLayout] of [drawText]. *)
Definition paddedLayout (layout : TextLayout.t) : TextLayout.t :=
  let padding := Js.or_num (TextLayout.padding layout) 0 in
  TextLayout.with_rect layout
    (TextLayout.x layout + padding)
    (TextLayout.y layout + padding)
    (TextLayout.width layout - padding * 2)
    (TextLayout.height layout - padding * 2).

(** The test [layout.maxWidth || text.includes(" ")] of [drawText]
    that selects the wrapping branch. *)
Definition usesWrapper (layout : TextLayout.t) (text : string) : bool :=
  Js.truthy_num (TextLayout.maxWidth layout) || Js.includes " " text.

Definition drawText (text : string) (layout : TextLayout.t)
    (debugMode : bool) (debugColor debugLabel : option string)
    : Cmd unit :=
  drawTextBackground layout ;;
  (if debugMode && Js.truthy_str debugColor && Js.truthy_str debugLabel
   then drawBoundingBox layout (Js.or_str debugColor "")
          (Js.or_str debugLabel "")
   else ret tt) ;;
  let fontFamily :=
    if Set_has (loadedFonts this) (TextLayout.fontFamily layout)
    then TextLayout.fontFamily layout
    else "Arial" in
  let fontString := mkFont (TextLayout.fontSize layout) fontFamily in
  set_font fontString ;;
  set_fillStyle (TextLayout.color layout) ;;
  set_textAlign (getCanvasTextAlign (TextLayout.align layout)) ;;
  set_textBaseline (getCanvasTextBaseline (TextLayout.align layout)) ;;
  let paddedLayout := paddedLayout layout in
  let position := getTextPosition paddedLayout in
  let maxWidth :=
    Js.or_num (TextLayout.maxWidth paddedLayout)
      (TextLayout.width paddedLayout) in
  if usesWrapper layout text then
    lines <- with_ctx (fun ctx => wrapText measure ctx text maxWidth) ;;
    let lineHeight :=
      Js.or_num (TextLayout.lineHeight layout)
        (TextLayout.fontSize layout * 1.2) in
    let totalTextHeight := Js.of_nat (length lines) * lineHeight in
    let startY :=
      if Js.includes "bottom" (TextLayout.align paddedLayout)
      then Point.y position - totalTextHeight + lineHeight
      else if String.eqb (TextLayout.align paddedLayout) "center"
              || String.eqb (TextLayout.align paddedLayout) "left"
              || String.eqb (TextLayout.align paddedLayout) "right"
      then Point.y position - totalTextHeight / 2 + lineHeight / 2
      else Point.y position in
    forEach lines
      (fun line index =>
         let y := startY + Js.of_nat index * lineHeight in
         fillText line (Point.x position) y)
      0%nat
  else fillText text (Point.x position) (Point.y position).

Definition drawCardArt (imagePath : string) (debugMode : bool) : Cmd unit :=
  let cardArtX := Config.cardArtX (config this) in
  let cardArtY := Config.cardArtY (config this) in
  let cardArtWidth := Config.cardArtWidth (config this) in
  let cardArtHeight := Config.cardArtHeight (config this) in
  try_catch
    (image <- await (loadImage imagePath) ;;
     drawImage image cardArtX cardArtY cardArtWidth cardArtHeight ;;
     if debugMode then
       set_strokeStyle "rgba(0, 255, 0, 0.8)" ;;
       set_lineWidth 3 ;;
       strokeRect cardArtX cardArtY cardArtWidth cardArtHeight ;;
       set_fillStyle "rgba(0, 255, 0, 0.9)" ;;
       set_font (mkFont 16 "Arial") ;;
       set_textAlign "left" ;;
       set_textBaseline "top" ;;
       fillText "Card Art" (cardArtX + 4) (cardArtY + 20)
     else ret tt)
    (fun error =>
       set_fillStyle "#ccc" ;;
       fillRect cardArtX cardArtY cardArtWidth cardArtHeight ;;
       set_fillStyle "#666" ;;
       set_font (mkFont 16 "Stone Serif Semibold") ;;
       set_textAlign "center" ;;
       set_textBaseline "middle" ;;
       fillText "Image Not Found" (cardArtX + cardArtWidth / 2)
         (cardArtY + cardArtHeight / 2) ;;
       if debugMode then
         set_strokeStyle "rgba(255, 0, 0, 0.8)" ;;
         set_lineWidth 3 ;;
         strokeRect cardArtX cardArtY cardArtWidth cardArtHeight
       else ret tt).

Definition drawElementTemplate (element : string) : Cmd unit :=
  let templatePath := getTemplatePathForElement element in
  try_catch
    (template <- await (loadImage templatePath) ;;
     drawImage template 0 0 (Config.cardWidth (config this))
       (Config.cardHeight (config this)))
    (fun error => ret tt).

Definition textMappings : list (CardData.key * CardLayout.key) :=
  [(CardData.KName, CardLayout.Kname);
   (CardData.KCost, CardLayout.Kcost);
   (CardData.KLore, CardLayout.Klore);
   (CardData.KAttack, CardLayout.Kattack);
   (CardData.KArmor, CardLayout.Karmor);
   (CardData.KSkills, CardLayout.Kskills)].

(** The body of the loop over [textMappings] in [generateCard]. *)
Definition drawField (cardData : CardData.t) (debugMode : bool)
    (mapping : CardData.key * CardLayout.key) : Cmd unit :=
  let '(dataKey, layoutKey) := mapping in
  let value := CardData.get cardData dataKey in
  match CardLayout.get (Config.layout (config this)) layoutKey with
  | Some layout =>
      if Js.truthy value
      then drawText value layout debugMode (Some (getDebugColors layoutKey))
             (Some (CardLayout.key_string layoutKey))
      else ret tt
  | None => ret tt
  end.

(** What [generateCard] does on the context of its new canvas. *)
Definition compose (cardData : CardData.t) (debugMode : bool) : Cmd unit :=
  set_fillStyle (Config.backgroundColor (config this)) ;;
  fillRect 0 0 (Config.cardWidth (config this))
    (Config.cardHeight (config this)) ;;
  (if Js.truthy (CardData.Element cardData)
   then drawElementTemplate (CardData.Element cardData)
   else ret tt) ;;
  (if Js.truthy (CardData.Address cardData)
   then drawCardArt (getImageUrlFromAddress (CardData.Address cardData))
          debugMode
   else ret tt) ;;
  forOf textMappings (drawField cardData debugMode).

Definition generateCard (cardData : CardData.t) (debugMode : bool)
    : Result Exn (Canvas Image) :=
  let canvas : Canvas Image :=
    createCanvas (Config.cardWidth (config this))
      (Config.cardHeight (config this)) in
  let ctx := context canvas in
  match compose cardData debugMode ctx with
  | (Ok _, ctx') =>
      Ok (mkCanvas (canvas_width canvas) (canvas_height canvas) ctx')
  | (Throw e, _) => Throw e
  end.

End Generator.

(** ** What is drawn

    Closed forms of the draw calls of a text block and of the
    placeholder, used to state what [drawText] and [generateCard]
    issue. *)

Section Views.

Context {Image : Type}.
Variable measure : Font -> string -> Q.
Variable this : CardGenerator.

(** The lines of a wrapped block, placed one line height apart. *)
Fixpoint placed_lines (call : string -> Q -> DrawOp Image)
    (startY lineHeight : Q) (lines : list string) (index : nat)
    : list (DrawOp Image) :=
  match lines with
  | [] => []
  | line :: rest =>
      call line (startY + Js.of_nat index * lineHeight)
      :: placed_lines call startY lineHeight rest (S index)
  end.

(** The font of a block: the declared family when it was loaded,
    the fallback family otherwise. *)
Definition resolvedFont (layout : TextLayout.t) : Font :=
  mkFont (TextLayout.fontSize layout)
    (if Set_has (loadedFonts this) (TextLayout.fontFamily layout)
     then TextLayout.fontFamily layout else "Arial").

(** The line height of a block. *)
Definition blockLineHeight (layout : TextLayout.t) : Q :=
  Js.or_num (TextLayout.lineHeight layout) (TextLayout.fontSize layout * 1.2).

(** The wrap limit of a block. *)
Definition blockMaxWidth (layout : TextLayout.t) : Q :=
  Js.or_num (TextLayout.maxWidth (paddedLayout layout))
    (TextLayout.width (paddedLayout layout)).

(** The draw Y of the first of [n] wrapped lines. *)
Definition firstLineY (layout : TextLayout.t) (n : nat) : Q :=
  let position := getTextPosition (paddedLayout layout) in
  let lineHeight := blockLineHeight layout in
  let totalTextHeight := Js.of_nat n * lineHeight in
  if Js.includes "bottom" (TextLayout.align layout)
  then Point.y position - totalTextHeight + lineHeight
  else if String.eqb (TextLayout.align layout) "center"
          || String.eqb (TextLayout.align layout) "left"
          || String.eqb (TextLayout.align layout) "right"
  then Point.y position - totalTextHeight / 2 + lineHeight / 2
  else Point.y position.

(** One [fillText] of the block's text at the block's anchor X. *)
Definition text_call (layout : TextLayout.t) (f0 : Filter) (line : string)
    (y : Q) : DrawOp Image :=
  FillText line (Point.x (getTextPosition (paddedLayout layout))) y
    (resolvedFont layout) (TextLayout.color layout)
    (getCanvasTextAlign (TextLayout.align layout))
    (getCanvasTextBaseline (TextLayout.align layout)) f0.

Definition background_calls (layout : TextLayout.t) (f0 : Filter)
    : list (DrawOp Image) :=
  match TextLayout.backgroundColor layout with
  | None => []
  | Some backgroundColor =>
      if Js.truthy backgroundColor
      then [FillRect (TextLayout.x layout) (TextLayout.y layout)
              (TextLayout.width layout) (TextLayout.height layout)
              backgroundColor
              match TextLayout.backgroundBlur layout with
              | Some blur =>
                  if negb (Qeq_bool blur 0) && Js.gtb blur 0
                  then FilterBlur blur else f0
              | None => f0
              end]
      else []
  end.

Definition box_calls (layout : TextLayout.t) (color label : string)
    (f0 : Filter) : list (DrawOp Image) :=
  let x := TextLayout.x layout in
  let y := TextLayout.y layout in
  let width := TextLayout.width layout in
  let height := TextLayout.height layout in
  [FillRect x y width height color f0;
   StrokeRect x y width height (Js.replace "0.3" "0.8" color) 2 f0;
   FillText
     (label ++ " (" ++ TextLayout.fontFamily layout ++ " "
      ++ (if Set_has (loadedFonts this) (TextLayout.fontFamily layout)
          then "✓" else "✗") ++ ")")%string
     (x + 4) (y + 16) (mkFont 14 "Arial") (Js.replace "0.3" "0.9" color)
     "left" "top" f0].

Definition debugging (debugMode : bool) (debugColor debugLabel : option string)
    : bool :=
  debugMode && Js.truthy_str debugColor && Js.truthy_str debugLabel.

Definition debug_calls (layout : TextLayout.t) (debugMode : bool)
    (debugColor debugLabel : option string) (f0 : Filter)
    : list (DrawOp Image) :=
  if debugging debugMode debugColor debugLabel
  then box_calls layout (Js.or_str debugColor "") (Js.or_str debugLabel "") f0
  else [].

Definition text_calls (layout : TextLayout.t) (text : string) (f0 : Filter)
    : list (DrawOp Image) :=
  if usesWrapper layout text
  then
    let lines :=
      greedy_wrap (measure (resolvedFont layout)) text (blockMaxWidth layout) in
    placed_lines (text_call layout f0) (firstLineY layout (length lines))
      (blockLineHeight layout) lines 0
  else [text_call layout f0 text
          (Point.y (getTextPosition (paddedLayout layout)))].

(** The drawing state a block leaves behind. *)
Definition text_state (layout : TextLayout.t) (debugMode : bool)
    (debugColor debugLabel : option string) (s : DrawState) : DrawState :=
  mkDrawState (TextLayout.color layout)
    (if debugging debugMode debugColor debugLabel
     then Js.replace "0.3" "0.8" (Js.or_str debugColor "")
     else strokeStyle s)
    (if debugging debugMode debugColor debugLabel then 2 else lineWidth s)
    (resolvedFont layout)
    (getCanvasTextAlign (TextLayout.align layout))
    (getCanvasTextBaseline (TextLayout.align layout))
    (filter s).

(** What [drawCardArt] draws when the artwork cannot be loaded. *)
Definition placeholder_calls (debugMode : bool) (f0 : Filter)
    : list (DrawOp Image) :=
  let cardArtX := Config.cardArtX (config this) in
  let cardArtY := Config.cardArtY (config this) in
  let cardArtWidth := Config.cardArtWidth (config this) in
  let cardArtHeight := Config.cardArtHeight (config this) in
  [FillRect cardArtX cardArtY cardArtWidth cardArtHeight "#ccc" f0;
   FillText "Image Not Found" (cardArtX + cardArtWidth / 2)
     (cardArtY + cardArtHeight / 2) (mkFont 16 "Stone Serif Semibold") "#666"
     "center" "middle" f0]
  ++ (if debugMode
      then [StrokeRect cardArtX cardArtY cardArtWidth cardArtHeight
              "rgba(255, 0, 0, 0.8)" 3 f0]
      else []).

End Views.

(** ** What the template and the artwork draw *)

Section ComposeViews.

Context {Image Exn : Type}.
Variable loadImage : string -> Result Exn Image.
Variable toUpperCase toLowerCase : string -> string.
Variable path_join : string -> string -> string.
Variable this : CardGenerator.

(** The draw calls of [drawElementTemplate], guarded as in
    [generateCard]. *)
Definition template_calls (cardData : CardData.t) (f0 : Filter)
    : list (DrawOp Image) :=
  if Js.truthy (CardData.Element cardData)
  then
    match loadImage
            (getTemplatePathForElement toUpperCase toLowerCase path_join this
               (CardData.Element cardData))
    with
    | Ok template =>
        [DrawImage template 0 0 (Config.cardWidth (config this))
           (Config.cardHeight (config this)) f0]
    | Throw _ => []
    end
  else [].

(** The draw calls of [drawCardArt], guarded as in [generateCard]. *)
Definition art_calls (cardData : CardData.t) (debugMode : bool) (f0 : Filter)
    : list (DrawOp Image) :=
  let cardArtX := Config.cardArtX (config this) in
  let cardArtY := Config.cardArtY (config this) in
  let cardArtWidth := Config.cardArtWidth (config this) in
  let cardArtHeight := Config.cardArtHeight (config this) in
  if Js.truthy (CardData.Address cardData)
  then
    match loadImage (getImageUrlFromAddress (CardData.Address cardData)) with
    | Ok image =>
        DrawImage image cardArtX cardArtY cardArtWidth cardArtHeight f0
        :: (if debugMode
            then [StrokeRect cardArtX cardArtY cardArtWidth cardArtHeight
                    "rgba(0, 255, 0, 0.8)" 3 f0;
                  FillText "Card Art" (cardArtX + 4) (cardArtY + 20)
                    (mkFont 16 "Arial") "rgba(0, 255, 0, 0.9)" "left" "top"
                    f0]
            else [])
    | Throw _ => placeholder_calls this debugMode f0
    end
  else [].

End ComposeViews.

(** ** What one field of a record draws *)

Section FieldViews.

Context {Image : Type}.
Variable measure : Font -> string -> Q.
Variable this : CardGenerator.

(** The draw calls of the text block of one field on a context whose
    filter is [f0]: nothing when the record has no value for the field
    or the layout has no block for it, else the background, the debug
    box and the text of the block. *)
Definition block_calls (cardData : CardData.t) (debugMode : bool)
    (dataKey : CardData.key) (layoutKey : CardLayout.key) (f0 : Filter)
    : list (DrawOp Image) :=
  match CardLayout.get (Config.layout (config this)) layoutKey with
  | Some layout =>
      if Js.truthy (CardData.get cardData dataKey)
      then
        background_calls layout f0
        ++ debug_calls this layout debugMode
             (Some (getDebugColors layoutKey))
             (Some (CardLayout.key_string layoutKey)) f0
        ++ text_calls measure this layout (CardData.get cardData dataKey) f0
      else []
  | None => []
  end.

End FieldViews.

(** ** Construction of the generator *)

Module PartialCardLayout.
(** [Partial<CardLayout>]: a key is absent ([None]), or present with a
    layout or with [undefined]. *)
Record t : Type := mk {
  name : option (option TextLayout.t);
  cost : option (option TextLayout.t);
  lore : option (option TextLayout.t);
  attack : option (option TextLayout.t);
  armor : option (option TextLayout.t);
  skills : option (option TextLayout.t)
}.

Definition get (l : t) (k : CardLayout.key) : option (option TextLayout.t) :=
  match k with
  | CardLayout.Kname => name l
  | CardLayout.Kcost => cost l
  | CardLayout.Klore => lore l
  | CardLayout.Kattack => attack l
  | CardLayout.Karmor => armor l
  | CardLayout.Kskills => skills l
  end.

(** The object without keys. *)
Definition empty : t := mk None None None None None None.
End PartialCardLayout.

Module GeneratorConfig.
Record t : Type := mk {
  templatesPath : option string;
  csvPath : option string;
  outputDir : option string;
  cardWidth : option Q;
  cardHeight : option Q;
  fonts : option (list (string * string));
  layout : option PartialCardLayout.t;
  cardArtX : option Q;
  cardArtY : option Q;
  cardArtWidth : option Q;
  cardArtHeight : option Q;
  backgroundColor : option string;
  webpQuality : option Q
}.

(** The configuration [{}]. *)
Definition empty : t :=
  mk None None None None None None None None None None None None None.
End GeneratorConfig.

(** One key of [{ ...defaults, ...override }]. *)
Definition spread_key (default : option TextLayout.t)
    (override : option (option TextLayout.t)) : option TextLayout.t :=
  match override with
  | Some value => value
  | None => default
  end.

(** [{ ...this.getDefaultLayout(), ...config.layout }]. *)
Definition spread_layout (defaults : CardLayout.t)
    (override : option PartialCardLayout.t) : CardLayout.t :=
  match override with
  | None => defaults
  | Some o =>
      CardLayout.mk
        (spread_key (CardLayout.name defaults) (PartialCardLayout.name o))
        (spread_key (CardLayout.cost defaults) (PartialCardLayout.cost o))
        (spread_key (CardLayout.lore defaults) (PartialCardLayout.lore o))
        (spread_key (CardLayout.attack defaults) (PartialCardLayout.attack o))
        (spread_key (CardLayout.armor defaults) (PartialCardLayout.armor o))
        (spread_key (CardLayout.skills defaults) (PartialCardLayout.skills o))
  end.

(** [new CardGenerator(config)]. *)
Definition constructor (config : GeneratorConfig.t) : CardGenerator :=
  mkCardGenerator
    (Config.mk
       (Js.or_str (GeneratorConfig.templatesPath config) "./assets")
       (Js.or_str (GeneratorConfig.csvPath config) "./cards.csv")
       (Js.or_str (GeneratorConfig.outputDir config) "./output")
       (Js.or_num (GeneratorConfig.cardWidth config) 750)
       (Js.or_num (GeneratorConfig.cardHeight config) 1050)
       (match GeneratorConfig.fonts config with
        | Some fonts => fonts
        | None => []
        end)
       (spread_layout getDefaultLayout (GeneratorConfig.layout config))
       (Js.or_num (GeneratorConfig.cardArtX config) 75)
       (Js.or_num (GeneratorConfig.cardArtY config) 120)
       (Js.or_num (GeneratorConfig.cardArtWidth config) 600)
       (Js.or_num (GeneratorConfig.cardArtHeight config) 400)
       (Js.or_str (GeneratorConfig.backgroundColor config) "#ffffff")
       (Js.or_num (GeneratorConfig.webpQuality config) 90))
    [] [].

(** ** File names

    In [sanitizeFilename] a character of a [string] is a UTF-16 code
    unit below 256.  The replacement works code unit by code unit and
    treats every code unit outside [[A-Za-z0-9]] alike. *)

Definition in_range (lo hi : nat) (c : ascii) : bool :=
  (lo <=? nat_of_ascii c)%nat && (nat_of_ascii c <=? hi)%nat.

(** The class [[a-z0-9]] under the flag [i]. *)
Definition isAlphanumeric (c : ascii) : bool :=
  in_range 97 122 c || in_range 65 90 c || in_range 48 57 c.

(** [s.replace(/[^a-z0-9]/gi, "_")]. *)
Fixpoint replaceNonAlphanumeric (s : string) : string :=
  match s with
  | EmptyString => EmptyString
  | String c rest =>
      String (if isAlphanumeric c then c else "_"%char)
        (replaceNonAlphanumeric rest)
  end.

(** The lower case of an ASCII letter, digit or underscore: a letter
    [A-Z] becomes the small letter 32 above it, and nothing else
    changes. *)
Definition lowerChar (c : ascii) : ascii :=
  if in_range 65 90 c
  then ascii_of_nat (nat_of_ascii c + 32)
  else c.

(** [.toLowerCase()] as [sanitizeFilename] applies it, to the result of
    the replacement.  That result holds ASCII letters, digits and
    underscores only, whatever the name was, and on such a string
    [toLowerCase] changes the letters [A-Z] and nothing else.  This is
    not [toLowerCase] on other strings, which also changes characters
    outside ASCII. *)
Fixpoint lowerCaseOfReplaced (s : string) : string :=
  match s with
  | EmptyString => EmptyString
  | String c rest => String (lowerChar c) (lowerCaseOfReplaced rest)
  end.

Definition sanitizeFilename (name : string) : string :=
  lowerCaseOfReplaced (replaceNonAlphanumeric name).

(** Two names that differ only in the case of their ASCII letters and
    in their characters other than ASCII letters and digits: they have
    the same length and, position by position, either both characters
    are outside [[A-Za-z0-9]] or both are inside and equal up to case. *)
Fixpoint sameUpToCaseAndPunctuation (s t : string) : Prop :=
  match s, t with
  | EmptyString, EmptyString => True
  | String a s', String b t' =>
      (isAlphanumeric a = false /\ isAlphanumeric b = false
       \/ isAlphanumeric a = true /\ isAlphanumeric b = true
          /\ lowerChar a = lowerChar b)
      /\ sameUpToCaseAndPunctuation s' t'
  | _, _ => False
  end.

(** Every character of a string passes a test. *)
Fixpoint all_chars (test : ascii -> bool) (s : string) : bool :=
  match s with
  | EmptyString => true
  | String c rest => test c && all_chars test rest
  end.

(** A small letter, a digit or an underscore. *)
Definition isFileNameChar (c : ascii) : bool :=
  in_range 97 122 c || in_range 48 57 c || Ascii.eqb c "_"%char.

(** ** Fonts, files and the batch

    The world outside the canvas: the generator object, the calls made
    to [registerFont], and the calls made to the file system that
    change it.  The outcome of a call is given by the collaborator; a
    call is recorded when it is made, whatever its outcome. *)

Inductive FsCall (Buffer : Type) : Type :=
| EnsureDir (path : string)
| Remove (path : string)
| WriteFile (path : string) (data : Buffer).

Arguments EnsureDir {Buffer}.
Arguments Remove {Buffer}.
Arguments WriteFile {Buffer}.

Record World (Buffer : Type) : Type := mkWorld {
  generator : CardGenerator;
  registered : list (string * string);
  fsCalls : list (FsCall Buffer)
}.

Arguments mkWorld {Buffer}.
Arguments generator {Buffer}.
Arguments registered {Buffer}.
Arguments fsCalls {Buffer}.

(** What becomes of an awaited operation of the batch: its promise is
    fulfilled, or it is rejected, or an [error] event that nothing
    listens to is emitted, which ends the process with that error and
    leaves the promise unsettled, out of reach of any [catch]. *)
Inductive Settled (E A : Type) : Type :=
| Resolved (a : A)
| Rejected (e : E)
| Uncaught (e : E).

Arguments Resolved {E A}.
Arguments Rejected {E A}.
Arguments Uncaught {E A}.

(** [fs.createReadStream(path).pipe(csvParser())]: the parser stream
    ends with the rows it collected, or the parser stream emits an
    [error], or the read stream does (the file cannot be read). *)
Inductive CsvStream (E : Type) : Type :=
| CsvEnd (results : list CardData.t)
| CsvParserError (e : E)
| CsvReadError (e : E).

Arguments CsvEnd {E}.
Arguments CsvParserError {E}.
Arguments CsvReadError {E}.

(** [set.add(name)] on the [Set<string>] of loaded fonts. *)
Definition Set_add (set : list string) (name : string) : list string :=
  if Set_has set name then set else set ++ [name].

(** [array[index]] for a number [index]: [undefined] unless the index
    is a non-negative integer below the length. *)
Definition array_get {A : Type} (array : list A) (index : Q) : option A :=
  let i := Qred index in
  if (Qden i =? 1)%positive && (0 <=? Qnum i)%Z
  then nth_error array (Z.to_nat (Qnum i))
  else None.

Section Batch.

Context {Image Exn Buffer : Type}.

Variable measure : Font -> string -> Q.
Variable loadImage : string -> Result Exn Image.
Variable toUpperCase toLowerCase : string -> string.
Variable path_join : string -> string -> string.

(** [fs.stat(path)], resolving to [stats.isFile()]; [registerFont];
    [fs.ensureDir]; [canvas.toBuffer("image/png")];
    [sharp(png).webp({quality})]. *)
Variable stat : string -> Result Exn bool.
Variable registerFont : string -> string -> Result Exn unit.

Variable readCSV : string -> CsvStream Exn.
Variable ensureDir : string -> Result Exn unit.
Variable toBuffer : Canvas Image -> Result Exn Buffer.
Variable convertToWebP : Buffer -> Q -> Result Exn Buffer.

(** The [TypeError] of a property read on [undefined]. *)
Variable typeError : Exn.

Local Abbreviation State := (World Buffer).

(** One iteration of the loop of [loadFonts] over the entries of
    [config.fonts], on the loaded set and the calls to [registerFont].
    The rendering test that follows a registration draws on a canvas of
    its own. *)
Definition loadFonts_step (acc : list string * list (string * string))
    (entry : string * string) : list string * list (string * string) :=
  let '(loaded, calls) := acc in
  let '(fontName, fontPath) := entry in
  match stat fontPath with
  | Throw _ => acc
  | Ok isFile =>
      if negb isFile then acc
      else if Set_has loaded fontName then acc
      else
        match registerFont fontPath fontName with
        | Ok _ => (Set_add loaded fontName, calls ++ [(fontPath, fontName)])
        | Throw _ => (loaded, calls ++ [(fontPath, fontName)])
        end
  end.

Definition loadFonts (w : State) : State :=
  let this := generator w in
  if (length (Config.fonts (config this)) =? 0)%nat then w
  else
    let '(loaded, calls) :=
      fold_left loadFonts_step (Config.fonts (config this))
        (loadedFonts this, registered w) in
    mkWorld (mkCardGenerator (config this) loaded (cardData this)) calls
      (fsCalls w).

(** A configured font that can be registered: the file is there and
    [registerFont] accepts it. *)
Definition registrable (name path : string) : Prop :=
  stat path = Ok true /\ exists u, registerFont path name = Ok u.

(** The part of [clearAllCaches] that touches the generator. *)
Definition clearAllCaches (w : State) : State :=
  let this := generator w in
  mkWorld (mkCardGenerator (config this) [] (cardData this)) (registered w)
    (fsCalls w).

(** [loadCSV] listens for [data], [end] and [error] on the parser
    stream only: an [error] of the parser rejects the promise, an
    [error] of the read stream has no listener. *)
Definition loadCSV (w : State) : Settled Exn (list CardData.t) * State :=
  let this := generator w in
  match readCSV (Config.csvPath (config this)) with
  | CsvEnd results =>
      (Resolved results,
       mkWorld (mkCardGenerator (config this) (loadedFonts this) results)
         (registered w) (fsCalls w))
  | CsvParserError e => (Rejected e, w)
  | CsvReadError e => (Uncaught e, w)
  end.

Definition fsCall (call : FsCall Buffer) (w : State) : State :=
  mkWorld (generator w) (registered w) (fsCalls w ++ [call]).

(** The body of the loop of [generateAllCards] for one card. *)
Definition generateAllCards_step (w : State) (card : CardData.t) : State :=
  let this := generator w in
  match generateCard measure loadImage toUpperCase toLowerCase path_join this
          card false with
  | Throw _ => w
  | Ok canvas =>
      let filename :=
        (sanitizeFilename (CardData.Card card) ++ ".webp")%string in
      let outputPath := path_join (Config.outputDir (config this)) filename in
      match toBuffer canvas with
      | Throw _ => w
      | Ok pngBuffer =>
          match convertToWebP pngBuffer (Config.webpQuality (config this)) with
          | Throw _ => w
          | Ok webpBuffer => fsCall (WriteFile outputPath webpBuffer) w
          end
      end
  end.

Definition generateAllCards (w : State) : Settled Exn unit * State :=
  let w := loadFonts w in
  match loadCSV w with
  | (Rejected e, w) => (Rejected e, w)
  | (Uncaught e, w) => (Uncaught e, w)
  | (Resolved cardData, w) =>
      let outputDir := Config.outputDir (config (generator w)) in
      let w := fsCall (EnsureDir outputDir) w in
      match ensureDir outputDir with
      | Throw e => (Rejected e, w)
      | Ok _ => (Resolved tt, fold_left generateAllCards_step cardData w)
      end
  end.

Definition generateSingleCard (cardIndex : Q) (debugMode : bool) (w : State)
    : Settled Exn unit * State :=
  let outputDir := Config.outputDir (config (generator w)) in
  let w := fsCall (EnsureDir outputDir) w in
  match ensureDir outputDir with
  | Throw e => (Rejected e, w)
  | Ok _ =>
      match
        (if (length (cardData (generator w)) =? 0)%nat
         then loadCSV w
         else (Resolved (cardData (generator w)), w))
      with
      | (Rejected e, w) => (Rejected e, w)
      | (Uncaught e, w) => (Uncaught e, w)
      | (Resolved _, w) =>
          let this := generator w in
          if Qle_bool (Js.of_nat (length (cardData this))) cardIndex
          then (Resolved tt, w)
          else
            match array_get (cardData this) cardIndex with
            | None => (Rejected typeError, w)
            | Some card =>
                match generateCard measure loadImage toUpperCase toLowerCase
                        path_join this card debugMode with
                | Throw _ => (Resolved tt, w)
                | Ok canvas =>
                    let outputPath :=
                      path_join (Config.outputDir (config this)) "1.webp" in
                    let w := fsCall (Remove outputPath) w in
                    match toBuffer canvas with
                    | Throw _ => (Resolved tt, w)
                    | Ok pngBuffer =>
                        match
                          convertToWebP pngBuffer
                            (Config.webpQuality (config this))
                        with
                        | Throw _ => (Resolved tt, w)
                        | Ok webpBuffer =>
                            (Resolved tt,
                             fsCall (WriteFile outputPath webpBuffer) w)
                        end
                    end
                end
            end
      end
  end.

End Batch.

(** ** Sample data *)

(** A canvas whose text is [n] pixels wide for [n] characters, in any
    font; used to run the model on concrete inputs. *)
Definition charWidth (_ : Font) (s : string) : Q :=
  Js.of_nat (String.length s).

(** The context of a new canvas without images. *)
Definition blankContext : Context2D unit := mkContext initialState [] [].

(** A block of the default geometry with a given alignment string. *)
Definition sampleBlock (align : string) : TextLayout.t :=
  TextLayout.mk 100 540 550 100 18 "Stone Serif Semibold" "#333" align
    None None None None None.

(** The configuration the constructor builds from an empty one, and a
    generator without loaded fonts. *)
Definition defaultConfig : Config.t :=
  Config.mk "./assets" "./cards.csv" "./output" 750 1050 []
    getDefaultLayout 75 120 600 400 "#ffffff" 90.

Definition defaultGenerator : CardGenerator :=
  mkCardGenerator defaultConfig [] [].

(** A block with a background and a padding larger than half its
    width, on which the inset rectangle has a negative width. *)
Definition paddedBlock : TextLayout.t :=
  TextLayout.mk 10 20 100 200 18 "Stone Serif Semibold" "#333" "top-left"
    None None (Some 60) (Some "#fff") None.

(** A narrow bottom-anchored block that declares a line height of
    zero. *)
Definition zeroLineHeightBlock : TextLayout.t :=
  TextLayout.mk 0 0 2 100 10 "Arial" "#000" "bottom-center" None (Some 0)
    None None None.

(** The line height as the specification words it: the explicit line
    height if the block sets one, 1.2 times the font size otherwise. *)
Definition declaredLineHeight (layout : TextLayout.t) : Q :=
  match TextLayout.lineHeight layout with
  | Some lineHeight => lineHeight
  | None => TextLayout.fontSize layout * 1.2
  end.

(** A block that declares a maximum width of zero. *)
Definition zeroMaxWidthBlock : TextLayout.t :=
  TextLayout.mk 100 540 550 100 18 "Stone Serif Semibold" "#333" "center"
    (Some 0) None None None None.

(** A generator on which only the default family was loaded. *)
Definition serifGenerator : CardGenerator :=
  mkCardGenerator defaultConfig ["Stone Serif Semibold"] [].

(** Collaborators for concrete runs: no image can be loaded, and the
    template path is built from its parts unchanged. *)
Definition noImage (_ : string) : Result unit unit := Throw tt.

Definition sameCase (s : string) : string := s.

Definition joinPath (dir file : string) : string :=
  (dir ++ "/" ++ file)%string.

Definition herculesCard (address : string) : CardData.t :=
  CardData.mk "1" "Hercules" "earth" "3" "" "5" "4" "" address.

(** The lore block of the layout that [main] configures. *)
Definition mainLoreBlock : TextLayout.t :=
  TextLayout.mk 130 1800 1483 200 42 "CardNumbers" "#ffffff" "top-left"
    (Some 1300) (Some 64) (Some 20) (Some "rgba(0, 0, 0, 0.2)") (Some 8).

(** An image loader that resolves every path to the path itself. *)
Definition pathImage (path : string) : Result unit string := Ok path.

(** A configuration that gives only the lore block of the layout. *)
Definition loreOverride : GeneratorConfig.t :=
  GeneratorConfig.mk None None None None None None
    (Some
       (PartialCardLayout.mk None None (Some (Some (sampleBlock "top-left")))
          None None None))
    None None None None None None.

(** The generator [main] builds, as far as fonts go, in a world where
    nothing has happened yet, and collaborators under which every file
    is there and every step of the batch succeeds. *)
Definition fontsGenerator : CardGenerator :=
  constructor
    (GeneratorConfig.mk None None None None None
       (Some [("CardNumbers", "./fonts/Stone Serif Semibold.ttf")])
       None None None None None None None).

Definition newWorld : World string := mkWorld fontsGenerator [] [].

Definition anyFile (_ : string) : Result unit bool := Ok true.

Definition anyFont (_ _ : string) : Result unit unit := Ok tt.

Definition twoCards (_ : string) : CsvStream unit :=
  CsvEnd [herculesCard "0x51"; herculesCard ""].

(** A CSV file that cannot be read, and one the parser fails on. *)
Definition noSuchFile (_ : string) : CsvStream unit := CsvReadError tt.

Definition badCsv (_ : string) : CsvStream unit := CsvParserError tt.

(** An output directory that cannot be made. *)
Definition noDir (_ : string) : Result unit unit := Throw tt.

(** A canvas that cannot be encoded. *)
Definition pngFails (_ : Canvas string) : Result unit string := Throw tt.

Definition anyDir (_ : string) : Result unit unit := Ok tt.

Definition pngOf (_ : Canvas string) : Result unit string := Ok "png".

Definition webpOf (png : string) (_ : Q) : Result unit string :=
  Ok (png ++ ".webp")%string.

(** A padded block that declares a maximum width wider than its
    inset rectangle. *)
Definition wideLimitBlock : TextLayout.t :=
  TextLayout.mk 0 0 10 100 10 "Arial" "#000" "top-left" (Some 10) None
    (Some 2) None None.

(** ** Reading draw calls *)

(** The texts and the draw Ys of the [fillText] calls of a list of
    draw calls, in order. *)
Definition text_lines {Image : Type} (calls : list (DrawOp Image))
    : list string :=
  flat_map
    (fun op =>
       match op with
       | FillText text _ _ _ _ _ _ _ => [text]
       | _ => []
       end)
    calls.

Definition text_ys {Image : Type} (calls : list (DrawOp Image)) : list Q :=
  flat_map
    (fun op =>
       match op with
       | FillText _ _ y _ _ _ _ _ => [y]
       | _ => []
       end)
    calls.

(** * Facts *)

(** ** Facts about the JavaScript values *)

Lemma ltb_lt : forall a b, Js.ltb a b = true <-> a < b.
Proof.
  intros a b. unfold Js.ltb. rewrite negb_true_iff.
  split; intro H.
  - apply Qnot_le_lt. intro Hle. apply Qle_bool_iff in Hle. congruence.
  - destruct (Qle_bool b a) eqn:E; [|reflexivity].
    apply Qle_bool_iff in E. exfalso. exact (Qlt_not_le _ _ H E).
Qed.

Lemma ltb_ge : forall a b, Js.ltb a b = false <-> b <= a.
Proof.
  intros a b. unfold Js.ltb. rewrite negb_false_iff. apply Qle_bool_iff.
Qed.

Lemma or_str_string : forall s, Js.or_str (Some s) "" = s.
Proof. intros [|c s]; reflexivity. Qed.

Lemma split_nonempty : forall s, Js.split s <> [].
Proof.
  intros [|c s]; simpl; [discriminate|].
  destruct (Ascii.eqb c " "); [discriminate|].
  destruct (Js.split s); discriminate.
Qed.

Lemma join_cons : forall sep a b l,
  Js.join sep (a :: b :: l) = (a ++ sep ++ Js.join sep (b :: l))%string.
Proof. reflexivity. Qed.

Lemma append_assoc : forall a b c : string,
  ((a ++ b) ++ c = a ++ (b ++ c))%string.
Proof. induction a; intros; simpl; [reflexivity | now rewrite IHa]. Qed.

Lemma join_split : forall s, Js.join " " (Js.split s) = s.
Proof.
  induction s as [|c s IH]; [reflexivity|].
  pose proof (split_nonempty s) as Hne.
  cbn [Js.split]. destruct (Ascii.eqb c " ") eqn:E.
  - apply Ascii.eqb_eq in E. subst c.
    destruct (Js.split s) as [|w ws]; [congruence|].
    rewrite join_cons, IH. reflexivity.
  - destruct (Js.split s) as [|w ws]; [congruence|].
    destruct ws as [|w' ws].
    + rewrite <- IH. reflexivity.
    + rewrite join_cons. rewrite join_cons in IH. rewrite <- IH. reflexivity.
Qed.

Lemma split_no_space : forall s,
  Js.includes " " s = false -> Js.split s = [s].
Proof.
  induction s as [|c s IH]; intro H; [reflexivity|].
  cbn [Js.includes Js.startsWith] in H.
  apply orb_false_iff in H as [Hp Hi].
  rewrite andb_true_r, Ascii.eqb_sym in Hp.
  cbn [Js.split]. rewrite Hp. now rewrite (IH Hi).
Qed.

(** ** Facts about the wrapper *)

Section WrapFacts.

Context {Image : Type}.
Variable measure : Font -> string -> Q.
Variable ctx : Context2D Image.
Variable maxWidth : Q.

(** The loop of [wrapText] started from any accumulator is the
    recursive wrap started from its current line. *)
Lemma wrapText_loop : forall rest lines currentLine,
  (let '(l, c) :=
     fold_left (wrapText_step measure ctx maxWidth) rest
       (lines, currentLine) in l ++ [c])
  = lines ++ greedy_lines (measureText measure ctx) maxWidth currentLine rest.
Proof.
  induction rest as [|word rest IH]; intros lines cur; [reflexivity|].
  cbn [fold_left greedy_lines wrapText_step].
  destruct (Js.ltb _ maxWidth).
  - apply IH.
  - rewrite IH, <- app_assoc. reflexivity.
Qed.

Lemma wrapText_greedy : forall text,
  wrapText measure ctx text maxWidth
  = greedy_wrap (measureText measure ctx) text maxWidth.
Proof.
  intro text. unfold wrapText, greedy_wrap.
  pose proof (split_nonempty text) as Hne.
  destruct (Js.split text) as [|first rest]; [congruence|].
  cbn [nth_error skipn]. rewrite or_str_string.
  exact (wrapText_loop rest [] first).
Qed.

Lemma greedy_lines_nonempty : forall rest currentLine,
  greedy_lines (measureText measure ctx) maxWidth currentLine rest <> [].
Proof.
  induction rest as [|word rest IH]; intro cur; cbn [greedy_lines];
    [discriminate|].
  destruct (Js.ltb _ maxWidth); [apply IH | discriminate].
Qed.

Lemma greedy_lines_join : forall rest currentLine,
  Js.join " " (greedy_lines (measureText measure ctx) maxWidth currentLine rest)
  = Js.join " " (currentLine :: rest).
Proof.
  induction rest as [|word rest IH]; intro cur; [reflexivity|].
  cbn [greedy_lines]. destruct (Js.ltb _ maxWidth).
  - rewrite IH. destruct rest as [|w2 rest].
    + reflexivity.
    + rewrite !join_cons. now rewrite !append_assoc.
  - specialize (IH word).
    pose proof (greedy_lines_nonempty rest word) as Hne.
    destruct (greedy_lines _ maxWidth word rest) as [|g gs];
      [congruence|].
    rewrite !join_cons. now rewrite IH.
Qed.

Lemma greedy_lines_narrow : forall rest currentLine,
  (forall s, ~ measureText measure ctx s < maxWidth) ->
  greedy_lines (measureText measure ctx) maxWidth currentLine rest
  = currentLine :: rest.
Proof.
  induction rest as [|word rest IH]; intros cur H; [reflexivity|].
  cbn [greedy_lines].
  destruct (Js.ltb _ maxWidth) eqn:E.
  - apply ltb_lt in E. now apply H in E.
  - now rewrite IH.
Qed.

End WrapFacts.

(** ** Running commands *)

Section RunFacts.

Context {Image Exn : Type}.

Local Abbreviation Cmd := (M Image Exn).

Lemma bind_run : forall {A B : Type} (c : Cmd A) (k : A -> Cmd B) ctx a ctx',
  c ctx = (Ok a, ctx') -> bind c k ctx = k a ctx'.
Proof. intros A B c k ctx a ctx' H. unfold bind. now rewrite H. Qed.

Lemma drawn_app : forall {A : Type} (c : Cmd A) ctx l,
  ops (exec c ctx) = ops ctx ++ l -> drawn c ctx = l.
Proof.
  intros A c ctx l H. unfold drawn. rewrite H.
  rewrite skipn_app, skipn_all, Nat.sub_diag. reflexivity.
Qed.

Lemma placed_lines_nth : forall (call : string -> Q -> DrawOp Image)
    startY lineHeight lines index i,
  nth_error (placed_lines call startY lineHeight lines index) i
  = option_map
      (fun line => call line (startY + Js.of_nat (index + i) * lineHeight))
      (nth_error lines i).
Proof.
  induction lines as [|line rest IH]; intros index i.
  - destruct i; reflexivity.
  - destruct i as [|i]; cbn [placed_lines nth_error option_map].
    + now rewrite Nat.add_0_r.
    + rewrite IH. now rewrite Nat.add_succ_r.
Qed.

Lemma placed_lines_length : forall (call : string -> Q -> DrawOp Image)
    startY lineHeight lines index,
  length (placed_lines call startY lineHeight lines index) = length lines.
Proof.
  induction lines as [|line rest IH]; intro index; cbn [placed_lines length];
    [reflexivity | now rewrite IH].
Qed.

Lemma forEach_fillText : forall lines x startY lineHeight index
    (ctx : Context2D Image),
  forEach (Exn := Exn) lines
    (fun line index =>
       let y := startY + Js.of_nat index * lineHeight in fillText line x y)
    index ctx
  = (Ok tt,
     mkContext (state ctx) (saved ctx)
       (ops ctx ++
        placed_lines
          (fun line y =>
             FillText line x y (font (state ctx)) (fillStyle (state ctx))
               (textAlign (state ctx)) (textBaseline (state ctx))
               (filter (state ctx)))
          startY lineHeight lines index)).
Proof.
  induction lines as [|line rest IH]; intros x startY lineHeight index ctx.
  - cbn. rewrite app_nil_r. now destruct ctx.
  - cbn [forEach placed_lines]. unfold bind at 1.
    cbn [fillText issue]. rewrite IH. cbn [state saved ops].
    now rewrite <- app_assoc.
Qed.

End RunFacts.

(** ** What one text block draws *)

Section BlockFacts.

Context {Image Exn : Type}.
Variable measure : Font -> string -> Q.
Variable this : CardGenerator.

Local Abbreviation Cmd := (M Image Exn).

Lemma drawTextBackground_run : forall layout (ctx : Context2D Image),
  drawTextBackground (Exn := Exn) layout ctx
  = (Ok tt,
     mkContext (state ctx) (saved ctx)
       (ops ctx ++ background_calls layout (filter (state ctx)))).
Proof.
  intros layout [s sv os].
  unfold drawTextBackground, background_calls.
  destruct (TextLayout.backgroundColor layout) as [bg|];
    [|cbn; now rewrite app_nil_r].
  destruct (Js.truthy bg); cbn [negb]; [|cbn; now rewrite app_nil_r].
  destruct (TextLayout.backgroundBlur layout) as [blur|]; [|reflexivity].
  destruct (negb (Qeq_bool blur 0) && Js.gtb blur 0); reflexivity.
Qed.

Lemma drawBoundingBox_run : forall layout color label (ctx : Context2D Image),
  drawBoundingBox (Exn := Exn) this layout color label ctx
  = (Ok tt,
     mkContext
       (mkDrawState (Js.replace "0.3" "0.9" color)
          (Js.replace "0.3" "0.8" color) 2 (mkFont 14 "Arial") "left" "top"
          (filter (state ctx)))
       (saved ctx)
       (ops ctx ++ box_calls this layout color label (filter (state ctx)))).
Proof.
  intros layout color label [s sv os].
  unfold drawBoundingBox, box_calls.
  cbv [bind set_fillStyle set_strokeStyle set_lineWidth set_font
       set_textAlign set_textBaseline fillRect strokeRect fillText assign
       issue state saved ops fillStyle strokeStyle lineWidth font textAlign
       textBaseline filter].
  destruct s. rewrite <- !app_assoc. reflexivity.
Qed.

Lemma wrapText_font : forall (ctx : Context2D Image) text maxWidth,
  wrapText measure ctx text maxWidth
  = greedy_wrap (measure (font (state ctx))) text maxWidth.
Proof. intros. apply wrapText_greedy. Qed.

(** Runs the part of [drawText] that follows the debug box, from the
    context reached so far. *)
Ltac run_text_tail :=
  match goal with
  | |- _ ?c = _ =>
      let c1 := fresh "c1" in
      let Hc1 := fresh "Hc1" in
      remember c as c1 eqn:Hc1;
      unfold bind;
      cbn [set_font set_fillStyle set_textAlign set_textBaseline assign
           with_ctx];
      destruct (usesWrapper _ _);
      [ rewrite forEach_fillText, wrapText_font
      | unfold fillText, issue ];
      cbn [state saved ops font fillStyle textAlign textBaseline filter];
      rewrite Hc1;
      cbn [state saved ops font fillStyle strokeStyle lineWidth textAlign
           textBaseline filter app];
      rewrite <- ?app_assoc; reflexivity
  end.

Lemma drawText_run : forall text layout debugMode debugColor debugLabel
    (ctx : Context2D Image),
  drawText (Exn := Exn) measure this text layout debugMode debugColor
    debugLabel ctx
  = (Ok tt,
     mkContext
       (text_state this layout debugMode debugColor debugLabel (state ctx))
       (saved ctx)
       (ops ctx
        ++ background_calls layout (filter (state ctx))
        ++ debug_calls this layout debugMode debugColor debugLabel
             (filter (state ctx))
        ++ text_calls measure this layout text (filter (state ctx)))).
Proof.
  intros text layout dm dc dl ctx.
  unfold drawText.
  rewrite (bind_run _ _ _ _ _ (drawTextBackground_run layout ctx)).
  unfold debug_calls, text_state, text_calls.
  fold (debugging dm dc dl).
  destruct (debugging dm dc dl).
  - rewrite (bind_run _ _ _ _ _ (drawBoundingBox_run layout _ _ _)).
    run_text_tail.
  - unfold ret at 1. unfold bind at 1.
    run_text_tail.
Qed.

End BlockFacts.

(** * Properties *)

Lemma charWidth_nonneg : forall f s, 0 <= charWidth f s.
Proof.
  intros f s. unfold charWidth, Js.of_nat, Qle. cbn. lia.
Qed.

(** ** LineWrapper *)

(** C1.  [wrapText] is the greedy word-wrap of the specification: the
    text is split on single spaces, the first word seeds the current
    line, each further word is appended with a space exactly when the
    tentative line measures strictly less than the limit and otherwise
    closes the current line and starts the next, and the last current
    line is always pushed.  In particular the empty text gives one empty
    line, a text without spaces gives one line equal to the text, a
    limit of zero or less gives one word per line (measured widths are
    never negative), and ["aa bb cc"] with a limit strictly between the
    widths of ["aa bb"] and ["aa bb cc"] gives ["aa bb"] and ["cc"]. *)
Theorem wrapText_is_greedy_wrap :
  forall (Image : Type) (measure : Font -> string -> Q)
         (ctx : Context2D Image) (text : string) (W : Q),
    wrapText measure ctx text W
      = greedy_wrap (measureText measure ctx) text W
    /\ wrapText measure ctx "" W = [""]
    /\ (Js.includes " " text = false -> wrapText measure ctx text W = [text])
    /\ ((forall s, 0 <= measureText measure ctx s) -> W <= 0 ->
        wrapText measure ctx text W = Js.split text)
    /\ (measureText measure ctx "aa bb" < W ->
        W < measureText measure ctx "aa bb cc" ->
        wrapText measure ctx "aa bb cc" W = ["aa bb"; "cc"]).
Proof.
  intros Image measure ctx text W.
  split; [apply wrapText_greedy|].
  split; [reflexivity|].
  split; [|split].
  - intro H. rewrite wrapText_greedy. unfold greedy_wrap.
    now rewrite (split_no_space _ H).
  - intros Hpos HW. rewrite wrapText_greedy. unfold greedy_wrap.
    pose proof (split_nonempty text) as Hne.
    destruct (Js.split text) as [|first rest]; [congruence|].
    apply greedy_lines_narrow. intros s Hlt.
    apply (Qlt_not_le _ _ Hlt). eapply Qle_trans; [exact HW | apply Hpos].
  - intros H1 H2. rewrite wrapText_greedy.
    unfold greedy_wrap. cbn [Js.split Ascii.eqb Bool.eqb greedy_lines].
    cbn [String.append].
    apply ltb_lt in H1. rewrite H1.
    apply Qlt_le_weak, ltb_ge in H2. now rewrite H2.
Qed.

Lemma wrapText_is_greedy_wrap_witness :
  wrapText charWidth blankContext "one two" 0 = ["one"; "two"]
  /\ wrapText charWidth blankContext "aa bb cc" 6 = ["aa bb"; "cc"]
  /\ wrapText charWidth blankContext "beetle" 3 = ["beetle"].
Proof.
  split; [|split].
  - destruct (wrapText_is_greedy_wrap unit charWidth blankContext "one two" 0)
      as (_ & _ & _ & H & _).
    apply H.
    + intro s. apply charWidth_nonneg.
    + apply Qle_refl.
  - destruct (wrapText_is_greedy_wrap unit charWidth blankContext "" 6)
      as (_ & _ & _ & _ & H).
    apply H; reflexivity.
  - destruct (wrapText_is_greedy_wrap unit charWidth blankContext "beetle" 3)
      as (_ & _ & H & _).
    apply H. reflexivity.
Defined.

(** C10.  Wrapping preserves the content: the lines of [wrapText]
    joined with single spaces are the input text. *)
Theorem wrapText_join :
  forall (Image : Type) (measure : Font -> string -> Q)
         (ctx : Context2D Image) (text : string) (W : Q),
    Js.join " " (wrapText measure ctx text W) = text.
Proof.
  intros Image measure ctx text W.
  rewrite wrapText_greedy. unfold greedy_wrap.
  pose proof (split_nonempty text) as Hne.
  pose proof (join_split text) as Hjoin.
  destruct (Js.split text) as [|first rest]; [congruence|].
  now rewrite greedy_lines_join.
Qed.

(** ** AnchorResolver *)

(** C4.  For every rectangle and each of the nine alignment keywords
    the resolver returns the anchor point, horizontal mode and vertical
    mode of the mapping table. *)
Theorem resolve_table :
  forall (x y w h fontSize : Q) (fontFamily color : string)
         (maxWidth lineHeight padding : option Q)
         (backgroundColor : option string) (backgroundBlur : option Q),
    let block align :=
      TextLayout.mk x y w h fontSize fontFamily color align maxWidth
        lineHeight padding backgroundColor backgroundBlur in
    resolve (block "top-left") = (Point.mk x y, "left", "top")
    /\ resolve (block "top-center") = (Point.mk (x + w / 2) y, "center", "top")
    /\ resolve (block "top-right") = (Point.mk (x + w) y, "right", "top")
    /\ resolve (block "left") = (Point.mk x (y + h / 2), "left", "middle")
    /\ resolve (block "center")
       = (Point.mk (x + w / 2) (y + h / 2), "center", "middle")
    /\ resolve (block "right")
       = (Point.mk (x + w) (y + h / 2), "right", "middle")
    /\ resolve (block "bottom-left") = (Point.mk x (y + h), "left", "bottom")
    /\ resolve (block "bottom-center")
       = (Point.mk (x + w / 2) (y + h), "center", "bottom")
    /\ resolve (block "bottom-right")
       = (Point.mk (x + w) (y + h), "right", "bottom").
Proof.
  intros. repeat split; reflexivity.
Qed.

Lemma getTextPosition_unknown : forall layout,
  is_alignment (TextLayout.align layout) = false ->
  getTextPosition layout
  = Point.mk (TextLayout.x layout + TextLayout.width layout / 2)
      (TextLayout.y layout + TextLayout.height layout / 2).
Proof.
  intros layout H. unfold is_alignment, alignments in H.
  cbn [existsb] in H. rewrite !orb_false_iff in H.
  destruct H as (H1 & H2 & H3 & H4 & H5 & H6 & H7 & H8 & H9 & _).
  unfold getTextPosition.
  now rewrite H1, H2, H3, H4, H5, H6, H7, H8, H9.
Qed.

(** C5, as stated, fails: ["upper-left"] is not one of the nine
    keywords, and its horizontal mode is ["left"], not ["center"]. *)
Lemma resolve_unknown_not_center :
  is_alignment "upper-left" = false
  /\ resolve (sampleBlock "upper-left")
     <> (Point.mk (100 + 550 / 2) (540 + 100 / 2), "center", "middle").
Proof.
  split; [reflexivity|].
  intro H. apply (f_equal (fun t => snd (fst t))) in H.
  vm_compute in H. discriminate H.
Qed.

(** C5, amended.  For an alignment string that is not one of the nine
    keywords the resolver does not fail and the anchor is the centre of
    the rectangle.  The modes follow the substrings of the string: the
    horizontal mode is ["left"] if it contains ["left"], else ["right"]
    if it contains ["right"], else ["center"]; the vertical mode is
    ["top"] if it contains ["top"], else ["bottom"] if it contains
    ["bottom"], else ["middle"].  So the whole centre triple is returned
    exactly when the string contains none of the four. *)
Theorem resolve_unknown :
  forall layout : TextLayout.t,
    is_alignment (TextLayout.align layout) = false ->
    let centre :=
      Point.mk (TextLayout.x layout + TextLayout.width layout / 2)
        (TextLayout.y layout + TextLayout.height layout / 2) in
    let align := TextLayout.align layout in
    fst (fst (resolve layout)) = centre
    /\ snd (fst (resolve layout))
       = (if Js.includes "left" align then "left"
          else if Js.includes "right" align then "right"
          else "center")
    /\ snd (resolve layout)
       = (if Js.includes "top" align then "top"
          else if Js.includes "bottom" align then "bottom"
          else "middle")
    /\ (resolve layout = (centre, "center", "middle")
        <-> Js.includes "left" align = false
            /\ Js.includes "right" align = false
            /\ Js.includes "top" align = false
            /\ Js.includes "bottom" align = false).
Proof.
  intros layout H centre align.
  unfold resolve. cbn [fst snd]. rewrite (getTextPosition_unknown layout H).
  fold centre. fold align.
  split; [reflexivity|].
  unfold getCanvasTextAlign, getCanvasTextBaseline. fold align.
  split; [reflexivity|]. split; [reflexivity|].
  destruct (Js.includes "left" align), (Js.includes "right" align),
    (Js.includes "top" align), (Js.includes "bottom" align);
    split; intro E;
    try reflexivity;
    try (inversion E; fail);
    try (destruct E as (E1 & E2 & E3 & E4); discriminate);
    try (repeat split; reflexivity).
Qed.

Lemma resolve_unknown_witness :
  resolve (sampleBlock "middle")
  = (Point.mk (100 + 550 / 2) (540 + 100 / 2), "center", "middle")
  /\ snd (fst (resolve (sampleBlock "upper-left"))) = "left"
  /\ snd (resolve (sampleBlock "upper-left")) = "middle".
Proof.
  split; [|split].
  - apply (resolve_unknown (sampleBlock "middle")).
    + reflexivity.
    + repeat split; reflexivity.
  - destruct (resolve_unknown (sampleBlock "upper-left") eq_refl)
      as (_ & H & _).
    exact H.
  - destruct (resolve_unknown (sampleBlock "upper-left") eq_refl)
      as (_ & _ & H & _).
    exact H.
Defined.

(** ** BlockRenderer *)

Lemma or_num_nonzero : forall q d, ~ q == 0 -> Js.or_num (Some q) d = q.
Proof.
  intros q d H. unfold Js.or_num.
  destruct (Qeq_bool q 0) eqn:E; [|reflexivity].
  apply Qeq_bool_eq in E. contradiction.
Qed.

Lemma truthy_num_iff : forall o,
  Js.truthy_num o = true <-> exists m, o = Some m /\ ~ m == 0.
Proof.
  intros [q|]; cbn [Js.truthy_num]; split.
  - intro H. exists q. split; [reflexivity|].
    apply negb_true_iff in H. now apply Qeq_bool_neq.
  - intros (m & [= <-] & Hm). apply negb_true_iff.
    destruct (Qeq_bool q 0) eqn:E; [|reflexivity].
    apply Qeq_bool_eq in E. contradiction.
  - discriminate.
  - intros (m & H & _). discriminate.
Qed.

Lemma drawText_drawn :
  forall (Image Exn : Type) (measure : Font -> string -> Q)
         (this : CardGenerator) text layout debugMode debugColor debugLabel
         (ctx : Context2D Image),
    drawn (drawText (Exn := Exn) measure this text layout debugMode
             debugColor debugLabel) ctx
    = background_calls layout (filter (state ctx))
      ++ debug_calls this layout debugMode debugColor debugLabel
           (filter (state ctx))
      ++ text_calls measure this layout text (filter (state ctx)).
Proof.
  intros. apply drawn_app. unfold exec. now rewrite drawText_run.
Qed.

Lemma text_calls_wrapped :
  forall (Image : Type) (measure : Font -> string -> Q)
         (this : CardGenerator) layout text f0 (cF : Context2D Image),
    usesWrapper layout text = true ->
    font (state cF) = resolvedFont this layout ->
    let lines := wrapText measure cF text (blockMaxWidth layout) in
    text_calls (Image := Image) measure this layout text f0
    = placed_lines (text_call this layout f0)
        (firstLineY layout (length lines)) (blockLineHeight layout)
        lines 0.
Proof.
  intros Image measure this layout text f0 cF Hw HF lines.
  unfold text_calls. rewrite Hw. subst lines.
  now rewrite wrapText_font, HF.
Qed.

Lemma text_calls_single :
  forall (Image : Type) (measure : Font -> string -> Q)
         (this : CardGenerator) layout text f0,
    usesWrapper layout text = false ->
    text_calls (Image := Image) measure this layout text f0
    = [text_call this layout f0 text
         (Point.y (getTextPosition (paddedLayout layout)))].
Proof.
  intros Image measure this layout text f0 Hw.
  unfold text_calls. now rewrite Hw.
Qed.

Lemma paddedLayout_inset : forall layout p,
  TextLayout.padding layout = Some p -> 0 < p ->
  paddedLayout layout
  = TextLayout.with_rect layout (TextLayout.x layout + p)
      (TextLayout.y layout + p) (TextLayout.width layout - p * 2)
      (TextLayout.height layout - p * 2).
Proof.
  intros layout p Hp Hpos. unfold paddedLayout. rewrite Hp.
  rewrite or_num_nonzero; [reflexivity|].
  intro E. rewrite E in Hpos. exact (Qlt_irrefl 0 Hpos).
Qed.

(** C2, as stated, fails: a declared maximum width is the wrap limit
    whatever the padding.  In a block of width 10 with padding 2 and a
    maximum width of 10 the text ["aaa bbb"], seven wide, is drawn on
    one line, while wrapped against the inset width 6 it takes two. *)
Lemma declared_maxWidth_not_inset :
  TextLayout.padding wideLimitBlock = Some 2
  /\ text_lines
       (drawn (drawText (Exn := unit) charWidth defaultGenerator "aaa bbb"
                 wideLimitBlock false None None) blankContext)
     = ["aaa bbb"]
  /\ wrapText charWidth blankContext "aaa bbb"
       (TextLayout.width wideLimitBlock - 2 * 2)
     = ["aaa"; "bbb"].
Proof.
  split; [reflexivity|]. split; reflexivity.
Qed.

(** C2, amended.  With a padding [p > 0] the anchor is resolved on the
    inset rectangle [{x+p, y+p, width-2p, height-2p}] and every line of
    the text is placed from that anchor; the wrap limit is the declared
    maximum width when there is one other than zero and the inset width
    otherwise; the background fill of the same block covers the original
    rectangle [{x, y, width, height}].  Nothing is clamped: the
    equations hold whatever the sign of the inset width and height. *)
Theorem padding_insets_text_not_background :
  forall (Image Exn : Type) (measure : Font -> string -> Q)
         (this : CardGenerator) (text : string) (layout : TextLayout.t)
         (debugMode : bool) (debugColor debugLabel : option string)
         (ctx : Context2D Image) (p : Q),
    TextLayout.padding layout = Some p ->
    0 < p ->
    let x := TextLayout.x layout in
    let y := TextLayout.y layout in
    let w := TextLayout.width layout in
    let h := TextLayout.height layout in
    let align := TextLayout.align layout in
    let inset :=
      TextLayout.with_rect layout (x + p) (y + p) (w - p * 2) (h - p * 2) in
    let anchor := getTextPosition inset in
    let limit := Js.or_num (TextLayout.maxWidth layout) (w - p * 2) in
    let L :=
      Js.or_num (TextLayout.lineHeight layout)
        (TextLayout.fontSize layout * 1.2) in
    let startY (n : nat) :=
      if Js.includes "bottom" align
      then Point.y anchor - Js.of_nat n * L + L
      else if String.eqb align "center" || String.eqb align "left"
              || String.eqb align "right"
      then Point.y anchor - Js.of_nat n * L / 2 + L / 2
      else Point.y anchor in
    let f0 := filter (state ctx) in
    let call line lineY :=
      FillText line (Point.x anchor) lineY (resolvedFont this layout)
        (TextLayout.color layout) (getCanvasTextAlign align)
        (getCanvasTextBaseline align) f0 in
    exists textpart : list (DrawOp Image),
      drawn (drawText (Exn := Exn) measure this text layout debugMode
               debugColor debugLabel) ctx
      = background_calls layout f0
        ++ debug_calls this layout debugMode debugColor debugLabel f0
        ++ textpart
      /\ (forall c, TextLayout.backgroundColor layout = Some c ->
                    Js.truthy c = true ->
                    exists f, background_calls (Image := Image) layout f0
                              = [FillRect x y w h c f])
      /\ (TextLayout.maxWidth layout = None -> limit = w - p * 2)
      /\ (forall m, TextLayout.maxWidth layout = Some m -> ~ m == 0 ->
                    limit = m)
      /\ (usesWrapper layout text = false ->
          textpart = [call text (Point.y anchor)])
      /\ (usesWrapper layout text = true ->
          forall cF : Context2D Image,
            font (state cF) = resolvedFont this layout ->
            let lines := wrapText measure cF text limit in
            textpart = placed_lines call (startY (length lines)) L lines 0).
Proof.
  intros Image Exn measure this text layout dm dc dl ctx p Hp Hpos
         x y w h align inset anchor limit L startY f0 call.
  pose proof (paddedLayout_inset layout p Hp Hpos) as Hin.
  fold x y w h inset in Hin.
  exists (text_calls measure this layout text f0).
  split; [apply drawText_drawn|].
  split; [|split; [|split; [|split]]].
  - intros c Hc Ht. unfold background_calls. rewrite Hc, Ht. eauto.
  - intro Hm. unfold limit. now rewrite Hm.
  - intros m Hm Hnz. unfold limit. rewrite Hm. now apply or_num_nonzero.
  - intro Hw. rewrite (text_calls_single _ _ _ _ _ _ Hw).
    unfold text_call. now rewrite Hin.
  - intros Hw cF HF lines.
    rewrite (text_calls_wrapped _ _ _ _ _ _ cF Hw HF).
    unfold text_call, blockMaxWidth, firstLineY.
    rewrite Hin. reflexivity.
Qed.

Lemma padding_insets_text_not_background_witness :
  drawn (drawText (Exn := unit) charWidth defaultGenerator "Stag beetle"
           paddedBlock false None None) blankContext
  = [FillRect 10 20 100 200 "#fff" FilterNone;
     FillText "Stag" (10 + 60) (20 + 60 + Js.of_nat 0 * (18 * 1.2))
       (mkFont 18 "Arial") "#333" "left" "top" FilterNone;
     FillText "beetle" (10 + 60) (20 + 60 + Js.of_nat 1 * (18 * 1.2))
       (mkFont 18 "Arial") "#333" "left" "top" FilterNone].
Proof.
  destruct (padding_insets_text_not_background unit unit charWidth
              defaultGenerator "Stag beetle" paddedBlock false None None
              blankContext 60 eq_refl eq_refl)
    as (textpart & Hdrawn & _ & _ & _ & _ & Hwrap).
  rewrite (Hwrap eq_refl
             (mkContext
                (mkDrawState "" "" 0 (mkFont 18 "Arial") "" "" FilterNone)
                [] [])
             eq_refl) in Hdrawn.
  exact Hdrawn.
Defined.

(** C3, as stated, fails: a declared line height of zero is not used.
    The two lines of ["a b"] in a bottom-anchored block anchored at
    [ay = 100] start at [88], one default line height above the anchor,
    not at [ay - 2 * 0 + 0]. *)
Lemma zero_lineHeight_not_used :
  let L := declaredLineHeight zeroLineHeightBlock in
  let ay := Point.y (getTextPosition (paddedLayout zeroLineHeightBlock)) in
  exists firstY rest,
    drawn (drawText (Exn := unit) charWidth defaultGenerator "a b"
             zeroLineHeightBlock false None None) blankContext
    = FillText "a" (0 + 2 / 2) firstY (mkFont 10 "Arial") "#000" "center"
        "bottom" FilterNone :: rest
    /\ length rest = 1%nat
    /\ firstY == 88
    /\ ~ firstY == ay - Js.of_nat 2 * L + L.
Proof.
  eexists. eexists. split; [reflexivity|].
  split; [reflexivity|].
  split; [reflexivity|].
  intro H. vm_compute in H. discriminate H.
Qed.

(** C3, amended.  A wrapped block of [n] lines is drawn line by line
    at the anchor X, line [i] at [firstLineY + i * L], where [L] is the
    declared line height when it is declared and not zero and 1.2 times
    the font size otherwise, and where [firstLineY] is [ay - n*L + L]
    for the bottom keywords, [ay] for the top keywords and
    [ay - n*L/2 + L/2] for [left], [center] and [right]; a three-line
    [bottom-center] block starts at [ay - 2*L]. *)
Theorem wrapped_block_placement :
  forall (Image Exn : Type) (measure : Font -> string -> Q)
         (this : CardGenerator) (text : string) (layout : TextLayout.t)
         (debugMode : bool) (debugColor debugLabel : option string)
         (ctx cF : Context2D Image),
    usesWrapper layout text = true ->
    font (state cF) = resolvedFont this layout ->
    let lines := wrapText measure cF text (blockMaxWidth layout) in
    let n := length lines in
    let L :=
      Js.or_num (TextLayout.lineHeight layout)
        (TextLayout.fontSize layout * 1.2) in
    let anchor := getTextPosition (paddedLayout layout) in
    let ax := Point.x anchor in
    let ay := Point.y anchor in
    let align := TextLayout.align layout in
    let f0 := filter (state ctx) in
    (forall l, TextLayout.lineHeight layout = Some l -> ~ l == 0 -> L = l)
    /\ (TextLayout.lineHeight layout = None ->
        L = TextLayout.fontSize layout * 1.2)
    /\ exists (firstLineY : Q) (textpart : list (DrawOp Image)),
         drawn (drawText (Exn := Exn) measure this text layout debugMode
                  debugColor debugLabel) ctx
         = background_calls layout f0
           ++ debug_calls this layout debugMode debugColor debugLabel f0
           ++ textpart
         /\ length textpart = n
         /\ (forall i line,
               nth_error lines i = Some line ->
               nth_error textpart i
               = Some (FillText line ax (firstLineY + Js.of_nat i * L)
                         (resolvedFont this layout) (TextLayout.color layout)
                         (getCanvasTextAlign align)
                         (getCanvasTextBaseline align) f0))
         /\ (In align ["bottom-left"; "bottom-center"; "bottom-right"] ->
             firstLineY = ay - Js.of_nat n * L + L)
         /\ (In align ["top-left"; "top-center"; "top-right"] ->
             firstLineY = ay)
         /\ (In align ["left"; "center"; "right"] ->
             firstLineY = ay - Js.of_nat n * L / 2 + L / 2)
         /\ (align = "bottom-center" -> n = 3%nat ->
             firstLineY == ay - 2 * L).
Proof.
  intros Image Exn measure this text layout dm dc dl ctx cF Hw HF
         lines n L anchor ax ay align f0.
  split; [intros l Hl Hnz; unfold L; rewrite Hl; now apply or_num_nonzero|].
  split; [intro Hl; unfold L; now rewrite Hl|].
  exists (firstLineY layout n), (text_calls measure this layout text f0).
  split; [apply drawText_drawn|].
  rewrite (text_calls_wrapped _ _ _ _ _ _ cF Hw HF). fold lines. fold n.
  split; [apply placed_lines_length|].
  split.
  { intros i line Hi. rewrite placed_lines_nth, Hi. reflexivity. }
  unfold firstLineY. fold anchor. fold ay. fold align.
  change (blockLineHeight layout) with L.
  split; [|split; [|split]].
  - intros [H|[H|[H|[]]]]; rewrite <- H; reflexivity.
  - intros [H|[H|[H|[]]]]; rewrite <- H; reflexivity.
  - intros [H|[H|[H|[]]]]; rewrite <- H; reflexivity.
  - intros H Hn. rewrite H, Hn. cbn [Js.includes Js.startsWith].
    cbn. unfold Js.of_nat. cbn [Z.of_nat Pos.of_succ_nat Pos.succ].
    change (inject_Z 3) with 3. ring.
Qed.

Lemma wrapped_block_placement_witness :
  exists textpart,
    drawn (drawText (Exn := unit) charWidth defaultGenerator "a b"
             zeroLineHeightBlock false None None) blankContext
    = textpart
    /\ length textpart = 2%nat
    /\ nth_error textpart 1
       = Some (FillText "b" (0 + 2 / 2)
                 (0 + 100 - Js.of_nat 2 * (10 * 1.2) + 10 * 1.2
                  + Js.of_nat 1 * (10 * 1.2))
                 (mkFont 10 "Arial") "#000" "center" "bottom" FilterNone).
Proof.
  destruct (wrapped_block_placement unit unit charWidth defaultGenerator "a b"
              zeroLineHeightBlock false None None blankContext
              (mkContext
                 (mkDrawState "" "" 0 (mkFont 10 "Arial") "" "" FilterNone)
                 [] [])
              eq_refl eq_refl)
    as (_ & _ & firstY & textpart & Hdrawn & Hlen & Hnth & Hbottom & _).
  exists textpart. split; [exact Hdrawn|]. split; [exact Hlen|].
  rewrite (Hnth 1%nat "b" eq_refl).
  rewrite (Hbottom (or_intror (or_introl eq_refl))).
  reflexivity.
Defined.

(** C6, as stated, fails: a block that declares the maximum width
    zero does not send a text without spaces through the wrapper. *)
Lemma zero_maxWidth_not_wrapped :
  ~ (usesWrapper zeroMaxWidthBlock "Hercules" = true
     <-> TextLayout.maxWidth zeroMaxWidthBlock <> None
         \/ Js.includes " " "Hercules" = true).
Proof.
  intros [_ H].
  assert (E : usesWrapper zeroMaxWidthBlock "Hercules" = true)
    by (apply H; left; discriminate).
  vm_compute in E. discriminate E.
Qed.

(** C6, amended.  [drawText] takes the wrapping branch if and only if
    the block declares a maximum width other than zero or the text
    contains a space.  In that branch the lines of [wrapText] are drawn;
    otherwise the text is drawn by exactly one [fillText] of the whole
    text at the resolved anchor, whatever its width. *)
Theorem wrapper_runs_iff :
  forall (Image Exn : Type) (measure : Font -> string -> Q)
         (this : CardGenerator) (text : string) (layout : TextLayout.t)
         (debugMode : bool) (debugColor debugLabel : option string)
         (ctx : Context2D Image),
    let anchor := getTextPosition (paddedLayout layout) in
    let f0 := filter (state ctx) in
    let call line lineY :=
      FillText line (Point.x anchor) lineY (resolvedFont this layout)
        (TextLayout.color layout)
        (getCanvasTextAlign (TextLayout.align layout))
        (getCanvasTextBaseline (TextLayout.align layout)) f0 in
    let issued :=
      drawn (drawText (Exn := Exn) measure this text layout debugMode
               debugColor debugLabel) ctx in
    let before :=
      background_calls layout f0
      ++ debug_calls this layout debugMode debugColor debugLabel f0 in
    (usesWrapper layout text = true
     <-> (exists m, TextLayout.maxWidth layout = Some m /\ ~ m == 0)
         \/ Js.includes " " text = true)
    /\ (usesWrapper layout text = true ->
        forall cF : Context2D Image,
          font (state cF) = resolvedFont this layout ->
          exists startY,
            issued
            = before
              ++ placed_lines call startY (blockLineHeight layout)
                   (wrapText measure cF text (blockMaxWidth layout)) 0)
    /\ (usesWrapper layout text = false ->
        issued = before ++ [call text (Point.y anchor)]).
Proof.
  intros Image Exn measure this text layout dm dc dl ctx anchor f0 call
         issued before.
  split; [|split].
  - unfold usesWrapper. rewrite orb_true_iff, truthy_num_iff. reflexivity.
  - intros Hw cF HF.
    exists (firstLineY layout
              (length (wrapText measure cF text (blockMaxWidth layout)))).
    unfold issued, before. rewrite drawText_drawn, <- app_assoc.
    now rewrite (text_calls_wrapped _ _ _ _ _ _ cF Hw HF).
  - intro Hw. unfold issued, before.
    rewrite drawText_drawn, <- app_assoc.
    now rewrite (text_calls_single _ _ _ _ _ _ Hw).
Qed.

Lemma wrapper_runs_iff_witness :
  drawn (drawText (Exn := unit) charWidth defaultGenerator "Hercules"
           zeroMaxWidthBlock false None None) blankContext
  = [FillText "Hercules" (100 + 0 + (550 - 0 * 2) / 2)
       (540 + 0 + (100 - 0 * 2) / 2) (mkFont 18 "Arial") "#333" "center"
       "middle" FilterNone].
Proof.
  destruct (wrapper_runs_iff unit unit charWidth defaultGenerator "Hercules"
              zeroMaxWidthBlock false None None blankContext)
    as (_ & _ & Hsingle).
  exact (Hsingle eq_refl).
Defined.

(** ** Font fallback *)

(** C7.  One font is resolved for a block before anything is
    measured: the declared family when it is in the set of loaded
    fonts, the fallback family otherwise.  The wrapper measures with
    that font and every line of the block is drawn with it. *)
Theorem font_resolved_once :
  forall (Image Exn : Type) (measure : Font -> string -> Q)
         (this : CardGenerator) (text : string) (layout : TextLayout.t)
         (debugMode : bool) (debugColor debugLabel : option string)
         (ctx : Context2D Image),
    let family :=
      if Set_has (loadedFonts this) (TextLayout.fontFamily layout)
      then TextLayout.fontFamily layout else "Arial" in
    let F := mkFont (TextLayout.fontSize layout) family in
    let anchor := getTextPosition (paddedLayout layout) in
    let f0 := filter (state ctx) in
    let call line lineY :=
      FillText line (Point.x anchor) lineY F (TextLayout.color layout)
        (getCanvasTextAlign (TextLayout.align layout))
        (getCanvasTextBaseline (TextLayout.align layout)) f0 in
    exists textpart : list (DrawOp Image),
      drawn (drawText (Exn := Exn) measure this text layout debugMode
               debugColor debugLabel) ctx
      = background_calls layout f0
        ++ debug_calls this layout debugMode debugColor debugLabel f0
        ++ textpart
      /\ (usesWrapper layout text = false ->
          textpart = [call text (Point.y anchor)])
      /\ (usesWrapper layout text = true ->
          let lines := greedy_wrap (measure F) text (blockMaxWidth layout) in
          (forall cF : Context2D Image,
             font (state cF) = F ->
             wrapText measure cF text (blockMaxWidth layout) = lines)
          /\ exists startY,
               textpart
               = placed_lines call startY (blockLineHeight layout) lines 0)
      /\ font (state (exec (drawText (Exn := Exn) measure this text layout
                              debugMode debugColor debugLabel) ctx)) = F.
Proof.
  intros Image Exn measure this text layout dm dc dl ctx family F anchor f0
         call.
  exists (text_calls measure this layout text f0).
  split; [apply drawText_drawn|].
  split; [|split].
  - intro Hw. now rewrite (text_calls_single _ _ _ _ _ _ Hw).
  - intros Hw lines. split.
    + intros cF HF. rewrite wrapText_font, HF. reflexivity.
    + exists (firstLineY layout (length lines)).
      unfold text_calls. rewrite Hw. reflexivity.
  - unfold exec. rewrite drawText_run. reflexivity.
Qed.

Lemma font_resolved_once_witness :
  exists startY,
    drawn (drawText (Exn := unit) charWidth serifGenerator "Stag beetle"
             paddedBlock false None None) blankContext
    = [FillRect 10 20 100 200 "#fff" FilterNone]
      ++ placed_lines
           (fun line lineY =>
              FillText line (10 + 60) lineY (mkFont 18 "Stone Serif Semibold")
                "#333" "left" "top" FilterNone)
           startY (18 * 1.2) ["Stag"; "beetle"] 0.
Proof.
  destruct (font_resolved_once unit unit charWidth serifGenerator
              "Stag beetle" paddedBlock false None None blankContext)
    as (textpart & Hdrawn & _ & Hwrap & _).
  destruct (Hwrap eq_refl) as (_ & startY & Htext).
  exists startY. rewrite Htext in Hdrawn. exact Hdrawn.
Defined.

(** ** CardComposer *)

Section ComposeFacts.

Context {Image Exn : Type}.
Variable measure : Font -> string -> Q.
Variable loadImage : string -> Result Exn Image.
Variable toUpperCase toLowerCase : string -> string.
Variable path_join : string -> string -> string.
Variable this : CardGenerator.

Hypothesis loadImage_fails : forall path, exists e, loadImage path = Throw e.

Lemma drawElementTemplate_fails : forall element (ctx : Context2D Image),
  drawElementTemplate loadImage toUpperCase toLowerCase path_join this
    element ctx
  = (Ok tt, ctx).
Proof.
  intros element ctx. unfold drawElementTemplate, try_catch, bind, await.
  destruct (loadImage_fails
              (getTemplatePathForElement toUpperCase toLowerCase path_join
                 this element)) as [e He].
  rewrite He. reflexivity.
Qed.

Lemma drawCardArt_fails : forall imagePath debugMode (ctx : Context2D Image),
  exists s',
    drawCardArt loadImage this imagePath debugMode ctx
    = (Ok tt,
       mkContext s' (saved ctx)
         (ops ctx ++ placeholder_calls this debugMode (filter (state ctx))))
    /\ filter s' = filter (state ctx).
Proof.
  intros imagePath debugMode [s sv os].
  unfold drawCardArt, try_catch, bind at 1, await.
  destruct (loadImage_fails imagePath) as [e He]. rewrite He.
  unfold placeholder_calls.
  destruct debugMode;
    cbv [bind set_fillStyle set_strokeStyle set_lineWidth set_font
         set_textAlign set_textBaseline fillRect strokeRect fillText assign
         issue ret state saved ops fillStyle strokeStyle lineWidth font
         textAlign textBaseline filter];
    eexists; (split; [rewrite <- !app_assoc; reflexivity | reflexivity]).
Qed.

Lemma drawField_run : forall cardData debugMode mapping
    (ctx fresh : Context2D Image),
  filter (state ctx) = filter (state fresh) ->
  exists s',
    drawField (Exn := Exn) measure this cardData debugMode mapping ctx
    = (Ok tt,
       mkContext s' (saved ctx)
         (ops ctx
          ++ drawn (drawField (Exn := Exn) measure this cardData debugMode
                      mapping) fresh))
    /\ filter s' = filter (state ctx).
Proof.
  intros cardData debugMode [dataKey layoutKey] ctx fresh Hf.
  unfold drawn, exec, drawField.
  destruct (CardLayout.get (Config.layout (config this)) layoutKey)
    as [layout|].
  2:{ exists (state ctx). cbn. rewrite skipn_all, app_nil_r.
      now destruct ctx. }
  destruct (Js.truthy (CardData.get cardData dataKey)).
  2:{ exists (state ctx). cbn. rewrite skipn_all, app_nil_r.
      now destruct ctx. }
  rewrite !drawText_run. cbn [snd ops].
  rewrite skipn_app, skipn_all, Nat.sub_diag. cbn [skipn app].
  eexists. split; [rewrite Hf; reflexivity | reflexivity].
Qed.

Lemma forOf_drawField_run : forall cardData debugMode mappings
    (ctx fresh : Context2D Image),
  filter (state ctx) = filter (state fresh) ->
  exists s',
    forOf mappings (drawField (Exn := Exn) measure this cardData debugMode)
      ctx
    = (Ok tt,
       mkContext s' (saved ctx)
         (ops ctx
          ++ flat_map
               (fun mapping =>
                  drawn (drawField (Exn := Exn) measure this cardData
                           debugMode mapping) fresh)
               mappings))
    /\ filter s' = filter (state ctx).
Proof.
  intros cardData debugMode mappings.
  induction mappings as [|mapping rest IH]; intros ctx fresh Hf.
  - exists (state ctx). cbn. rewrite app_nil_r. now destruct ctx.
  - cbn [forOf flat_map].
    destruct (drawField_run cardData debugMode mapping ctx fresh Hf)
      as (s1 & Hrun & Hs1).
    rewrite (bind_run _ _ _ _ _ Hrun).
    destruct (IH (mkContext s1 (saved ctx)
                    (ops ctx
                     ++ drawn (drawField (Exn := Exn) measure this cardData
                                 debugMode mapping) fresh))
                fresh) as (s2 & Hrest & Hs2).
    { cbn [state]. congruence. }
    exists s2. rewrite Hrest. cbn [state saved ops] in *.
    rewrite <- app_assoc. split; [reflexivity | congruence].
Qed.

Lemma compose_fails_run : forall cardData debugMode,
  let fresh : Context2D Image := mkContext initialState [] [] in
  exists s',
    compose measure loadImage toUpperCase toLowerCase path_join this
      cardData debugMode fresh
    = (Ok tt,
       mkContext s' []
         ([FillRect 0 0 (Config.cardWidth (config this))
             (Config.cardHeight (config this))
             (Config.backgroundColor (config this)) FilterNone]
          ++ (if Js.truthy (CardData.Address cardData)
              then placeholder_calls this debugMode FilterNone else [])
          ++ flat_map
               (fun mapping =>
                  drawn (drawField (Exn := Exn) measure this cardData
                           debugMode mapping) fresh)
               textMappings)).
Proof.
  intros cardData debugMode fresh.
  unfold compose.
  unfold bind at 1. cbn [set_fillStyle assign].
  unfold bind at 1. cbn [fillRect issue state saved ops fresh app
                         initialState fillStyle filter].
  set (ctx1 := mkContext _ [] [_]).
  assert (H1 : exists ctx2 : Context2D Image,
             (if Js.truthy (CardData.Element cardData)
              then drawElementTemplate loadImage toUpperCase toLowerCase
                     path_join this (CardData.Element cardData)
              else ret tt) ctx1 = (Ok tt, ctx2) /\ ctx2 = ctx1).
  { exists ctx1. split; [|reflexivity].
    destruct (Js.truthy (CardData.Element cardData));
      [apply drawElementTemplate_fails | reflexivity]. }
  destruct H1 as (ctx2 & Hrun1 & ->).
  rewrite (bind_run _ _ _ _ _ Hrun1).
  assert (H2 : exists s2,
             (if Js.truthy (CardData.Address cardData)
              then drawCardArt loadImage this
                     (getImageUrlFromAddress (CardData.Address cardData))
                     debugMode
              else ret tt) ctx1
             = (Ok tt,
                mkContext s2 []
                  (ops ctx1
                   ++ (if Js.truthy (CardData.Address cardData)
                       then placeholder_calls this debugMode FilterNone else [])))
             /\ filter s2 = FilterNone).
  { destruct (Js.truthy (CardData.Address cardData)).
    - destruct (drawCardArt_fails
                  (getImageUrlFromAddress (CardData.Address cardData))
                  debugMode ctx1) as (s2 & Hrun & Hs2).
      exists s2. split; [exact Hrun | exact Hs2].
    - exists (state ctx1). split; [|reflexivity].
      unfold ret. rewrite app_nil_r. reflexivity. }
  destruct H2 as (s2 & Hrun2 & Hs2).
  rewrite (bind_run _ _ _ _ _ Hrun2).
  destruct (forOf_drawField_run cardData debugMode textMappings
              (mkContext s2 []
                 (ops ctx1
                  ++ (if Js.truthy (CardData.Address cardData)
                      then placeholder_calls this debugMode FilterNone else [])))
              fresh Hs2) as (s3 & Hrun3 & _).
  exists s3. rewrite Hrun3. cbn [saved ops ctx1 app]. reflexivity.
Qed.

End ComposeFacts.

(** C8, as stated, fails for a record without an address: no artwork
    is requested, so no placeholder is drawn. *)
Lemma no_address_no_placeholder :
  exists canvas,
    generateCard charWidth noImage sameCase sameCase joinPath
      defaultGenerator (herculesCard "") false
    = Ok canvas
    /\ ~ In (FillRect 75 120 600 400 "#ccc" FilterNone)
            (ops (context canvas))
    /\ forall op, In op (ops (context canvas)) ->
                  forall x y font fillStyle textAlign textBaseline f,
                    op <> FillText "Image Not Found" x y font fillStyle
                            textAlign textBaseline f.
Proof.
  eexists. split; [vm_compute; reflexivity|].
  cbn [context ops]. split.
  - intro H. cbn [In] in H.
    repeat (destruct H as [H|H]; [discriminate H|]). exact H.
  - intros op H. cbn [In] in H.
    repeat (destruct H as [H|H]; [subst op; discriminate|]).
    contradiction.
Qed.

Lemma drawField_drawn :
  forall (Image Exn : Type) (measure : Font -> string -> Q)
         (this : CardGenerator) cardData debugMode dataKey layoutKey
         (ctx : Context2D Image),
    drawn (drawField (Exn := Exn) measure this cardData debugMode
             (dataKey, layoutKey)) ctx
    = block_calls measure this cardData debugMode dataKey layoutKey
        (filter (state ctx)).
Proof.
  intros Image Exn measure this cardData debugMode dataKey layoutKey ctx.
  unfold drawField, block_calls.
  destruct (CardLayout.get (Config.layout (config this)) layoutKey)
    as [layout|].
  - destruct (Js.truthy (CardData.get cardData dataKey)).
    + apply drawText_drawn.
    + apply drawn_app. cbn. now rewrite app_nil_r.
  - apply drawn_app. cbn. now rewrite app_nil_r.
Qed.

(** C8, amended.  When no template and no artwork can be loaded,
    composing a record still returns a canvas: it holds the flat
    background fill, then, if the record has an address, the placeholder
    rectangle on the artwork rectangle with its ["Image Not Found"]
    caption, then, in the order name, cost, lore, attack, armor, skills,
    the background, debug box and text of every block whose field has a
    value and a layout, which is what [drawText] draws for that value
    and layout on a new canvas. *)
Theorem compose_without_images :
  forall (Image Exn : Type) (measure : Font -> string -> Q)
         (loadImage : string -> Result Exn Image)
         (toUpperCase toLowerCase : string -> string)
         (path_join : string -> string -> string)
         (this : CardGenerator) (cardData : CardData.t) (debugMode : bool),
    (forall path, exists e, loadImage path = Throw e) ->
    let W := Config.cardWidth (config this) in
    let H := Config.cardHeight (config this) in
    let artX := Config.cardArtX (config this) in
    let artY := Config.cardArtY (config this) in
    let artW := Config.cardArtWidth (config this) in
    let artH := Config.cardArtHeight (config this) in
    let fresh : Context2D Image := context (createCanvas W H) in
    let placeholder :=
      [FillRect artX artY artW artH "#ccc" FilterNone;
       FillText "Image Not Found" (artX + artW / 2) (artY + artH / 2)
         (mkFont 16 "Stone Serif Semibold") "#666" "center" "middle"
         FilterNone]
      ++ (if debugMode
          then [StrokeRect artX artY artW artH "rgba(255, 0, 0, 0.8)" 3
                  FilterNone]
          else []) in
    let block dataKey layoutKey : list (DrawOp Image) :=
      match CardLayout.get (Config.layout (config this)) layoutKey with
      | Some layout =>
          if Js.truthy (CardData.get cardData dataKey)
          then
            background_calls layout FilterNone
            ++ debug_calls this layout debugMode
                 (Some (getDebugColors layoutKey))
                 (Some (CardLayout.key_string layoutKey)) FilterNone
            ++ text_calls measure this layout
                 (CardData.get cardData dataKey) FilterNone
          else []
      | None => []
      end in
    exists canvas,
      generateCard measure loadImage toUpperCase toLowerCase path_join this
        cardData debugMode
      = Ok canvas
      /\ canvas_width canvas = W
      /\ canvas_height canvas = H
      /\ ops (context canvas)
         = [FillRect 0 0 W H (Config.backgroundColor (config this))
              FilterNone]
           ++ (if Js.truthy (CardData.Address cardData)
               then placeholder else [])
           ++ block CardData.KName CardLayout.Kname
           ++ block CardData.KCost CardLayout.Kcost
           ++ block CardData.KLore CardLayout.Klore
           ++ block CardData.KAttack CardLayout.Kattack
           ++ block CardData.KArmor CardLayout.Karmor
           ++ block CardData.KSkills CardLayout.Kskills
      /\ forall dataKey layoutKey layout,
           CardLayout.get (Config.layout (config this)) layoutKey
           = Some layout ->
           Js.truthy (CardData.get cardData dataKey) = true ->
           block dataKey layoutKey
           = drawn (drawText (Exn := Exn) measure this
                      (CardData.get cardData dataKey) layout debugMode
                      (Some (getDebugColors layoutKey))
                      (Some (CardLayout.key_string layoutKey))) fresh.
Proof.
  intros Image Exn measure loadImage toUpperCase toLowerCase path_join this
         cardData debugMode Hfail W H artX artY artW artH fresh placeholder
         block.
  destruct (compose_fails_run measure loadImage toUpperCase toLowerCase
              path_join this Hfail cardData debugMode) as (s' & Hrun).
  unfold generateCard. cbn [createCanvas context canvas_width canvas_height].
  rewrite Hrun. eexists. split; [reflexivity|].
  split; [reflexivity|]. split; [reflexivity|].
  cbn [context ops]. split.
  - cbn [textMappings flat_map]. rewrite !drawField_drawn, app_nil_r.
    reflexivity.
  - intros dataKey layoutKey layout Hl Hv. unfold block.
    rewrite Hl, Hv, drawText_drawn. reflexivity.
Qed.

Lemma compose_without_images_witness :
  exists canvas,
    generateCard charWidth noImage sameCase sameCase joinPath
      defaultGenerator (herculesCard "0x51") false
    = Ok canvas
    /\ ops (context canvas)
       = [FillRect 0 0 750 1050 "#ffffff" FilterNone;
          FillRect 75 120 600 400 "#ccc" FilterNone;
          FillText "Image Not Found" (75 + 600 / 2) (120 + 400 / 2)
            (mkFont 16 "Stone Serif Semibold") "#666" "center" "middle"
            FilterNone;
          FillText "Hercules" (75 + 0 + (600 - 0 * 2) / 2)
            (40 + 0 + (80 - 0 * 2) / 2) (mkFont 32 "Arial") "#000" "center"
            "middle" FilterNone;
          FillText "3" (650 + 0 + (50 - 0 * 2) / 2)
            (40 + 0 + (50 - 0 * 2) / 2) (mkFont 28 "Arial") "#fff" "center"
            "middle" FilterNone;
          FillText "5" (100 + 0 + (60 - 0 * 2) / 2)
            (950 + 0 + (60 - 0 * 2) / 2) (mkFont 36 "Arial") "#fff" "center"
            "middle" FilterNone;
          FillText "4" (240 + 0 + (60 - 0 * 2) / 2)
            (950 + 0 + (60 - 0 * 2) / 2) (mkFont 36 "Arial") "#fff" "center"
            "middle" FilterNone].
Proof.
  destruct (compose_without_images unit unit charWidth noImage sameCase
              sameCase joinPath defaultGenerator (herculesCard "0x51") false
              (fun path => ex_intro _ tt eq_refl))
    as (canvas & Hrun & _ & _ & Hops & _).
  exists canvas. split; [exact Hrun|].
  rewrite Hops. reflexivity.
Defined.

(** * Further properties *)

(** ** Lines of the wrapper *)

Lemma greedy_lines_fit :
  forall (width : string -> Q) (maxWidth : Q) (words rest : list string)
         (currentLine : string),
    (width currentLine < maxWidth \/ In currentLine words) ->
    (forall word, In word rest -> In word words) ->
    Forall (fun line => width line < maxWidth \/ In line words)
      (greedy_lines width maxWidth currentLine rest).
Proof.
  intros width maxWidth words.
  induction rest as [|word rest IH]; intros cur Hcur Hrest;
    cbn [greedy_lines].
  - constructor; [exact Hcur | constructor].
  - destruct (Js.ltb _ maxWidth) eqn:E.
    + apply IH.
      * left. now apply ltb_lt.
      * intros w Hw. apply Hrest. now right.
    + constructor; [exact Hcur|].
      apply IH.
      * right. apply Hrest. now left.
      * intros w Hw. apply Hrest. now right.
Qed.

(** X1.  Every line [wrapText] returns either measures strictly less
    than the limit or is a single word of the text: only a word that is
    too wide on its own can overflow. *)
Theorem wrapText_lines_fit :
  forall (Image : Type) (measure : Font -> string -> Q)
         (ctx : Context2D Image) (text : string) (W : Q),
    Forall
      (fun line =>
         measureText measure ctx line < W \/ In line (Js.split text))
      (wrapText measure ctx text W).
Proof.
  intros Image measure ctx text W.
  rewrite wrapText_greedy. unfold greedy_wrap.
  pose proof (split_nonempty text) as Hne.
  destruct (Js.split text) as [|first rest] eqn:E; [congruence|].
  apply greedy_lines_fit.
  - right. now left.
  - intros w Hw. now right.
Qed.

Lemma greedy_lines_count :
  forall (width : string -> Q) (maxWidth : Q) (rest : list string)
         (currentLine : string),
    (1 <= length (greedy_lines width maxWidth currentLine rest)
     <= S (length rest))%nat.
Proof.
  intros width maxWidth.
  induction rest as [|word rest IH]; intro cur; cbn [greedy_lines length].
  - lia.
  - destruct (Js.ltb _ maxWidth).
    + specialize (IH (cur ++ " " ++ word)%string). lia.
    + specialize (IH word). cbn [length]. lia.
Qed.

(** X2.  [wrapText] returns at least one line and never more lines
    than the text has words. *)
Theorem wrapText_line_count :
  forall (Image : Type) (measure : Font -> string -> Q)
         (ctx : Context2D Image) (text : string) (W : Q),
    (1 <= length (wrapText measure ctx text W)
     <= length (Js.split text))%nat.
Proof.
  intros Image measure ctx text W.
  rewrite wrapText_greedy. unfold greedy_wrap.
  pose proof (split_nonempty text) as Hne.
  destruct (Js.split text) as [|first rest]; [congruence|].
  apply greedy_lines_count.
Qed.

Lemma join_snoc : forall l w,
  l <> [] -> Js.join " " (l ++ [w]) = (Js.join " " l ++ " " ++ w)%string.
Proof.
  induction l as [|a l IH]; intros w Hne; [congruence|].
  destruct l as [|b l].
  - reflexivity.
  - cbn [app]. rewrite !join_cons.
    change (b :: l ++ [w]) with ((b :: l) ++ [w]).
    rewrite IH by discriminate. now rewrite !append_assoc.
Qed.

Lemma firstn_skipn_snoc : forall (A : Type) (l : list A) k w rest,
  skipn k l = w :: rest ->
  firstn (S k) l = firstn k l ++ [w] /\ skipn (S k) l = rest.
Proof.
  intros A. induction l as [|a l IH]; intros k w rest H.
  - destruct k; discriminate H.
  - destruct k as [|k].
    + cbn in H. injection H as -> ->. split; reflexivity.
    + cbn [skipn] in H. destruct (IH k w rest H) as [H1 H2].
      split.
      * change (firstn (S (S k)) (a :: l)) with (a :: firstn (S k) l).
        rewrite H1. reflexivity.
      * exact H2.
Qed.

Lemma greedy_lines_all_fit :
  forall (width : string -> Q) (maxWidth : Q) (words : list string),
    (forall k, width (Js.join " " (firstn k words)) < maxWidth) ->
    forall rest k,
      (1 <= k)%nat ->
      skipn k words = rest ->
      greedy_lines width maxWidth (Js.join " " (firstn k words)) rest
      = [Js.join " " words].
Proof.
  intros width maxWidth words Hfit.
  induction rest as [|word rest IH]; intros k Hk Hskip.
  - cbn [greedy_lines].
    rewrite <- (firstn_skipn k words) at 2. rewrite Hskip, app_nil_r.
    reflexivity.
  - cbn [greedy_lines].
    destruct (firstn_skipn_snoc _ _ _ _ _ Hskip) as [Hfirst Hrest].
    assert (Hne : firstn k words <> []).
    { destruct k as [|k]; [lia|].
      destruct words; [destruct k; discriminate Hskip | discriminate]. }
    rewrite <- (join_snoc _ word Hne), <- Hfirst.
    pose proof (Hfit (S k)) as Hlt. apply ltb_lt in Hlt. rewrite Hlt.
    apply IH; [lia | exact Hrest].
Qed.

(** X3.  A text all of whose leading runs of words measure less than
    the limit is left on one line, equal to the text. *)
Theorem wrapText_fits_one_line :
  forall (Image : Type) (measure : Font -> string -> Q)
         (ctx : Context2D Image) (text : string) (W : Q),
    (forall k,
       measureText measure ctx (Js.join " " (firstn k (Js.split text))) < W) ->
    wrapText measure ctx text W = [text].
Proof.
  intros Image measure ctx text W Hfit.
  rewrite wrapText_greedy. unfold greedy_wrap.
  pose proof (split_nonempty text) as Hne.
  pose proof (join_split text) as Hjoin.
  destruct (Js.split text) as [|first rest] eqn:E; [congruence|].
  rewrite <- Hjoin.
  exact (greedy_lines_all_fit _ W (first :: rest) Hfit rest 1%nat
           (le_n 1) eq_refl).
Qed.

Lemma wrapText_fits_one_line_witness :
  wrapText charWidth blankContext "aa bb cc" 9 = ["aa bb cc"].
Proof.
  apply (wrapText_fits_one_line unit charWidth blankContext "aa bb cc" 9).
  intros [|[|[|k]]]; try reflexivity.
  cbn [Js.split Ascii.eqb Bool.eqb firstn].
  rewrite firstn_nil. reflexivity.
Defined.

(** ** Geometry of a block *)

Lemma half_bounds : forall w : Q, 0 <= w -> 0 <= w / 2 /\ w / 2 <= w.
Proof.
  intros w H. unfold Qdiv. change (/ 2) with (1 # 2). split; lra.
Qed.

(** X4.  On a rectangle of non-negative width and height the anchor
    lies inside the rectangle, for every alignment string, known or
    not. *)
Theorem anchor_inside_rect :
  forall layout : TextLayout.t,
    0 <= TextLayout.width layout ->
    0 <= TextLayout.height layout ->
    let anchor := getTextPosition layout in
    TextLayout.x layout <= Point.x anchor
    /\ Point.x anchor <= TextLayout.x layout + TextLayout.width layout
    /\ TextLayout.y layout <= Point.y anchor
    /\ Point.y anchor <= TextLayout.y layout + TextLayout.height layout.
Proof.
  intros layout Hw Hh anchor. subst anchor. unfold getTextPosition.
  destruct (half_bounds _ Hw) as [Hw1 Hw2].
  destruct (half_bounds _ Hh) as [Hh1 Hh2].
  repeat match goal with
         | |- context [if ?b then _ else _] => destruct b
         end;
    cbn [Point.x Point.y]; repeat split; lra.
Qed.

Lemma anchor_inside_rect_witness :
  let anchor := getTextPosition (sampleBlock "bottom-right") in
  100 <= Point.x anchor /\ Point.x anchor <= 100 + 550
  /\ 540 <= Point.y anchor /\ Point.y anchor <= 540 + 100.
Proof.
  apply (anchor_inside_rect (sampleBlock "bottom-right")); discriminate.
Defined.

Lemma text_ys_placed :
  forall (Image : Type) (this : CardGenerator) layout f0 startY lineHeight
         lines index,
    text_ys (Image := Image)
      (placed_lines (text_call this layout f0) startY lineHeight lines index)
    = map (fun i => startY + Js.of_nat i * lineHeight)
        (seq index (length lines)).
Proof.
  intros Image this layout f0 startY lineHeight.
  induction lines as [|line rest IH]; intro index; [reflexivity|].
  cbn [placed_lines length seq map]. unfold text_ys in *.
  cbn [flat_map text_call app]. now rewrite IH.
Qed.

Lemma text_lines_placed :
  forall (Image : Type) (this : CardGenerator) layout f0 startY lineHeight
         lines index,
    text_lines (Image := Image)
      (placed_lines (text_call this layout f0) startY lineHeight lines index)
    = lines.
Proof.
  intros Image this layout f0 startY lineHeight.
  induction lines as [|line rest IH]; intro index; [reflexivity|].
  cbn [placed_lines]. unfold text_lines in *.
  cbn [flat_map text_call app]. now rewrite IH.
Qed.

Lemma of_nat_pred : forall n,
  (1 <= n)%nat -> Js.of_nat n == Js.of_nat (n - 1) + 1.
Proof.
  intros n Hn. unfold Js.of_nat.
  replace (Z.of_nat n) with (Z.of_nat (n - 1) + 1)%Z by lia.
  rewrite inject_Z_plus. reflexivity.
Qed.

(** X5.  The vertical extent of a wrapped block.  For the bottom
    keywords the last line is drawn at the anchor Y; for the top
    keywords the first line is; for [left], [center] and [right] the
    first and the last line are drawn at equal distances above and
    below the anchor Y. *)
Theorem wrapped_block_extent :
  forall (Image Exn : Type) (measure : Font -> string -> Q)
         (this : CardGenerator) (text : string) (layout : TextLayout.t)
         (debugMode : bool) (debugColor debugLabel : option string)
         (ctx : Context2D Image),
    usesWrapper layout text = true ->
    let ay := Point.y (getTextPosition (paddedLayout layout)) in
    let align := TextLayout.align layout in
    let f0 := filter (state ctx) in
    exists (textpart : list (DrawOp Image)) (n : nat),
      drawn (drawText (Exn := Exn) measure this text layout debugMode
               debugColor debugLabel) ctx
      = background_calls layout f0
        ++ debug_calls this layout debugMode debugColor debugLabel f0
        ++ textpart
      /\ (1 <= n)%nat
      /\ length (text_ys textpart) = n
      /\ forall first last,
           nth_error (text_ys textpart) 0 = Some first ->
           nth_error (text_ys textpart) (n - 1) = Some last ->
           (In align ["bottom-left"; "bottom-center"; "bottom-right"] ->
            last == ay)
           /\ (In align ["top-left"; "top-center"; "top-right"] ->
               first == ay)
           /\ (In align ["left"; "center"; "right"] ->
               ay - first == last - ay).
Proof.
  intros Image Exn measure this text layout dm dc dl ctx Hw ay align f0.
  set (lines := greedy_wrap (measure (resolvedFont this layout)) text
                  (blockMaxWidth layout)).
  exists (text_calls measure this layout text f0), (length lines).
  split; [apply drawText_drawn|].
  assert (Hn : (1 <= length lines)%nat).
  { unfold lines, greedy_wrap.
    destruct (Js.split text); apply greedy_lines_count. }
  split; [exact Hn|].
  unfold text_calls. rewrite Hw. fold lines.
  rewrite text_ys_placed.
  split; [now rewrite length_map, length_seq|].
  intros first last Hfirst Hlast.
  rewrite nth_error_map in Hfirst, Hlast.
  rewrite nth_error_seq in Hfirst, Hlast.
  destruct (Nat.ltb_spec 0 (length lines)) as [_|]; [|lia].
  destruct (Nat.ltb_spec (length lines - 1) (length lines)) as [_|]; [|lia].
  cbn [option_map Nat.add] in Hfirst, Hlast.
  injection Hfirst as <-. injection Hlast as <-.
  pose proof (of_nat_pred _ Hn) as Hpred.
  set (m := Js.of_nat (length lines - 1)) in *.
  unfold firstLineY. fold ay. fold align.
  set (L := blockLineHeight layout).
  change (Js.of_nat 0) with 0.
  repeat split.
  - intros [H|[H|[H|[]]]]; rewrite <- H; cbn -[Js.of_nat Qplus Qminus Qmult];
      rewrite Hpred; ring.
  - intros [H|[H|[H|[]]]]; rewrite <- H; cbn -[Js.of_nat Qplus Qminus Qmult];
      ring.
  - intros [H|[H|[H|[]]]]; rewrite <- H;
      cbn -[Js.of_nat Qplus Qminus Qmult Qdiv]; rewrite Hpred; field.
Qed.

Lemma wrapped_block_extent_witness :
  exists textpart,
    drawn (drawText (Exn := unit) charWidth defaultGenerator "a b"
             zeroLineHeightBlock false None None) blankContext
    = textpart
    /\ forall first last,
         nth_error (text_ys textpart) 0 = Some first ->
         nth_error (text_ys textpart) 1 = Some last ->
         last == 0 + 100.
Proof.
  destruct (wrapped_block_extent unit unit charWidth defaultGenerator "a b"
              zeroLineHeightBlock false None None blankContext eq_refl)
    as (textpart & n & Hdrawn & _ & Hlen & Hext).
  exists textpart. split; [exact Hdrawn|].
  assert (Hn : n = 2%nat).
  { rewrite <- Hlen.
    assert (E : textpart
                = drawn (drawText (Exn := unit) charWidth defaultGenerator
                           "a b" zeroLineHeightBlock false None None)
                    blankContext)
      by (rewrite Hdrawn; reflexivity).
    rewrite E. reflexivity. }
  clear Hlen. subst n. intros first last Hfirst Hlast.
  destruct (Hext first last Hfirst Hlast) as (Hbottom & _ & _).
  apply Hbottom. right. left. reflexivity.
Defined.

(** ** Effects of a block on the context *)

Lemma blur_test : forall b,
  negb (Qeq_bool b 0) && Js.gtb b 0 = true <-> 0 < b.
Proof.
  intro b. unfold Js.gtb. rewrite andb_true_iff, ltb_lt, negb_true_iff.
  split.
  - intros [_ H]. exact H.
  - intro H. split; [|exact H].
    destruct (Qeq_bool b 0) eqn:E; [|reflexivity].
    apply Qeq_bool_eq in E. rewrite E in H. now apply Qlt_irrefl in H.
Qed.

(** X6.  The background of a block is scoped: [drawTextBackground]
    returns with the drawing state and the save stack exactly as it
    found them.  Without a background colour it draws nothing; with one
    it issues a single [fillRect] on the block's rectangle, blurred by
    the block's blur radius when that radius is positive and under the
    filter in force otherwise. *)
Theorem drawTextBackground_scoped :
  forall (Image Exn : Type) (layout : TextLayout.t) (ctx : Context2D Image),
    let background := drawTextBackground (Exn := Exn) layout in
    background ctx
    = (Ok tt,
       mkContext (state ctx) (saved ctx) (ops ctx ++ drawn background ctx))
    /\ (Js.truthy_str (TextLayout.backgroundColor layout) = false ->
        drawn background ctx = [])
    /\ (forall color,
          TextLayout.backgroundColor layout = Some color ->
          Js.truthy color = true ->
          exists f,
            drawn background ctx
            = [FillRect (TextLayout.x layout) (TextLayout.y layout)
                 (TextLayout.width layout) (TextLayout.height layout) color f]
            /\ (forall b, TextLayout.backgroundBlur layout = Some b ->
                          0 < b -> f = FilterBlur b)
            /\ (forall b, TextLayout.backgroundBlur layout = Some b ->
                          b <= 0 -> f = filter (state ctx))
            /\ (TextLayout.backgroundBlur layout = None ->
                f = filter (state ctx))).
Proof.
  intros Image Exn layout ctx background.
  assert (Hdrawn : drawn background ctx
                   = background_calls layout (filter (state ctx))).
  { apply drawn_app. unfold exec, background.
    now rewrite drawTextBackground_run. }
  rewrite Hdrawn.
  split; [apply drawTextBackground_run|].
  unfold background_calls. split.
  - intro H. destruct (TextLayout.backgroundColor layout) as [c|];
      [|reflexivity].
    cbn [Js.truthy_str] in H. now rewrite H.
  - intros color Hc Ht. rewrite Hc, Ht. eexists. split; [reflexivity|].
    destruct (TextLayout.backgroundBlur layout) as [blur|].
    + destruct (negb (Qeq_bool blur 0) && Js.gtb blur 0) eqn:E.
      * apply blur_test in E. split; [|split].
        -- intros b [= <-] _. reflexivity.
        -- intros b [= <-] Hle. exfalso. exact (Qlt_not_le _ _ E Hle).
        -- discriminate.
      * split; [|split].
        -- intros b [= <-] Hlt. apply blur_test in Hlt. congruence.
        -- intros b [= <-] _. reflexivity.
        -- discriminate.
    + split; [|split]; try discriminate. reflexivity.
Qed.

Lemma drawTextBackground_scoped_witness :
  drawn (drawTextBackground (Exn := unit) mainLoreBlock) blankContext
  = [FillRect 130 1800 1483 200 "rgba(0, 0, 0, 0.2)" (FilterBlur 8)].
Proof.
  destruct (drawTextBackground_scoped unit unit mainLoreBlock blankContext)
    as (_ & _ & H).
  destruct (H "rgba(0, 0, 0, 0.2)" eq_refl eq_refl) as (f & Hdrawn & Hb & _).
  rewrite Hdrawn. now rewrite (Hb 8 eq_refl eq_refl).
Defined.

(** X7.  A block draws its whole text: the texts of the [fillText]
    calls that follow the background and the debug box, joined with
    single spaces, are the text; there is at least one such call and
    no other call among them. *)
Theorem drawText_draws_whole_text :
  forall (Image Exn : Type) (measure : Font -> string -> Q)
         (this : CardGenerator) (text : string) (layout : TextLayout.t)
         (debugMode : bool) (debugColor debugLabel : option string)
         (ctx : Context2D Image),
    let f0 := filter (state ctx) in
    exists textpart : list (DrawOp Image),
      drawn (drawText (Exn := Exn) measure this text layout debugMode
               debugColor debugLabel) ctx
      = background_calls layout f0
        ++ debug_calls this layout debugMode debugColor debugLabel f0
        ++ textpart
      /\ Js.join " " (text_lines textpart) = text
      /\ length (text_lines textpart) = length textpart
      /\ (1 <= length textpart)%nat.
Proof.
  intros Image Exn measure this text layout dm dc dl ctx f0.
  exists (text_calls measure this layout text f0).
  split; [apply drawText_drawn|].
  unfold text_calls. destruct (usesWrapper layout text).
  - set (lines := greedy_wrap _ text _).
    rewrite text_lines_placed, placed_lines_length.
    split; [|split; [reflexivity|]].
    + unfold lines, greedy_wrap.
      pose proof (split_nonempty text) as Hne.
      pose proof (join_split text) as Hjoin.
      destruct (Js.split text) as [|first rest]; [congruence|].
      now rewrite (greedy_lines_join (Image := Image)
                     (fun _ => measure (resolvedFont this layout))
                     (mkContext initialState [] [])).
    + unfold lines, greedy_wrap.
      destruct (Js.split text); apply greedy_lines_count.
  - cbn. split; [reflexivity | split; [reflexivity | lia]].
Qed.

(** X8.  [drawText] always returns normally, and it leaves the save
    stack and the filter of the context as it found them: neither the
    blur of its background nor an unbalanced [save] reaches what is
    drawn next. *)
Theorem drawText_keeps_stack_and_filter :
  forall (Image Exn : Type) (measure : Font -> string -> Q)
         (this : CardGenerator) (text : string) (layout : TextLayout.t)
         (debugMode : bool) (debugColor debugLabel : option string)
         (ctx : Context2D Image),
    let block :=
      drawText (Exn := Exn) measure this text layout debugMode debugColor
        debugLabel in
    fst (block ctx) = Ok tt
    /\ saved (exec block ctx) = saved ctx
    /\ filter (state (exec block ctx)) = filter (state ctx).
Proof.
  intros Image Exn measure this text layout dm dc dl ctx block.
  unfold block, exec. rewrite drawText_run. cbn [fst snd saved state ops].
  repeat split.
Qed.

(** ** Composition with any image loader *)

Section ComposeRun.

Context {Image Exn : Type}.
Variable measure : Font -> string -> Q.
Variable loadImage : string -> Result Exn Image.
Variable toUpperCase toLowerCase : string -> string.
Variable path_join : string -> string -> string.
Variable this : CardGenerator.

Lemma drawElementTemplate_run : forall cardData (ctx : Context2D Image),
  (if Js.truthy (CardData.Element cardData)
   then drawElementTemplate loadImage toUpperCase toLowerCase path_join this
          (CardData.Element cardData)
   else ret tt) ctx
  = (Ok tt,
     mkContext (state ctx) (saved ctx)
       (ops ctx
        ++ template_calls loadImage toUpperCase toLowerCase path_join this
             cardData (filter (state ctx)))).
Proof.
  intros cardData [s sv os]. unfold template_calls.
  destruct (Js.truthy (CardData.Element cardData)).
  - unfold drawElementTemplate, try_catch, bind, await.
    destruct (loadImage _) as [template|e].
    + reflexivity.
    + cbn. now rewrite app_nil_r.
  - cbn. now rewrite app_nil_r.
Qed.

Lemma drawCardArt_run : forall cardData debugMode (ctx : Context2D Image),
  exists s',
    (if Js.truthy (CardData.Address cardData)
     then drawCardArt loadImage this
            (getImageUrlFromAddress (CardData.Address cardData)) debugMode
     else ret tt) ctx
    = (Ok tt,
       mkContext s' (saved ctx)
         (ops ctx
          ++ art_calls loadImage this cardData debugMode
               (filter (state ctx))))
    /\ filter s' = filter (state ctx).
Proof.
  intros cardData debugMode [s sv os]. unfold art_calls.
  destruct (Js.truthy (CardData.Address cardData)).
  2:{ exists s. cbn. now rewrite app_nil_r. }
  unfold drawCardArt, try_catch, bind at 1, await, placeholder_calls.
  destruct (loadImage _) as [image|e]; destruct debugMode;
    cbv [bind set_fillStyle set_strokeStyle set_lineWidth set_font
         set_textAlign set_textBaseline fillRect strokeRect fillText
         drawImage assign issue ret state saved ops fillStyle strokeStyle
         lineWidth font textAlign textBaseline filter];
    eexists; (split; [rewrite <- ?app_assoc; reflexivity | reflexivity]).
Qed.

Lemma compose_run : forall cardData debugMode,
  let fresh : Context2D Image := mkContext initialState [] [] in
  exists s',
    compose measure loadImage toUpperCase toLowerCase path_join this
      cardData debugMode fresh
    = (Ok tt,
       mkContext s' []
         ([FillRect 0 0 (Config.cardWidth (config this))
             (Config.cardHeight (config this))
             (Config.backgroundColor (config this)) FilterNone]
          ++ template_calls loadImage toUpperCase toLowerCase path_join this
               cardData FilterNone
          ++ art_calls loadImage this cardData debugMode FilterNone
          ++ flat_map
               (fun mapping =>
                  drawn (drawField (Exn := Exn) measure this cardData
                           debugMode mapping) fresh)
               textMappings))
    /\ filter s' = FilterNone.
Proof.
  intros cardData debugMode fresh.
  unfold compose.
  unfold bind at 1. cbn [set_fillStyle assign].
  unfold bind at 1. cbn [fillRect issue state saved ops fresh app
                         initialState fillStyle filter].
  set (ctx1 := mkContext _ [] [_]).
  rewrite (bind_run _ _ _ _ _ (drawElementTemplate_run cardData ctx1)).
  destruct (drawCardArt_run cardData debugMode
              (mkContext (state ctx1) (saved ctx1)
                 (ops ctx1
                  ++ template_calls loadImage toUpperCase toLowerCase
                       path_join this cardData (filter (state ctx1)))))
    as (s2 & Hrun2 & Hs2).
  rewrite (bind_run _ _ _ _ _ Hrun2).
  cbn [state saved ops ctx1 filter] in Hs2 |- *.
  match goal with
  | |- exists _, forOf _ _ ?c = _ /\ _ =>
      destruct (forOf_drawField_run (Exn := Exn) measure this cardData
                  debugMode textMappings c fresh Hs2) as (s3 & Hrun3 & Hs3)
  end.
  exists s3. rewrite Hrun3. cbn [saved ops state app] in *.
  split; [|congruence].
  now rewrite <- !app_assoc.
Qed.

End ComposeRun.

(** X9.  [generateCard] never throws, whatever [loadImage] does for
    the template and for the artwork: it returns a canvas of the
    configured size whose first draw call is the flat background fill of
    the whole canvas, with an empty save stack and no filter left on
    its context. *)
Theorem generateCard_never_throws :
  forall (Image Exn : Type) (measure : Font -> string -> Q)
         (loadImage : string -> Result Exn Image)
         (toUpperCase toLowerCase : string -> string)
         (path_join : string -> string -> string)
         (this : CardGenerator) (cardData : CardData.t) (debugMode : bool),
    exists canvas rest,
      generateCard measure loadImage toUpperCase toLowerCase path_join this
        cardData debugMode
      = Ok canvas
      /\ canvas_width canvas = Config.cardWidth (config this)
      /\ canvas_height canvas = Config.cardHeight (config this)
      /\ ops (context canvas)
         = FillRect 0 0 (Config.cardWidth (config this))
             (Config.cardHeight (config this))
             (Config.backgroundColor (config this)) FilterNone
           :: rest
      /\ saved (context canvas) = []
      /\ filter (state (context canvas)) = FilterNone.
Proof.
  intros Image Exn measure loadImage toUpperCase toLowerCase path_join this
         cardData debugMode.
  destruct (compose_run measure loadImage toUpperCase toLowerCase path_join
              this cardData debugMode) as (s' & Hrun & Hs').
  unfold generateCard. cbn [createCanvas context canvas_width canvas_height].
  rewrite Hrun. eexists. eexists.
  split; [reflexivity|]. cbn [canvas_width canvas_height context ops saved
                              state app].
  repeat split. exact Hs'.
Qed.

(** X10.  The draw order of a card whose template and artwork load:
    the background fill, the template over the whole canvas, the
    artwork on the artwork rectangle (followed in debug mode by its
    outline and its label), then, in the order name, cost, lore, attack,
    armor, skills, the background, debug box and text of every block
    whose field has a value and a layout, which is what [drawText]
    draws for that value and layout on a new canvas. *)
Theorem generateCard_draw_order :
  forall (Image Exn : Type) (measure : Font -> string -> Q)
         (loadImage : string -> Result Exn Image)
         (toUpperCase toLowerCase : string -> string)
         (path_join : string -> string -> string)
         (this : CardGenerator) (cardData : CardData.t) (debugMode : bool)
         (template image : Image),
    Js.truthy (CardData.Element cardData) = true ->
    Js.truthy (CardData.Address cardData) = true ->
    loadImage
      (getTemplatePathForElement toUpperCase toLowerCase path_join this
         (CardData.Element cardData))
    = Ok template ->
    loadImage (getImageUrlFromAddress (CardData.Address cardData))
    = Ok image ->
    let W := Config.cardWidth (config this) in
    let H := Config.cardHeight (config this) in
    let artX := Config.cardArtX (config this) in
    let artY := Config.cardArtY (config this) in
    let artW := Config.cardArtWidth (config this) in
    let artH := Config.cardArtHeight (config this) in
    let fresh : Context2D Image := context (createCanvas W H) in
    let block dataKey layoutKey : list (DrawOp Image) :=
      match CardLayout.get (Config.layout (config this)) layoutKey with
      | Some layout =>
          if Js.truthy (CardData.get cardData dataKey)
          then
            background_calls layout FilterNone
            ++ debug_calls this layout debugMode
                 (Some (getDebugColors layoutKey))
                 (Some (CardLayout.key_string layoutKey)) FilterNone
            ++ text_calls measure this layout
                 (CardData.get cardData dataKey) FilterNone
          else []
      | None => []
      end in
    exists canvas,
      generateCard measure loadImage toUpperCase toLowerCase path_join this
        cardData debugMode
      = Ok canvas
      /\ ops (context canvas)
         = [FillRect 0 0 W H (Config.backgroundColor (config this))
              FilterNone;
            DrawImage template 0 0 W H FilterNone;
            DrawImage image artX artY artW artH FilterNone]
           ++ (if debugMode
               then [StrokeRect artX artY artW artH "rgba(0, 255, 0, 0.8)" 3
                       FilterNone;
                     FillText "Card Art" (artX + 4) (artY + 20)
                       (mkFont 16 "Arial") "rgba(0, 255, 0, 0.9)" "left"
                       "top" FilterNone]
               else [])
           ++ block CardData.KName CardLayout.Kname
           ++ block CardData.KCost CardLayout.Kcost
           ++ block CardData.KLore CardLayout.Klore
           ++ block CardData.KAttack CardLayout.Kattack
           ++ block CardData.KArmor CardLayout.Karmor
           ++ block CardData.KSkills CardLayout.Kskills
      /\ forall dataKey layoutKey layout,
           CardLayout.get (Config.layout (config this)) layoutKey
           = Some layout ->
           Js.truthy (CardData.get cardData dataKey) = true ->
           block dataKey layoutKey
           = drawn (drawText (Exn := Exn) measure this
                      (CardData.get cardData dataKey) layout debugMode
                      (Some (getDebugColors layoutKey))
                      (Some (CardLayout.key_string layoutKey))) fresh.
Proof.
  intros Image Exn measure loadImage toUpperCase toLowerCase path_join this
         cardData debugMode template image HE HA HT HI W H artX artY artW
         artH fresh block.
  destruct (compose_run measure loadImage toUpperCase toLowerCase path_join
              this cardData debugMode) as (s' & Hrun & _).
  unfold generateCard. cbn [createCanvas context canvas_width canvas_height].
  rewrite Hrun. eexists. split; [reflexivity|].
  cbn [context ops]. split.
  - unfold template_calls, art_calls.
    rewrite HE, HA, HT, HI. cbn [textMappings flat_map app].
    rewrite !drawField_drawn, app_nil_r. reflexivity.
  - intros dataKey layoutKey layout Hl Hv. unfold block.
    rewrite Hl, Hv, drawText_drawn. reflexivity.
Qed.

Lemma generateCard_draw_order_witness :
  exists canvas,
    generateCard charWidth pathImage sameCase sameCase joinPath
      defaultGenerator (herculesCard "0x51") false
    = Ok canvas
    /\ ops (context canvas)
       = [FillRect 0 0 750 1050 "#ffffff" FilterNone;
          DrawImage "./assets/earth.png" 0 0 750 1050 FilterNone;
          DrawImage
            "https://beetle-game.s3.us-east-1.amazonaws.com/images/0x51.png"
            75 120 600 400 FilterNone;
          FillText "Hercules" (75 + 0 + (600 - 0 * 2) / 2)
            (40 + 0 + (80 - 0 * 2) / 2) (mkFont 32 "Arial") "#000" "center"
            "middle" FilterNone;
          FillText "3" (650 + 0 + (50 - 0 * 2) / 2)
            (40 + 0 + (50 - 0 * 2) / 2) (mkFont 28 "Arial") "#fff" "center"
            "middle" FilterNone;
          FillText "5" (100 + 0 + (60 - 0 * 2) / 2)
            (950 + 0 + (60 - 0 * 2) / 2) (mkFont 36 "Arial") "#fff" "center"
            "middle" FilterNone;
          FillText "4" (240 + 0 + (60 - 0 * 2) / 2)
            (950 + 0 + (60 - 0 * 2) / 2) (mkFont 36 "Arial") "#fff" "center"
            "middle" FilterNone].
Proof.
  destruct (generateCard_draw_order string unit charWidth pathImage sameCase
              sameCase joinPath defaultGenerator (herculesCard "0x51") false
              "./assets/earth.png"
              "https://beetle-game.s3.us-east-1.amazonaws.com/images/0x51.png"
              eq_refl eq_refl eq_refl eq_refl)
    as (canvas & Hrun & Hops & _).
  exists canvas. split; [exact Hrun|]. rewrite Hops. reflexivity.
Defined.

(** ** Construction *)




(** X12.  The layout of the generator is merged key by key: a key that
    the configuration gives replaces the default layout of that key as
    a whole, so that no property of the default is kept for it, and a
    key that it does not give keeps the default. *)
Theorem constructor_layout_merge :
  forall (options : GeneratorConfig.t) (key : CardLayout.key),
    let merged := Config.layout (config (constructor options)) in
    (forall override value,
       GeneratorConfig.layout options = Some override ->
       PartialCardLayout.get override key = Some value ->
       CardLayout.get merged key = value)
    /\ (forall override,
          GeneratorConfig.layout options = Some override ->
          PartialCardLayout.get override key = None ->
          CardLayout.get merged key = CardLayout.get getDefaultLayout key)
    /\ (GeneratorConfig.layout options = None ->
        CardLayout.get merged key = CardLayout.get getDefaultLayout key).
Proof.
  intros options key merged. subst merged.
  cbn [constructor config Config.layout].
  split; [|split].
  - intros override value Ho Hk. rewrite Ho. cbn [spread_layout].
    destruct key; cbn [CardLayout.get PartialCardLayout.get] in *;
      now rewrite Hk.
  - intros override Ho Hk. rewrite Ho. cbn [spread_layout].
    destruct key; cbn [CardLayout.get PartialCardLayout.get] in *;
      now rewrite Hk.
  - intro Ho. now rewrite Ho.
Qed.

Lemma constructor_layout_merge_witness :
  CardLayout.get (Config.layout (config (constructor loreOverride)))
    CardLayout.Klore
  = Some (sampleBlock "top-left")
  /\ CardLayout.get (Config.layout (config (constructor loreOverride)))
       CardLayout.Kname
     = CardLayout.get getDefaultLayout CardLayout.Kname.
Proof.
  split.
  - destruct (constructor_layout_merge loreOverride CardLayout.Klore)
      as (H & _ & _).
    exact (H _ _ eq_refl eq_refl).
  - destruct (constructor_layout_merge loreOverride CardLayout.Kname)
      as (_ & H & _).
    exact (H _ eq_refl eq_refl).
Defined.

Lemma placed_lines_Forall :
  forall (Image : Type) (P : DrawOp Image -> Prop)
         (call : string -> Q -> DrawOp Image) startY lineHeight,
    (forall line y, P (call line y)) ->
    forall lines index,
      Forall P (placed_lines call startY lineHeight lines index).
Proof.
  intros Image P call startY lineHeight H.
  induction lines as [|line rest IH]; intro index; cbn [placed_lines];
    constructor; [apply H | apply IH].
Qed.

(** X13.  A generator on which [loadFonts] has not run draws every
    block with the fallback family, whatever family the block declares:
    each [fillText] of the block's text carries the font made of the
    block's font size and ["Arial"]. *)
Theorem fresh_generator_draws_arial :
  forall (Image Exn : Type) (measure : Font -> string -> Q)
         (options : GeneratorConfig.t) (text : string)
         (layout : TextLayout.t) (debugMode : bool)
         (debugColor debugLabel : option string) (ctx : Context2D Image),
    let this := constructor options in
    let f0 := filter (state ctx) in
    exists textpart : list (DrawOp Image),
      drawn (drawText (Exn := Exn) measure this text layout debugMode
               debugColor debugLabel) ctx
      = background_calls layout f0
        ++ debug_calls this layout debugMode debugColor debugLabel f0
        ++ textpart
      /\ Forall
           (fun op =>
              exists line x y fillStyle textAlign textBaseline f,
                op = FillText line x y
                       (mkFont (TextLayout.fontSize layout) "Arial")
                       fillStyle textAlign textBaseline f)
           textpart.
Proof.
  intros Image Exn measure options text layout dm dc dl ctx this f0.
  exists (text_calls measure this layout text f0).
  split; [apply drawText_drawn|].
  assert (Hcall : forall line y,
             exists line' x y' fillStyle textAlign textBaseline f,
               text_call (Image := Image) this layout f0 line y
               = FillText line' x y'
                   (mkFont (TextLayout.fontSize layout) "Arial")
                   fillStyle textAlign textBaseline f).
  { intros line y. unfold text_call. repeat eexists. }
  unfold text_calls. destruct (usesWrapper layout text).
  - apply placed_lines_Forall. exact Hcall.
  - constructor; [apply Hcall | constructor].
Qed.

(** ** File names *)

Lemma sanitized_char_safe : forall c,
  isFileNameChar (lowerChar (if isAlphanumeric c then c else "_"%char))
  = true.
Proof.
  intros [b0 b1 b2 b3 b4 b5 b6 b7].
  destruct b0, b1, b2, b3, b4, b5, b6, b7; vm_compute; reflexivity.
Qed.

Lemma sanitized_char_fixed : forall c,
  let g c := lowerChar (if isAlphanumeric c then c else "_"%char) in
  g (g c) = g c
  /\ (isAlphanumeric c = true -> g c <> "_"%char)
  /\ (isAlphanumeric c = false -> g c = "_"%char).
Proof.
  intros [b0 b1 b2 b3 b4 b5 b6 b7].
  destruct b0, b1, b2, b3, b4, b5, b6, b7;
    (split; [vm_compute; reflexivity
            | split; intro H; vm_compute in H |- *;
              try discriminate H; try reflexivity;
              intro E; discriminate E]).
Qed.

Lemma sanitized_char_equal : forall a b,
  lowerChar (if isAlphanumeric a then a else "_"%char)
  = lowerChar (if isAlphanumeric b then b else "_"%char)
  <-> (isAlphanumeric a = false /\ isAlphanumeric b = false
       \/ isAlphanumeric a = true /\ isAlphanumeric b = true
          /\ lowerChar a = lowerChar b).
Proof.
  intros a b.
  destruct (sanitized_char_fixed a) as (_ & Ha1 & Ha0).
  destruct (sanitized_char_fixed b) as (_ & Hb1 & Hb0).
  cbv zeta in Ha1, Ha0, Hb1, Hb0.
  destruct (isAlphanumeric a) eqn:Ea, (isAlphanumeric b) eqn:Eb.
  - split; [intro H; right; auto | intros [[H _]|(_ & _ & H)]];
      [discriminate H | exact H].
  - specialize (Ha1 eq_refl). specialize (Hb0 eq_refl).
    split; [intro H; congruence | intros [[H _]|(_ & H & _)]; discriminate H].
  - specialize (Ha0 eq_refl). specialize (Hb1 eq_refl).
    split; [intro H; congruence | intros [[_ H]|(H & _)]; discriminate H].
  - split; [intro H; left; auto | intros _; reflexivity].
Qed.

Lemma sanitizeFilename_cons : forall c s,
  sanitizeFilename (String c s)
  = String (lowerChar (if isAlphanumeric c then c else "_"%char))
      (sanitizeFilename s).
Proof. reflexivity. Qed.

(** X14.  A sanitized file name has as many characters as the name,
    each a small letter, a digit or an underscore; so it contains no
    path separator, dot or space. *)
Theorem sanitizeFilename_safe :
  forall name : string,
    String.length (sanitizeFilename name) = String.length name
    /\ all_chars isFileNameChar (sanitizeFilename name) = true
    /\ Js.includes "/" (sanitizeFilename name) = false
    /\ Js.includes "." (sanitizeFilename name) = false.
Proof.
  induction name as [|c s (IHlen & IHall & IHslash & IHdot)].
  - repeat split.
  - rewrite sanitizeFilename_cons.
    pose proof (sanitized_char_safe c) as Hc.
    set (d := lowerChar _) in *.
    cbn [String.length all_chars Js.includes Js.startsWith].
    rewrite IHlen, IHall, IHslash, IHdot, Hc.
    repeat split; rewrite andb_true_r, orb_false_r;
      apply Ascii.eqb_neq; intro E; rewrite <- E in Hc; discriminate Hc.
Qed.

(** X15.  Sanitizing is idempotent, and two names get the same file
    name exactly when they differ only in the case of their ASCII
    letters and in their characters other than ASCII letters and
    digits: such cards are written to one file. *)
Theorem sanitizeFilename_collapses :
  forall name : string,
    sanitizeFilename (sanitizeFilename name) = sanitizeFilename name
    /\ forall other : string,
         sanitizeFilename name = sanitizeFilename other
         <-> sameUpToCaseAndPunctuation name other.
Proof.
  induction name as [|c s [IH1 IH2]].
  - split; [reflexivity|].
    intros [|d t]; cbn; split; intro H;
      try reflexivity; try discriminate H; try contradiction; exact I.
  - destruct (sanitized_char_fixed c) as (H1 & _). cbv zeta in H1.
    split.
    + rewrite !sanitizeFilename_cons, IH1, H1. reflexivity.
    + intros [|d t].
      * cbn. split; [discriminate | contradiction].
      * rewrite !sanitizeFilename_cons.
        cbn [sameUpToCaseAndPunctuation].
        rewrite <- IH2, <- sanitized_char_equal.
        split.
        -- intro H. injection H as Hc Hs. now split.
        -- intros [Hc Hs]. now rewrite Hc, Hs.
Qed.

Lemma sanitizeFilename_collapses_witness :
  sanitizeFilename "Fire Ant" = sanitizeFilename "fire-ant".
Proof.
  apply (sanitizeFilename_collapses "Fire Ant").
  cbn. repeat split; (left; split; reflexivity)
                     || (right; repeat split; reflexivity).
Defined.

(** ** Loading fonts *)

Lemma Set_has_app : forall l1 l2 name,
  Set_has (l1 ++ l2) name = Set_has l1 name || Set_has l2 name.
Proof. intros. unfold Set_has. apply existsb_app. Qed.

Lemma Set_has_add : forall set added name,
  Set_has (Set_add set added) name
  = Set_has set name || String.eqb name added.
Proof.
  intros set added name. unfold Set_add.
  destruct (Set_has set added) eqn:E.
  - destruct (String.eqb_spec name added) as [->|_].
    + now rewrite E.
    + now rewrite orb_false_r.
  - rewrite Set_has_app. unfold Set_has at 2. cbn [existsb].
    now rewrite orb_false_r.
Qed.

Section FontFacts.

Context {Exn : Type}.
Variable stat : string -> Result Exn bool.
Variable registerFont : string -> string -> Result Exn unit.

Lemma loadFonts_step_has : forall loaded calls entry name,
  Set_has (fst (loadFonts_step stat registerFont (loaded, calls) entry)) name
  = true
  <-> Set_has loaded name = true
      \/ (fst entry = name /\ registrable stat registerFont name (snd entry)).
Proof.
  intros loaded calls [fontName fontPath] name.
  unfold registrable. cbn [loadFonts_step fst snd].
  destruct (stat fontPath) as [[|]|e] eqn:Hstat; cbn [negb fst].
  - destruct (Set_has loaded fontName) eqn:Hhas; cbn [fst].
    + split; [now left|]. intros [H|[<- _]]; [exact H | exact Hhas].
    + destruct (registerFont fontPath fontName) as [u|e] eqn:Hreg; cbn [fst].
      * rewrite Set_has_add, orb_true_iff. split.
        -- intros [H|H]; [now left|]. right.
           apply String.eqb_eq in H. subst name. eauto.
        -- intros [H|[<- _]]; [now left|]. right. apply String.eqb_refl.
      * split; [now left|].
        intros [H|[<- [_ [u Hu]]]]; [exact H | congruence].
  - split; [now left|]. intros [H|[_ [Hs _]]]; [exact H | congruence].
  - split; [now left|]. intros [H|[_ [Hs _]]]; [exact H | congruence].
Qed.

Lemma loadFonts_fold_has : forall entries loaded calls name,
  Set_has (fst (fold_left (loadFonts_step stat registerFont) entries
                  (loaded, calls))) name = true
  <-> Set_has loaded name = true
      \/ exists path, In (name, path) entries /\ registrable stat registerFont name path.
Proof.
  induction entries as [|entry rest IH]; intros loaded calls name.
  - cbn. split; [now left|]. intros [H|(path & [] & _)]. exact H.
  - cbn [fold_left].
    destruct (loadFonts_step stat registerFont (loaded, calls) entry)
      as [loaded1 calls1] eqn:Hstep.
    rewrite IH.
    pose proof (loadFonts_step_has loaded calls entry name) as Hs.
    rewrite Hstep in Hs. cbn [fst] in Hs. rewrite Hs.
    destruct entry as [fontName fontPath]. cbn [fst snd].
    split.
    + intros [[H|[<- Hr]]|(path & Hin & Hr)].
      * now left.
      * right. exists fontPath. split; [now left | exact Hr].
      * right. exists path. split; [now right | exact Hr].
    + intros [H|(path & [Heq|Hin] & Hr)].
      * left. now left.
      * injection Heq as <- <-. left. right. now split.
      * right. eauto.
Qed.

Lemma loadFonts_fold_calls : forall entries loaded calls,
  exists added,
    snd (fold_left (loadFonts_step stat registerFont) entries (loaded, calls))
    = calls ++ added
    /\ Forall
         (fun call =>
            Set_has loaded (snd call) = false
            /\ In (snd call, fst call) entries
            /\ stat (fst call) = Ok true)
         added.
Proof.
  induction entries as [|[fontName fontPath] rest IH]; intros loaded calls.
  - exists []. cbn. split; [now rewrite app_nil_r | constructor].
  - cbn [fold_left].
    assert (Hweak : forall loaded1 calls1,
               (forall name, Set_has loaded name = true ->
                             Set_has loaded1 name = true) ->
               exists added,
                 snd (fold_left (loadFonts_step stat registerFont) rest
                        (loaded1, calls1)) = calls1 ++ added
                 /\ Forall
                      (fun call =>
                         Set_has loaded (snd call) = false
                         /\ In (snd call, fst call)
                              ((fontName, fontPath) :: rest)
                         /\ stat (fst call) = Ok true)
                      added).
    { intros loaded1 calls1 Hmono.
      destruct (IH loaded1 calls1) as (added & Hsnd & Hall).
      exists added. split; [exact Hsnd|].
      eapply Forall_impl; [|exact Hall].
      intros [path name] (Hnot & Hin & Hst). cbn [fst snd] in *.
      split; [|split; [now right | exact Hst]].
      destruct (Set_has loaded name) eqn:E; [|reflexivity].
      apply Hmono in E. congruence. }
    cbn [loadFonts_step].
    destruct (stat fontPath) as [[|]|e] eqn:Hstat; cbn [negb];
      try (apply Hweak; auto; fail).
    destruct (Set_has loaded fontName) eqn:Hhas; [apply Hweak; auto|].
    destruct (registerFont fontPath fontName) as [u|e] eqn:Hreg.
    + destruct (Hweak (Set_add loaded fontName)
                  (calls ++ [(fontPath, fontName)])) as (added & Hsnd & Hall).
      { intros name H. rewrite Set_has_add, H. reflexivity. }
      exists ((fontPath, fontName) :: added).
      split; [rewrite Hsnd, <- app_assoc; reflexivity|].
      constructor; [|exact Hall].
      cbn [fst snd]. split; [exact Hhas | split; [now left | exact Hstat]].
    + destruct (Hweak loaded (calls ++ [(fontPath, fontName)]))
        as (added & Hsnd & Hall); [auto|].
      exists ((fontPath, fontName) :: added).
      split; [rewrite Hsnd, <- app_assoc; reflexivity|].
      constructor; [|exact Hall].
      cbn [fst snd]. split; [exact Hhas | split; [now left | exact Hstat]].
Qed.

Lemma loadFonts_fold_closed : forall entries loaded calls,
  (forall name path,
     In (name, path) entries -> registrable stat registerFont name path ->
     Set_has loaded name = true) ->
  exists added,
    fold_left (loadFonts_step stat registerFont) entries (loaded, calls)
    = (loaded, calls ++ added)
    /\ Forall
         (fun call => exists e, registerFont (fst call) (snd call) = Throw e)
         added.
Proof.
  induction entries as [|[fontName fontPath] rest IH];
    intros loaded calls Hclosed.
  - exists []. cbn. split; [now rewrite app_nil_r | constructor].
  - cbn [fold_left loadFonts_step].
    assert (Hrest : forall name path,
               In (name, path) rest -> registrable stat registerFont name path ->
               Set_has loaded name = true).
    { intros name path Hin. apply Hclosed. now right. }
    destruct (stat fontPath) as [[|]|e] eqn:Hstat; cbn [negb];
      try (apply IH; exact Hrest).
    destruct (Set_has loaded fontName) eqn:Hhas; [apply IH; exact Hrest|].
    destruct (registerFont fontPath fontName) as [u|e] eqn:Hreg.
    + exfalso.
      assert (H : Set_has loaded fontName = true).
      { apply (Hclosed fontName fontPath); [now left|].
        split; [exact Hstat | eauto]. }
      congruence.
    + destruct (IH loaded (calls ++ [(fontPath, fontName)]) Hrest)
        as (added & Hfold & Hall).
      exists ((fontPath, fontName) :: added).
      split; [rewrite Hfold, <- app_assoc; reflexivity|].
      constructor; [cbn [fst snd]; eauto | exact Hall].
Qed.

End FontFacts.

(** X16.  After [loadFonts] a family is in the set of loaded fonts
    exactly when it was there before or the configuration names it
    with a path that is a regular file and that [registerFont]
    accepts.  In particular no loaded family is ever dropped. *)
Theorem loadFonts_has :
  forall (Exn Buffer : Type) (stat : string -> Result Exn bool)
         (registerFont : string -> string -> Result Exn unit)
         (w : World Buffer) (name : string),
    Set_has (loadedFonts (generator (loadFonts stat registerFont w))) name
    = true
    <-> Set_has (loadedFonts (generator w)) name = true
        \/ exists path,
             In (name, path) (Config.fonts (config (generator w)))
             /\ registrable stat registerFont name path.
Proof.
  intros Exn Buffer stat registerFont w name. unfold loadFonts.
  destruct (Config.fonts (config (generator w))) as [|entry rest] eqn:Hfonts.
  - cbn. split; [now left|]. intros [H|(path & [] & _)]. exact H.
  - cbn [length Nat.eqb].
    pose proof (loadFonts_fold_has stat registerFont (entry :: rest)
                  (loadedFonts (generator w)) (registered w) name) as H.
    destruct (fold_left _ (entry :: rest) _) as [loaded calls].
    exact H.
Qed.

(** X17.  [loadFonts] changes nothing but the set of loaded fonts: the
    configuration, the card data and the file system calls stay as they
    were.  Every call it makes to [registerFont] is for a configured
    family that was not loaded, with a path that is a regular file. *)
Theorem loadFonts_registers_new_only :
  forall (Exn Buffer : Type) (stat : string -> Result Exn bool)
         (registerFont : string -> string -> Result Exn unit)
         (w : World Buffer),
    let w' := loadFonts stat registerFont w in
    config (generator w') = config (generator w)
    /\ cardData (generator w') = cardData (generator w)
    /\ fsCalls w' = fsCalls w
    /\ exists calls,
         registered w' = registered w ++ calls
         /\ Forall
              (fun call =>
                 Set_has (loadedFonts (generator w)) (snd call) = false
                 /\ In (snd call, fst call)
                      (Config.fonts (config (generator w)))
                 /\ stat (fst call) = Ok true)
              calls.
Proof.
  intros Exn Buffer stat registerFont w w'. subst w'. unfold loadFonts.
  destruct (Config.fonts (config (generator w))) as [|entry rest] eqn:Hfonts.
  - cbn. repeat split. exists []. split; [now rewrite app_nil_r|constructor].
  - cbn [length Nat.eqb].
    destruct (loadFonts_fold_calls stat registerFont (entry :: rest)
                (loadedFonts (generator w)) (registered w))
      as (added & Hsnd & Hall).
    destruct (fold_left _ (entry :: rest) _) as [loaded calls].
    cbn [generator config cardData fsCalls registered snd] in *.
    repeat split. exists added. split; assumption.
Qed.

Lemma loadFonts_config :
  forall (Exn Buffer : Type) (stat : string -> Result Exn bool)
         (registerFont : string -> string -> Result Exn unit)
         (w : World Buffer),
    config (generator (loadFonts stat registerFont w)) = config (generator w).
Proof.
  intros Exn Buffer stat registerFont w. unfold loadFonts.
  destruct (length _ =? 0)%nat; [reflexivity|].
  destruct (fold_left _ _ _). reflexivity.
Qed.

Lemma loadFonts_closed :
  forall (Exn Buffer : Type) (stat : string -> Result Exn bool)
         (registerFont : string -> string -> Result Exn unit)
         (w : World Buffer) name path,
    In (name, path) (Config.fonts (config (generator w))) ->
    registrable stat registerFont name path ->
    Set_has (loadedFonts (generator (loadFonts stat registerFont w))) name
    = true.
Proof.
  intros Exn Buffer stat registerFont w name path Hin Hr. unfold loadFonts.
  destruct (Config.fonts (config (generator w))) as [|entry rest] eqn:Hfonts;
    [destruct Hin|].
  cbn [length Nat.eqb].
  pose proof (loadFonts_fold_has stat registerFont (entry :: rest)
                (loadedFonts (generator w)) (registered w) name) as H.
  destruct (fold_left _ (entry :: rest) _) as [loaded calls].
  apply H. right. eauto.
Qed.

(** X18.  Running [loadFonts] again does not change the set of loaded
    fonts, and the only calls to [registerFont] it repeats are calls
    that fail. *)
Theorem loadFonts_idempotent :
  forall (Exn Buffer : Type) (stat : string -> Result Exn bool)
         (registerFont : string -> string -> Result Exn unit)
         (w : World Buffer),
    let once := loadFonts stat registerFont w in
    let twice := loadFonts stat registerFont once in
    loadedFonts (generator twice) = loadedFonts (generator once)
    /\ exists calls,
         registered twice = registered once ++ calls
         /\ Forall
              (fun call =>
                 exists e, registerFont (fst call) (snd call) = Throw e)
              calls.
Proof.
  intros Exn Buffer stat registerFont w once twice.
  assert (Hconfig : config (generator once) = config (generator w))
    by apply loadFonts_config.
  assert (Hclosed : forall name path,
             In (name, path) (Config.fonts (config (generator once))) ->
             registrable stat registerFont name path ->
             Set_has (loadedFonts (generator once)) name = true).
  { intros name path Hin Hr. rewrite Hconfig in Hin.
    now apply loadFonts_closed with (path := path). }
  subst twice. unfold loadFonts.
  destruct (Config.fonts (config (generator once))) as [|entry rest].
  - cbn. split; [reflexivity|].
    exists []. split; [now rewrite app_nil_r | constructor].
  - cbn [length Nat.eqb].
    destruct (loadFonts_fold_closed stat registerFont (entry :: rest)
                (loadedFonts (generator once)) (registered once) Hclosed)
      as (added & Hfold & Hall).
    rewrite Hfold. cbn [generator loadedFonts registered].
    split; [reflexivity|]. exists added. split; [reflexivity | exact Hall].
Qed.

(** X19.  After [clearAllCaches] the set of loaded fonts no longer
    matters: when [loadFonts] runs next, the loaded families are
    exactly the configured ones whose file is there and whose
    registration succeeds, each of them registered again. *)
Theorem loadFonts_after_clearAllCaches :
  forall (Exn Buffer : Type) (stat : string -> Result Exn bool)
         (registerFont : string -> string -> Result Exn unit)
         (w : World Buffer) (name : string),
    Set_has
      (loadedFonts
         (generator (loadFonts stat registerFont (clearAllCaches w))))
      name
    = true
    <-> exists path,
          In (name, path) (Config.fonts (config (generator w)))
          /\ registrable stat registerFont name path.
Proof.
  intros Exn Buffer stat registerFont w name. unfold loadFonts.
  cbn [clearAllCaches generator config loadedFonts registered].
  destruct (Config.fonts (config (generator w))) as [|entry rest] eqn:Hfonts.
  - cbn. split; [discriminate|]. intros (path & [] & _).
  - cbn [length Nat.eqb].
    pose proof (loadFonts_fold_has stat registerFont (entry :: rest) []
                  (registered w) name) as H.
    destruct (fold_left _ (entry :: rest) _) as [loaded calls].
    cbn [generator loadedFonts]. rewrite H. cbn [Set_has existsb].
    split; [intros [H'|H']; [discriminate H' | exact H'] | now right].
Qed.

(** X20.  A block whose family is configured with a font file that is
    there and registers is drawn, after [loadFonts], with that family:
    each [fillText] of its text carries the block's font size and
    declared family. *)
Theorem loaded_family_is_drawn :
  forall (Image Exn Buffer : Type) (measure : Font -> string -> Q)
         (stat : string -> Result Exn bool)
         (registerFont : string -> string -> Result Exn unit)
         (w : World Buffer) (path text : string) (layout : TextLayout.t)
         (debugMode : bool) (debugColor debugLabel : option string)
         (ctx : Context2D Image),
    In (TextLayout.fontFamily layout, path)
       (Config.fonts (config (generator w))) ->
    registrable stat registerFont (TextLayout.fontFamily layout) path ->
    let this := generator (loadFonts stat registerFont w) in
    let f0 := filter (state ctx) in
    exists textpart : list (DrawOp Image),
      drawn (drawText (Exn := Exn) measure this text layout debugMode
               debugColor debugLabel) ctx
      = background_calls layout f0
        ++ debug_calls this layout debugMode debugColor debugLabel f0
        ++ textpart
      /\ Forall
           (fun op =>
              exists line x y fillStyle textAlign textBaseline f,
                op = FillText line x y
                       (mkFont (TextLayout.fontSize layout)
                          (TextLayout.fontFamily layout))
                       fillStyle textAlign textBaseline f)
           textpart.
Proof.
  intros Image Exn Buffer measure stat registerFont w path text layout dm dc
         dl ctx Hin Hr this f0.
  exists (text_calls measure this layout text f0).
  split; [apply drawText_drawn|].
  assert (Hcall : forall line y,
             exists line' x y' fillStyle textAlign textBaseline f,
               text_call (Image := Image) this layout f0 line y
               = FillText line' x y'
                   (mkFont (TextLayout.fontSize layout)
                      (TextLayout.fontFamily layout))
                   fillStyle textAlign textBaseline f).
  { intros line y. unfold text_call, resolvedFont, this.
    rewrite (loadFonts_closed _ _ stat registerFont w _ path Hin Hr).
    repeat eexists. }
  unfold text_calls. destruct (usesWrapper layout text).
  - apply placed_lines_Forall. exact Hcall.
  - constructor; [apply Hcall | constructor].
Qed.

Lemma loaded_family_is_drawn_witness :
  exists textpart,
    drawn (drawText (Exn := unit) charWidth
             (generator (loadFonts anyFile anyFont newWorld)) "Atlas"
             mainLoreBlock false None None) blankContext
    = [FillRect 130 1800 1483 200 "rgba(0, 0, 0, 0.2)" (FilterBlur 8)]
      ++ textpart
    /\ Forall
         (fun op =>
            exists line x y fillStyle textAlign textBaseline f,
              op = FillText line x y (mkFont 42 "CardNumbers") fillStyle
                     textAlign textBaseline f)
         textpart.
Proof.
  destruct (loaded_family_is_drawn unit unit string charWidth anyFile anyFont
              newWorld "./fonts/Stone Serif Semibold.ttf" "Atlas"
              mainLoreBlock false None None blankContext
              (or_introl eq_refl)
              (conj eq_refl (ex_intro _ tt eq_refl)))
    as (textpart & Hdrawn & Hall).
  exists textpart. split; [exact Hdrawn | exact Hall].
Defined.

(** ** The batch *)

Lemma generateCard_ok :
  forall (Image Exn : Type) (measure : Font -> string -> Q)
         (loadImage : string -> Result Exn Image)
         (toUpperCase toLowerCase : string -> string)
         (path_join : string -> string -> string)
         (this : CardGenerator) (card : CardData.t) (debugMode : bool),
    exists canvas,
      generateCard measure loadImage toUpperCase toLowerCase path_join this
        card debugMode
      = Ok canvas.
Proof.
  intros Image Exn measure loadImage toUpperCase toLowerCase path_join this
         card debugMode.
  destruct (compose_run measure loadImage toUpperCase toLowerCase path_join
              this card debugMode) as (s' & Hrun & _).
  unfold generateCard. cbn [createCanvas context]. rewrite Hrun. eauto.
Qed.

Section BatchFacts.

Context {Image Exn Buffer : Type}.
Variable measure : Font -> string -> Q.
Variable loadImage : string -> Result Exn Image.
Variable toUpperCase toLowerCase : string -> string.
Variable path_join : string -> string -> string.
Variable toBuffer : Canvas Image -> Result Exn Buffer.
Variable convertToWebP : Buffer -> Q -> Result Exn Buffer.

Local Abbreviation step :=
  (generateAllCards_step measure loadImage toUpperCase toLowerCase path_join
     toBuffer convertToWebP).

Lemma generateAllCards_step_frame : forall (w : World Buffer) card,
  step w card
  = mkWorld (generator w) (registered w)
      (fsCalls w ++ fsCalls (step (mkWorld (generator w) [] []) card)).
Proof.
  intros [this regs calls] card. unfold generateAllCards_step.
  cbn [generator registered fsCalls].
  destruct (generateCard _ _ _ _ _ this card false) as [canvas|e];
    [|cbn; now rewrite app_nil_r].
  destruct (toBuffer canvas) as [png|e]; [|cbn; now rewrite app_nil_r].
  destruct (convertToWebP png _) as [webp|e]; [|cbn; now rewrite app_nil_r].
  reflexivity.
Qed.

(** The file system calls of one turn of the loop of
    [generateAllCards]. *)
Lemma generateAllCards_step_calls : forall (this : CardGenerator) card,
  fsCalls (step (mkWorld this [] []) card)
  = match
      generateCard measure loadImage toUpperCase toLowerCase path_join this
        card false
    with
    | Throw _ => []
    | Ok canvas =>
        match toBuffer canvas with
        | Throw _ => []
        | Ok png =>
            match convertToWebP png (Config.webpQuality (config this)) with
            | Throw _ => []
            | Ok webp =>
                [WriteFile
                   (path_join (Config.outputDir (config this))
                      (sanitizeFilename (CardData.Card card) ++ ".webp")
                      %string)
                   webp]
            end
        end
    end.
Proof.
  intros this card. unfold generateAllCards_step.
  cbn [generator].
  destruct (generateCard _ _ _ _ _ this card false) as [canvas|e];
    [|reflexivity].
  destruct (toBuffer canvas) as [png|e]; [|reflexivity].
  destruct (convertToWebP png _) as [webp|e]; reflexivity.
Qed.

Lemma generateAllCards_fold : forall cards (w : World Buffer),
  fold_left step cards w
  = mkWorld (generator w) (registered w)
      (fsCalls w
       ++ flat_map
            (fun card => fsCalls (step (mkWorld (generator w) [] []) card))
            cards).
Proof.
  induction cards as [|card rest IH]; intro w.
  - cbn. rewrite app_nil_r. now destruct w.
  - cbn [fold_left flat_map]. rewrite IH, generateAllCards_step_frame.
    cbn [generator registered fsCalls]. now rewrite <- app_assoc.
Qed.

End BatchFacts.

Lemma flat_map_pointwise : forall (A B : Type) (f g : A -> list B) l,
  (forall a, f a = g a) -> flat_map f l = flat_map g l.
Proof.
  intros A B f g l H. induction l as [|a l IH]; [reflexivity|].
  cbn [flat_map]. now rewrite H, IH.
Qed.

Lemma loadFonts_fsCalls :
  forall (Exn Buffer : Type) (stat : string -> Result Exn bool)
         (registerFont : string -> string -> Result Exn unit)
         (w : World Buffer),
    cardData (generator (loadFonts stat registerFont w))
    = cardData (generator w)
    /\ fsCalls (loadFonts stat registerFont w) = fsCalls w.
Proof.
  intros Exn Buffer stat registerFont w.
  unfold loadFonts. destruct (length _ =? 0)%nat; [now split|].
  destruct (fold_left _ _ _). now split.
Qed.

(** X21.  When the parser ends with the rows of the CSV file and the
    output directory is there, [generateAllCards] resolves and treats
    every card on its own.  Every card is drawn (no card makes
    [generateCard] throw), and the file system calls are the one
    [ensureDir] and then, card by card in the order of the data: one
    [writeFile] of the converted buffer to [<sanitized card name>.webp]
    in the output directory when the canvas can be encoded and the
    encoding converted, and nothing otherwise.  A card that fails does
    not stop the cards after it, and the generator ends with the
    configuration and the fonts it had after [loadFonts] and with the
    rows as its data. *)
Theorem generateAllCards_isolates_cards :
  forall (Image Exn Buffer : Type) (measure : Font -> string -> Q)
         (loadImage : string -> Result Exn Image)
         (toUpperCase toLowerCase : string -> string)
         (path_join : string -> string -> string)
         (stat : string -> Result Exn bool)
         (registerFont : string -> string -> Result Exn unit)
         (readCSV : string -> CsvStream Exn)
         (ensureDir : string -> Result Exn unit)
         (toBuffer : Canvas Image -> Result Exn Buffer)
         (convertToWebP : Buffer -> Q -> Result Exn Buffer)
         (w : World Buffer) (cards : list CardData.t) (u : unit),
    let settings := config (generator w) in
    let outputDir := Config.outputDir settings in
    let fonts := loadFonts stat registerFont w in
    let this := mkCardGenerator settings (loadedFonts (generator fonts)) cards in
    let written card :=
      match
        generateCard measure loadImage toUpperCase toLowerCase path_join this
          card false
      with
      | Throw _ => []
      | Ok canvas =>
          match toBuffer canvas with
          | Throw _ => []
          | Ok png =>
              match convertToWebP png (Config.webpQuality settings) with
              | Throw _ => []
              | Ok webp =>
                  [WriteFile
                     (path_join outputDir
                        (sanitizeFilename (CardData.Card card) ++ ".webp")
                        %string)
                     webp]
              end
          end
      end in
    readCSV (Config.csvPath settings) = CsvEnd cards ->
    ensureDir outputDir = Ok u ->
    generateAllCards measure loadImage toUpperCase toLowerCase path_join stat
      registerFont readCSV ensureDir toBuffer convertToWebP w
    = (Resolved tt,
       mkWorld this (registered fonts)
         (fsCalls w ++ [EnsureDir outputDir] ++ flat_map written cards))
    /\ forall card,
         exists canvas,
           generateCard measure loadImage toUpperCase toLowerCase path_join
             this card false
           = Ok canvas.
Proof.
  intros Image Exn Buffer measure loadImage toUpperCase toLowerCase path_join
         stat registerFont readCSV ensureDir toBuffer convertToWebP w cards u
         settings outputDir fonts this written Hcsv Hdir.
  pose proof (loadFonts_config Exn Buffer stat registerFont w) as Hconfig.
  destruct (loadFonts_fsCalls Exn Buffer stat registerFont w) as [_ Hfs].
  split; [|intro card; apply generateCard_ok].
  unfold generateAllCards, loadCSV.
  rewrite Hconfig. fold settings. rewrite Hcsv.
  cbn [generator config]. fold settings. fold outputDir. rewrite Hdir.
  rewrite generateAllCards_fold.
  cbn [fsCall generator registered fsCalls]. fold fonts. fold this.
  fold fonts in Hfs. rewrite Hfs, <- app_assoc.
  f_equal. f_equal. f_equal. f_equal.
  apply flat_map_pointwise. intro card.
  apply generateAllCards_step_calls.
Qed.

Lemma generateAllCards_isolates_cards_witness :
  generateAllCards charWidth pathImage sameCase sameCase joinPath anyFile
    anyFont twoCards anyDir pngOf webpOf newWorld
  = (Resolved tt,
     mkWorld
       (mkCardGenerator (config fontsGenerator) ["CardNumbers"]
          [herculesCard "0x51"; herculesCard ""])
       [("./fonts/Stone Serif Semibold.ttf", "CardNumbers")]
       [EnsureDir "./output";
        WriteFile "./output/1.webp" "png.webp";
        WriteFile "./output/1.webp" "png.webp"])
  /\ generateAllCards charWidth pathImage sameCase sameCase joinPath anyFile
       anyFont twoCards anyDir pngFails webpOf newWorld
     = (Resolved tt,
        mkWorld
          (mkCardGenerator (config fontsGenerator) ["CardNumbers"]
             [herculesCard "0x51"; herculesCard ""])
          [("./fonts/Stone Serif Semibold.ttf", "CardNumbers")]
          [EnsureDir "./output"]).
Proof.
  split.
  - destruct (generateAllCards_isolates_cards string unit string charWidth
                pathImage sameCase sameCase joinPath anyFile anyFont twoCards
                anyDir pngOf webpOf newWorld
                [herculesCard "0x51"; herculesCard ""] tt eq_refl eq_refl)
      as (Hrun & _).
    rewrite Hrun. vm_compute. reflexivity.
  - destruct (generateAllCards_isolates_cards string unit string charWidth
                pathImage sameCase sameCase joinPath anyFile anyFont twoCards
                anyDir pngFails webpOf newWorld
                [herculesCard "0x51"; herculesCard ""] tt eq_refl eq_refl)
      as (Hrun & _).
    rewrite Hrun. vm_compute. reflexivity.
Defined.

(** X22.  How [generateAllCards] ends before the first card.  [loadCSV]
    listens for [error] on the parser stream only.  When the parser
    stream emits an error, the promise of [generateAllCards] is rejected
    with it, and no file system call has been made.  When the read
    stream emits an error (the CSV file cannot be read), nothing listens
    to it: the promise is neither resolved nor rejected, the error is
    uncaught, and no file system call has been made.  When the rows are
    read and the output directory cannot be made, the promise is
    rejected with that error and the only file system call is the
    [ensureDir].  In all three cases the fonts have been loaded and no
    card is drawn. *)
Theorem generateAllCards_fatal :
  forall (Image Exn Buffer : Type) (measure : Font -> string -> Q)
         (loadImage : string -> Result Exn Image)
         (toUpperCase toLowerCase : string -> string)
         (path_join : string -> string -> string)
         (stat : string -> Result Exn bool)
         (registerFont : string -> string -> Result Exn unit)
         (readCSV : string -> CsvStream Exn)
         (ensureDir : string -> Result Exn unit)
         (toBuffer : Canvas Image -> Result Exn Buffer)
         (convertToWebP : Buffer -> Q -> Result Exn Buffer)
         (w : World Buffer) (e : Exn),
    let settings := config (generator w) in
    let outputDir := Config.outputDir settings in
    let fonts := loadFonts stat registerFont w in
    let run :=
      generateAllCards measure loadImage toUpperCase toLowerCase path_join
        stat registerFont readCSV ensureDir toBuffer convertToWebP w in
    (readCSV (Config.csvPath settings) = CsvParserError e ->
     run = (Rejected e, fonts) /\ fsCalls (snd run) = fsCalls w)
    /\ (readCSV (Config.csvPath settings) = CsvReadError e ->
        run = (Uncaught e, fonts) /\ fsCalls (snd run) = fsCalls w)
    /\ (forall cards,
          readCSV (Config.csvPath settings) = CsvEnd cards ->
          ensureDir outputDir = Throw e ->
          run
          = (Rejected e,
             mkWorld
               (mkCardGenerator settings (loadedFonts (generator fonts))
                  cards)
               (registered fonts) (fsCalls w ++ [EnsureDir outputDir]))).
Proof.
  intros Image Exn Buffer measure loadImage toUpperCase toLowerCase path_join
         stat registerFont readCSV ensureDir toBuffer convertToWebP w e
         settings outputDir fonts run.
  pose proof (loadFonts_config Exn Buffer stat registerFont w) as Hconfig.
  destruct (loadFonts_fsCalls Exn Buffer stat registerFont w) as [_ Hfs].
  subst run. unfold generateAllCards, loadCSV. rewrite Hconfig.
  fold settings. fold fonts. fold fonts in Hfs.
  split; [|split].
  - intro Hcsv. rewrite Hcsv. cbn [fst snd]. now split.
  - intro Hcsv. rewrite Hcsv. cbn [fst snd]. now split.
  - intros cards Hcsv Hdir. rewrite Hcsv.
    cbn [generator config]. fold settings. fold outputDir. rewrite Hdir.
    cbn [fsCall fsCalls generator registered]. now rewrite Hfs.
Qed.

Lemma generateAllCards_fatal_witness :
  generateAllCards charWidth pathImage sameCase sameCase joinPath anyFile
    anyFont badCsv anyDir pngOf webpOf newWorld
  = (Rejected tt,
     mkWorld (mkCardGenerator (config fontsGenerator) ["CardNumbers"] [])
       [("./fonts/Stone Serif Semibold.ttf", "CardNumbers")] [])
  /\ generateAllCards charWidth pathImage sameCase sameCase joinPath anyFile
       anyFont noSuchFile anyDir pngOf webpOf newWorld
     = (Uncaught tt,
        mkWorld (mkCardGenerator (config fontsGenerator) ["CardNumbers"] [])
          [("./fonts/Stone Serif Semibold.ttf", "CardNumbers")] [])
  /\ generateAllCards charWidth pathImage sameCase sameCase joinPath anyFile
       anyFont twoCards noDir pngOf webpOf newWorld
     = (Rejected tt,
        mkWorld
          (mkCardGenerator (config fontsGenerator) ["CardNumbers"]
             [herculesCard "0x51"; herculesCard ""])
          [("./fonts/Stone Serif Semibold.ttf", "CardNumbers")]
          [EnsureDir "./output"]).
Proof.
  split; [|split].
  - destruct (generateAllCards_fatal string unit string charWidth pathImage
                sameCase sameCase joinPath anyFile anyFont badCsv anyDir pngOf
                webpOf newWorld tt) as (H & _ & _).
    destruct (H eq_refl) as [Hrun _]. cbv zeta in Hrun. rewrite Hrun.
    vm_compute. reflexivity.
  - destruct (generateAllCards_fatal string unit string charWidth pathImage
                sameCase sameCase joinPath anyFile anyFont noSuchFile anyDir
                pngOf webpOf newWorld tt) as (_ & H & _).
    destruct (H eq_refl) as [Hrun _]. cbv zeta in Hrun. rewrite Hrun.
    vm_compute. reflexivity.
  - destruct (generateAllCards_fatal string unit string charWidth pathImage
                sameCase sameCase joinPath anyFile anyFont twoCards noDir
                pngOf webpOf newWorld tt) as (_ & _ & H).
    pose proof (H [herculesCard "0x51"; herculesCard ""] eq_refl eq_refl)
      as Hrun.
    cbv zeta in Hrun. rewrite Hrun. vm_compute. reflexivity.
Defined.

Lemma array_get_negative : forall (A : Type) (array : list A) index,
  index < 0 -> array_get array index = None.
Proof.
  intros A array index H. unfold array_get.
  assert (Hnum : (Qnum (Qred index) < 0)%Z).
  { rewrite <- (Qred_correct index) in H. unfold Qlt in H. cbn in H. lia. }
  destruct (0 <=? Qnum (Qred index))%Z eqn:E;
    [apply Z.leb_le in E; lia | now rewrite andb_false_r].
Qed.

Section SingleFacts.

Context {Image Exn Buffer : Type}.
Variable measure : Font -> string -> Q.
Variable loadImage : string -> Result Exn Image.
Variable toUpperCase toLowerCase : string -> string.
Variable path_join : string -> string -> string.
Variable readCSV : string -> CsvStream Exn.
Variable ensureDir : string -> Result Exn unit.
Variable toBuffer : Canvas Image -> Result Exn Buffer.
Variable convertToWebP : Buffer -> Q -> Result Exn Buffer.
Variable typeError : Exn.

(** The data [generateSingleCard] works on: the data of the generator,
    or, when there is none, the rows the parser ends with. *)
Lemma single_data : forall (w : World Buffer) cards,
  (cardData (generator w) <> [] /\ cards = cardData (generator w)
   \/ cardData (generator w) = []
      /\ readCSV (Config.csvPath (config (generator w))) = CsvEnd cards) ->
  (if (length (cardData (generator w)) =? 0)%nat
   then loadCSV readCSV w
   else (Resolved (cardData (generator w)), w))
  = (Resolved cards,
     mkWorld
       (mkCardGenerator (config (generator w)) (loadedFonts (generator w))
          cards)
       (registered w) (fsCalls w)).
Proof.
  intros [[settings loaded data] regs calls] cards.
  cbn [generator cardData config loadedFonts registered fsCalls].
  intros [[Hne ->]|[-> Hcsv]].
  - destruct data; [congruence | reflexivity].
  - cbn [length Nat.eqb]. unfold loadCSV. cbn [generator config].
    now rewrite Hcsv.
Qed.

End SingleFacts.

(** X23.  [generateSingleCard] with an index that is not in the data.
    An index at or beyond the number of cards returns normally, and a
    negative index throws the [TypeError] of the missing card; either
    way the only file system call is the [ensureDir]: nothing is
    removed and nothing is written. *)
Theorem generateSingleCard_out_of_range :
  forall (Image Exn Buffer : Type) (measure : Font -> string -> Q)
         (loadImage : string -> Result Exn Image)
         (toUpperCase toLowerCase : string -> string)
         (path_join : string -> string -> string)
         (readCSV : string -> CsvStream Exn)
         (ensureDir : string -> Result Exn unit)
         (toBuffer : Canvas Image -> Result Exn Buffer)
         (convertToWebP : Buffer -> Q -> Result Exn Buffer)
         (typeError : Exn) (w : World Buffer) (cards : list CardData.t)
         (cardIndex : Q) (debugMode : bool) (u : unit),
    let settings := config (generator w) in
    let outputDir := Config.outputDir settings in
    let run :=
      generateSingleCard measure loadImage toUpperCase toLowerCase path_join
        readCSV ensureDir toBuffer convertToWebP typeError cardIndex
        debugMode w in
    let after :=
      mkWorld (mkCardGenerator settings (loadedFonts (generator w)) cards)
        (registered w) (fsCalls w ++ [EnsureDir outputDir]) in
    ensureDir outputDir = Ok u ->
    (cardData (generator w) <> [] /\ cards = cardData (generator w)
     \/ cardData (generator w) = []
        /\ readCSV (Config.csvPath settings) = CsvEnd cards) ->
    (Js.of_nat (length cards) <= cardIndex -> run = (Resolved tt, after))
    /\ (cardIndex < 0 -> run = (Rejected typeError, after)).
Proof.
  intros Image Exn Buffer measure loadImage toUpperCase toLowerCase path_join
         readCSV ensureDir toBuffer convertToWebP typeError w cards cardIndex
         debugMode u settings outputDir run after Hdir Hdata.
  subst run. unfold generateSingleCard. fold settings. fold outputDir.
  rewrite Hdir.
  rewrite (single_data readCSV (fsCall (EnsureDir outputDir) w) cards Hdata).
  cbn [generator cardData config loadedFonts registered fsCalls fsCall].
  fold settings. fold outputDir. fold after.
  split.
  - intro Hle. apply Qle_bool_iff in Hle. now rewrite Hle.
  - intro Hneg.
    destruct (Qle_bool (Js.of_nat (length cards)) cardIndex) eqn:E.
    + apply Qle_bool_iff in E. exfalso.
      assert (H0 : 0 <= Js.of_nat (length cards))
        by (unfold Js.of_nat, Qle; cbn; lia).
      lra.
    + now rewrite (array_get_negative _ cards cardIndex Hneg).
Qed.

Lemma generateSingleCard_out_of_range_witness :
  generateSingleCard charWidth pathImage sameCase sameCase joinPath twoCards
    anyDir pngOf webpOf tt 2 true newWorld
  = (Resolved tt,
     mkWorld
       (mkCardGenerator (config fontsGenerator) []
          [herculesCard "0x51"; herculesCard ""])
       [] [EnsureDir "./output"])
  /\ generateSingleCard charWidth pathImage sameCase sameCase joinPath
       twoCards anyDir pngOf webpOf tt (-1) true newWorld
     = (Rejected tt,
        mkWorld
          (mkCardGenerator (config fontsGenerator) []
             [herculesCard "0x51"; herculesCard ""])
          [] [EnsureDir "./output"]).
Proof.
  split.
  - apply (generateSingleCard_out_of_range string unit string charWidth
             pathImage sameCase sameCase joinPath twoCards anyDir pngOf
             webpOf tt newWorld [herculesCard "0x51"; herculesCard ""] 2
             true tt eq_refl (or_intror (conj eq_refl eq_refl))).
    discriminate.
  - apply (generateSingleCard_out_of_range string unit string charWidth
             pathImage sameCase sameCase joinPath twoCards anyDir pngOf
             webpOf tt newWorld [herculesCard "0x51"; herculesCard ""] (-1)
             true tt eq_refl (or_intror (conj eq_refl eq_refl))).
    reflexivity.
Defined.

(** X24.  [generateSingleCard] with an index in the data resolves, and
    its file is always [1.webp] in the output directory, whichever card
    is chosen.  The card at that index is drawn (with the debug mode
    asked for) and gives a canvas; the file system calls are the
    [ensureDir], the removal of [1.webp], and then one [writeFile] of
    the converted buffer to [1.webp] when the canvas can be encoded and
    the encoding converted, and nothing otherwise.  The generator keeps
    its configuration and fonts, with the data it worked on. *)
Theorem generateSingleCard_writes_one_file :
  forall (Image Exn Buffer : Type) (measure : Font -> string -> Q)
         (loadImage : string -> Result Exn Image)
         (toUpperCase toLowerCase : string -> string)
         (path_join : string -> string -> string)
         (readCSV : string -> CsvStream Exn)
         (ensureDir : string -> Result Exn unit)
         (toBuffer : Canvas Image -> Result Exn Buffer)
         (convertToWebP : Buffer -> Q -> Result Exn Buffer)
         (typeError : Exn) (w : World Buffer) (cards : list CardData.t)
         (cardIndex : Q) (debugMode : bool) (u : unit) (card : CardData.t),
    let settings := config (generator w) in
    let outputDir := Config.outputDir settings in
    let outputPath := path_join outputDir "1.webp" in
    let this := mkCardGenerator settings (loadedFonts (generator w)) cards in
    let run :=
      generateSingleCard measure loadImage toUpperCase toLowerCase path_join
        readCSV ensureDir toBuffer convertToWebP typeError cardIndex
        debugMode w in
    ensureDir outputDir = Ok u ->
    (cardData (generator w) <> [] /\ cards = cardData (generator w)
     \/ cardData (generator w) = []
        /\ readCSV (Config.csvPath settings) = CsvEnd cards) ->
    cardIndex < Js.of_nat (length cards) ->
    array_get cards cardIndex = Some card ->
    exists canvas,
      generateCard measure loadImage toUpperCase toLowerCase path_join this
        card debugMode
      = Ok canvas
      /\ run
         = (Resolved tt,
            mkWorld this (registered w)
              (fsCalls w
               ++ [EnsureDir outputDir; Remove outputPath]
               ++ match toBuffer canvas with
                  | Throw _ => []
                  | Ok png =>
                      match
                        convertToWebP png (Config.webpQuality settings)
                      with
                      | Throw _ => []
                      | Ok webp => [WriteFile outputPath webp]
                      end
                  end)).
Proof.
  intros Image Exn Buffer measure loadImage toUpperCase toLowerCase path_join
         readCSV ensureDir toBuffer convertToWebP typeError w cards cardIndex
         debugMode u card settings outputDir outputPath this run Hdir Hdata
         Hlt Hget.
  destruct (generateCard_ok Image Exn measure loadImage toUpperCase
              toLowerCase path_join this card debugMode) as (canvas & Hcard).
  exists canvas. split; [exact Hcard|].
  subst run. unfold generateSingleCard. fold settings. fold outputDir.
  rewrite Hdir.
  rewrite (single_data readCSV (fsCall (EnsureDir outputDir) w) cards Hdata).
  cbn [generator cardData config loadedFonts registered fsCalls fsCall].
  fold settings. fold outputDir. fold outputPath. fold this.
  destruct (Qle_bool (Js.of_nat (length cards)) cardIndex) eqn:E.
  { apply Qle_bool_iff in E. exfalso. exact (Qlt_not_le _ _ Hlt E). }
  rewrite Hget, Hcard.
  destruct (toBuffer canvas) as [png|e1]; unfold fsCall;
    cbn [fsCalls generator registered].
  - destruct (convertToWebP png _) as [webp|e2];
      cbn [fsCalls generator registered];
      rewrite <- ?app_assoc; reflexivity.
  - rewrite <- ?app_assoc. reflexivity.
Qed.

Lemma generateSingleCard_writes_one_file_witness :
  generateSingleCard charWidth pathImage sameCase sameCase joinPath twoCards
    anyDir pngOf webpOf tt 1 true newWorld
  = (Resolved tt,
     mkWorld
       (mkCardGenerator (config fontsGenerator) []
          [herculesCard "0x51"; herculesCard ""])
       []
       [EnsureDir "./output"; Remove "./output/1.webp";
        WriteFile "./output/1.webp" "png.webp"])
  /\ generateSingleCard charWidth pathImage sameCase sameCase joinPath
       twoCards anyDir pngFails webpOf tt 1 true newWorld
     = (Resolved tt,
        mkWorld
          (mkCardGenerator (config fontsGenerator) []
             [herculesCard "0x51"; herculesCard ""])
          [] [EnsureDir "./output"; Remove "./output/1.webp"]).
Proof.
  split.
  - destruct (generateSingleCard_writes_one_file string unit string charWidth
                pathImage sameCase sameCase joinPath twoCards anyDir pngOf
                webpOf tt newWorld [herculesCard "0x51"; herculesCard ""] 1
                true tt (herculesCard "") eq_refl
                (or_intror (conj eq_refl eq_refl)) eq_refl eq_refl)
      as (canvas & _ & Hrun).
    cbv zeta in Hrun. rewrite Hrun. reflexivity.
  - destruct (generateSingleCard_writes_one_file string unit string charWidth
                pathImage sameCase sameCase joinPath twoCards anyDir pngFails
                webpOf tt newWorld [herculesCard "0x51"; herculesCard ""] 1
                true tt (herculesCard "") eq_refl
                (or_intror (conj eq_refl eq_refl)) eq_refl eq_refl)
      as (canvas & _ & Hrun).
    cbv zeta in Hrun. rewrite Hrun. reflexivity.
Defined.

(** ** Blocks without padding *)

(** X25.  A block without padding, or with a padding of zero, is
    anchored on its own rectangle and wrapped at its own width (or at
    its declared maximum width): the anchor and the wrap limit are
    those of the block's rectangle. *)
Theorem no_padding_keeps_rect :
  forall layout : TextLayout.t,
    (TextLayout.padding layout = None
     \/ exists p, TextLayout.padding layout = Some p /\ p == 0) ->
    Point.x (getTextPosition (paddedLayout layout))
    == Point.x (getTextPosition layout)
    /\ Point.y (getTextPosition (paddedLayout layout))
       == Point.y (getTextPosition layout)
    /\ blockMaxWidth layout
       == Js.or_num (TextLayout.maxWidth layout) (TextLayout.width layout).
Proof.
  intros layout Hpad.
  assert (E : Js.or_num (TextLayout.padding layout) 0 = 0).
  { destruct Hpad as [->|(p & -> & Hp)]; [reflexivity|].
    cbn [Js.or_num]. apply Qeq_eq_bool in Hp. now rewrite Hp. }
  unfold blockMaxWidth, paddedLayout. rewrite E.
  unfold getTextPosition.
  cbn [TextLayout.with_rect TextLayout.x TextLayout.y TextLayout.width
       TextLayout.height TextLayout.align TextLayout.maxWidth].
  split; [|split].
  - repeat match goal with
           | |- context [if ?b then _ else _] => destruct b
           end; cbn [Point.x]; field.
  - repeat match goal with
           | |- context [if ?b then _ else _] => destruct b
           end; cbn [Point.y]; field.
  - destruct (TextLayout.maxWidth layout) as [m|]; cbn [Js.or_num].
    + destruct (Qeq_bool m 0); [ring | reflexivity].
    + ring.
Qed.

Lemma no_padding_keeps_rect_witness :
  Point.x (getTextPosition (paddedLayout (sampleBlock "center")))
  == 100 + 550 / 2.
Proof.
  destruct (no_padding_keeps_rect (sampleBlock "center") (or_introl eq_refl))
    as (H & _ & _).
  exact H.
Defined.
